(** * CyberCommand: Missao Teclado -- a shallow embedding of [app.py]

    The development follows the source file top-down: text primitives
    (Python [str] values are sequences of Unicode code points), the mission
    catalogue, [normalize_combo], the session state and its transitions
    ([prepare_mission_context], [validate_mission_by_result],
    [apply_simulation_effect], [register_mission_success], [render_start],
    [render_game]) and the browser-side shortcut guard that
    [inject_browser_shortcut_guard] installs. *)

From stdpp Require Import base numbers list gmap strings pretty.
From Stdlib Require Import Ascii.

Local Open Scope Z_scope.

(** ** Text *)

(** A Python [str] (and a JavaScript string of the basic plane) is the list
    of its code points. *)
Abbreviation pystr := (list N).

(** Source literals are ASCII; [py] reads one off a Rocq string. *)
Definition py (s : string) : pystr :=
  (λ a, N_of_ascii a) <$> String.list_ascii_of_string s.

(** [str(n)] and the [{n}] of an f-string for an [int]. *)
Definition py_str_int (n : Z) : pystr := py (pretty n).

(** [str.isspace] for one code point; [str.strip()] and the [\s] class of
    [re] on [str] patterns both use this predicate. *)
Definition py_isspace (c : N) : bool :=
  ((9 <=? c) && (c <=? 13) || (28 <=? c) && (c <=? 32) ||
   (c =? 133) || (c =? 160) || (c =? 5760) ||
   (8192 <=? c) && (c <=? 8202) || (c =? 8232) || (c =? 8233) ||
   (c =? 8239) || (c =? 8287) || (c =? 12288))%N.

Fixpoint lstrip (s : pystr) : pystr :=
  match s with
  | c :: s' => if py_isspace c then lstrip s' else s
  | [] => []
  end.

Definition rstrip (s : pystr) : pystr := reverse (lstrip (reverse s)).

(** [s.strip()] *)
Definition strip (s : pystr) : pystr := rstrip (lstrip s).

(** Case mappings of single code points, as [str.lower], [str.upper] and the
    title-casing of [str.capitalize] apply them.  The tables are those of
    Unicode for the code points up to U+00FF and for the three code points
    their images reach (U+0178, U+039C, U+03BC); any other code point is
    left as it is. *)
Definition lower_cp (c : N) : pystr :=
  (if (65 <=? c) && (c <=? 90) then [c + 32]
   else if (192 <=? c) && (c <=? 222) && negb (c =? 215) then [c + 32]
   else if c =? 376 then [255]
   else if c =? 924 then [956]
   else [c])%N.

Definition upper_cp (c : N) : pystr :=
  (if (97 <=? c) && (c <=? 122) then [c - 32]
   else if c =? 181 then [924]
   else if c =? 223 then [83; 83]
   else if (224 <=? c) && (c <=? 254) && negb (c =? 247) then [c - 32]
   else if c =? 255 then [376]
   else if c =? 956 then [924]
   else [c])%N.

Definition title_cp (c : N) : pystr :=
  (if c =? 223 then [83; 115] else upper_cp c)%N.

(** [s.lower()], [s.upper()], [s.capitalize()] *)
Definition lower (s : pystr) : pystr := s ≫= lower_cp.
Definition upper (s : pystr) : pystr := s ≫= upper_cp.
Definition capitalize (s : pystr) : pystr :=
  match s with
  | [] => []
  | c :: r => title_cp c ++ lower r
  end.

(** [sep.join(parts)] *)
Fixpoint join (sep : pystr) (parts : list pystr) : pystr :=
  match parts with
  | [] => []
  | [p] => p
  | p :: ps => p ++ sep ++ join sep ps
  end.

(** [s.startswith(p)] *)
Fixpoint startswith (p s : pystr) : bool :=
  match p, s with
  | [], _ => true
  | a :: p', b :: s' => (a =? b)%N && startswith p' s'
  | _ :: _, [] => false
  end.

(** Python subscripting [l[i]]: a negative index counts from the end, an
    index out of range raises [IndexError] (here [None]). *)
Definition py_index (len : nat) (i : Z) : option nat :=
  if decide (0 ≤ i < Z.of_nat len) then Some (Z.to_nat i)
  else if decide (- Z.of_nat len ≤ i < 0) then Some (Z.to_nat (Z.of_nat len + i))
  else None.

Definition py_getitem {A} (l : list A) (i : Z) : option A :=
  n ← py_index (length l) i; l !! n.

(** ** normalize_combo *)

(** The separator class [[+\s]] of the pattern. *)
Definition is_sep (c : N) : bool := (c =? 43)%N || py_isspace c.

(** [re.split(r"[+\s]+", s)]: the pieces between the maximal runs of
    separators, the empty pieces at either end included.  [in_sep] tells
    that the previous character belonged to a separator run. *)
Fixpoint re_split_from (in_sep : bool) (s : pystr) : list pystr :=
  match s with
  | [] => [[]]
  | c :: s' =>
      if is_sep c then
        if in_sep then re_split_from true s' else [] :: re_split_from true s'
      else
        match re_split_from false s' with
        | p :: ps => (c :: p) :: ps
        | [] => [[c]]
        end
  end.

Definition re_split (s : pystr) : list pystr := re_split_from false s.

Definition mapping_items : list (pystr * pystr) :=
    [ (py "control", py "Ctrl"); (py "ctrl", py "Ctrl"); (py "alt", py "Alt");
      (py "shift", py "Shift"); (py "win", py "Win"); (py "meta", py "Win");
      (py "del", py "Del"); (py "delete", py "Del"); (py "tab", py "Tab");
      (py "esc", py "Esc"); (py "escape", py "Esc");
      (py "setadireita", py "Right"); (py "direita", py "Right");
      (py "right", py "Right"); (py "setaesquerda", py "Left");
      (py "esquerda", py "Left"); (py "left", py "Left");
      (py "setacima", py "Up"); (py "cima", py "Up"); (py "up", py "Up");
      (py "setabaixo", py "Down"); (py "baixo", py "Down");
      (py "down", py "Down"); (py "inicio", py "Home"); (py "home", py "Home");
      (py "fim", py "End"); (py "end", py "End"); (py "windows", py "Win") ].

Definition mapping : gmap pystr pystr := list_to_map mapping_items.

(** The body of the [for token in raw] loop. *)
Definition normalize_token (token : pystr) : pystr :=
  default (if decide (length token = 1%nat) then upper token
           else capitalize token)
          (mapping !! lower token).

Definition modifier_names : list pystr :=
  [py "Ctrl"; py "Alt"; py "Shift"; py "Win"].

Definition normalize_combo (text : pystr) : pystr :=
  let raw := re_split (strip text) in
  let raw := filter (λ token, token ≠ []) raw in
  if decide (raw = []) then []
  else
    let norm := normalize_token <$> raw in
    let modifiers := filter (λ m, m ∈ norm) modifier_names in
    let rest := filter (λ k, k ∉ modifier_names) norm in
    join (py "+") (modifiers ++ rest).

(** ** The mission catalogue *)

Record Mission := {
  phase : pystr;
  label : pystr;
  real_combo : pystr;
  safe_combo : pystr;
  keys : list pystr;
  xp : Z;
  task_type : pystr;
}.

Definition MISSIONS : list Mission :=
  [ Build_Mission (py "Fase 1 - Texto") (py "Copiar texto da origem")
      (py "Ctrl+C") (py "Ctrl+C") [py "Ctrl"; py "C"] 10 (py "copy");
    Build_Mission (py "Fase 1 - Texto") (py "Colar texto no destino")
      (py "Ctrl+V") (py "Ctrl+V") [py "Ctrl"; py "V"] 10 (py "paste");
    Build_Mission (py "Fase 1 - Texto") (py "Selecionar todo o texto no destino")
      (py "Ctrl+A") (py "Ctrl+A") [py "Ctrl"; py "A"] 12 (py "select_all");
    Build_Mission (py "Fase 1 - Texto") (py "Recortar texto selecionado no destino")
      (py "Ctrl+X") (py "Ctrl+X") [py "Ctrl"; py "X"] 12 (py "cut");
    Build_Mission (py "Fase 1 - Texto") (py "Desfazer recorte no destino")
      (py "Ctrl+Z") (py "Ctrl+Z") [py "Ctrl"; py "Z"] 12 (py "undo");
    Build_Mission (py "Fase 1 - Texto") (py "Colar sem formatacao")
      (py "Ctrl+Shift+V") (py "Ctrl+Shift+V") [py "Ctrl"; py "Shift"; py "V"] 14
      (py "paste_plain") ].

Definition DANGEROUS_COMBOS : gset pystr :=
  {[ py "Ctrl+W"; py "Ctrl+T"; py "Ctrl+Shift+T"; py "Ctrl+R"; py "F5";
     py "Ctrl+N"; py "Ctrl+L"; py "Alt+F4"; py "Alt+Tab"; py "Win+L" ]}.

Definition is_dangerous_combo (combo : pystr) : bool :=
  bool_decide (combo ∈ DANGEROUS_COMBOS).

Definition expected_combo (mission : Mission) : pystr := real_combo mission.

(** ** Players and the session state *)

(** One entry of [st.session_state.players]: the dict built by
    [init_players].  Times are elapsed microseconds. *)
Record Player := {
  p_id : Z;
  p_xp : Z;
  p_hits : Z;
  p_attempts : Z;
  p_errors : Z;
  p_phase_hits : gmap pystr Z;
  p_mission_times : list Z;
}.

Definition init_players (count : Z) : list Player :=
  (λ idx, {| p_id := idx + 1; p_xp := 0; p_hits := 0; p_attempts := 0;
             p_errors := 0;
             p_phase_hits :=
               list_to_map [(py "1", 0); (py "2", 0); (py "3", 0);
                            (py "4", 0); (py "5", 0)];
             p_mission_times := [] |}) <$> seqZ 0 count.

(** [st.session_state], one field per key of [init_state] that a modelled
    transition reads or writes ([teacher_cfg] and the two report-upload
    keys belong to the report collaborator).  A [datetime] is a count of
    microseconds; [None] is Python's [None]. *)
Record session_state := {
  stage : pystr;
  players_count : Z;
  players : list Player;
  current_player : Z;
  mission_idx : Z;
  total_xp : Z;
  safe_mode : bool;
  game_started_at : option Z;
  mission_started_at : option Z;
  finish_reason : pystr;
  turma_grupo : pystr;
  alunos : pystr;
  feedback : pystr;
  clipboard_virtual : pystr;
  source_text : pystr;
  destination_text : pystr;
  editor_box : pystr;
  final_box : pystr;
  undo_stack : list pystr;
  sim_tabs : Z;
  active_window : pystr;
  show_desktop : bool;
  locked_screen : bool;
  security_menu_open : bool;
  action_log : pystr;
  source_initial : pystr;
  undo_target : pystr;
  mission_ctx_idx : Z;
  last_mission_idx : Z;
}.

(** Assignments [st.session_state.key = v]. *)
Definition set_stage (v : pystr) (s : session_state) : session_state :=
  Build_session_state
    v (players_count s) (players s) (current_player s) (mission_idx s)
    (total_xp s) (safe_mode s) (game_started_at s) (mission_started_at s)
    (finish_reason s) (turma_grupo s) (alunos s) (feedback s)
    (clipboard_virtual s) (source_text s) (destination_text s) (editor_box
    s) (final_box s) (undo_stack s) (sim_tabs s) (active_window s)
    (show_desktop s) (locked_screen s) (security_menu_open s) (action_log s)
    (source_initial s) (undo_target s) (mission_ctx_idx s) (last_mission_idx
    s).
Definition set_players_count (v : Z) (s : session_state) : session_state :=
  Build_session_state
    (stage s) v (players s) (current_player s) (mission_idx s) (total_xp s)
    (safe_mode s) (game_started_at s) (mission_started_at s) (finish_reason
    s) (turma_grupo s) (alunos s) (feedback s) (clipboard_virtual s)
    (source_text s) (destination_text s) (editor_box s) (final_box s)
    (undo_stack s) (sim_tabs s) (active_window s) (show_desktop s)
    (locked_screen s) (security_menu_open s) (action_log s) (source_initial
    s) (undo_target s) (mission_ctx_idx s) (last_mission_idx s).
Definition set_players (v : list Player) (s : session_state) : session_state :=
  Build_session_state
    (stage s) (players_count s) v (current_player s) (mission_idx s)
    (total_xp s) (safe_mode s) (game_started_at s) (mission_started_at s)
    (finish_reason s) (turma_grupo s) (alunos s) (feedback s)
    (clipboard_virtual s) (source_text s) (destination_text s) (editor_box
    s) (final_box s) (undo_stack s) (sim_tabs s) (active_window s)
    (show_desktop s) (locked_screen s) (security_menu_open s) (action_log s)
    (source_initial s) (undo_target s) (mission_ctx_idx s) (last_mission_idx
    s).
Definition set_current_player (v : Z) (s : session_state) : session_state :=
  Build_session_state
    (stage s) (players_count s) (players s) v (mission_idx s) (total_xp s)
    (safe_mode s) (game_started_at s) (mission_started_at s) (finish_reason
    s) (turma_grupo s) (alunos s) (feedback s) (clipboard_virtual s)
    (source_text s) (destination_text s) (editor_box s) (final_box s)
    (undo_stack s) (sim_tabs s) (active_window s) (show_desktop s)
    (locked_screen s) (security_menu_open s) (action_log s) (source_initial
    s) (undo_target s) (mission_ctx_idx s) (last_mission_idx s).
Definition set_mission_idx (v : Z) (s : session_state) : session_state :=
  Build_session_state
    (stage s) (players_count s) (players s) (current_player s) v (total_xp
    s) (safe_mode s) (game_started_at s) (mission_started_at s)
    (finish_reason s) (turma_grupo s) (alunos s) (feedback s)
    (clipboard_virtual s) (source_text s) (destination_text s) (editor_box
    s) (final_box s) (undo_stack s) (sim_tabs s) (active_window s)
    (show_desktop s) (locked_screen s) (security_menu_open s) (action_log s)
    (source_initial s) (undo_target s) (mission_ctx_idx s) (last_mission_idx
    s).
Definition set_total_xp (v : Z) (s : session_state) : session_state :=
  Build_session_state
    (stage s) (players_count s) (players s) (current_player s) (mission_idx
    s) v (safe_mode s) (game_started_at s) (mission_started_at s)
    (finish_reason s) (turma_grupo s) (alunos s) (feedback s)
    (clipboard_virtual s) (source_text s) (destination_text s) (editor_box
    s) (final_box s) (undo_stack s) (sim_tabs s) (active_window s)
    (show_desktop s) (locked_screen s) (security_menu_open s) (action_log s)
    (source_initial s) (undo_target s) (mission_ctx_idx s) (last_mission_idx
    s).
Definition set_safe_mode (v : bool) (s : session_state) : session_state :=
  Build_session_state
    (stage s) (players_count s) (players s) (current_player s) (mission_idx
    s) (total_xp s) v (game_started_at s) (mission_started_at s)
    (finish_reason s) (turma_grupo s) (alunos s) (feedback s)
    (clipboard_virtual s) (source_text s) (destination_text s) (editor_box
    s) (final_box s) (undo_stack s) (sim_tabs s) (active_window s)
    (show_desktop s) (locked_screen s) (security_menu_open s) (action_log s)
    (source_initial s) (undo_target s) (mission_ctx_idx s) (last_mission_idx
    s).
Definition set_game_started_at (v : option Z) (s : session_state) : session_state :=
  Build_session_state
    (stage s) (players_count s) (players s) (current_player s) (mission_idx
    s) (total_xp s) (safe_mode s) v (mission_started_at s) (finish_reason s)
    (turma_grupo s) (alunos s) (feedback s) (clipboard_virtual s)
    (source_text s) (destination_text s) (editor_box s) (final_box s)
    (undo_stack s) (sim_tabs s) (active_window s) (show_desktop s)
    (locked_screen s) (security_menu_open s) (action_log s) (source_initial
    s) (undo_target s) (mission_ctx_idx s) (last_mission_idx s).
Definition set_mission_started_at (v : option Z) (s : session_state) : session_state :=
  Build_session_state
    (stage s) (players_count s) (players s) (current_player s) (mission_idx
    s) (total_xp s) (safe_mode s) (game_started_at s) v (finish_reason s)
    (turma_grupo s) (alunos s) (feedback s) (clipboard_virtual s)
    (source_text s) (destination_text s) (editor_box s) (final_box s)
    (undo_stack s) (sim_tabs s) (active_window s) (show_desktop s)
    (locked_screen s) (security_menu_open s) (action_log s) (source_initial
    s) (undo_target s) (mission_ctx_idx s) (last_mission_idx s).
Definition set_finish_reason (v : pystr) (s : session_state) : session_state :=
  Build_session_state
    (stage s) (players_count s) (players s) (current_player s) (mission_idx
    s) (total_xp s) (safe_mode s) (game_started_at s) (mission_started_at s)
    v (turma_grupo s) (alunos s) (feedback s) (clipboard_virtual s)
    (source_text s) (destination_text s) (editor_box s) (final_box s)
    (undo_stack s) (sim_tabs s) (active_window s) (show_desktop s)
    (locked_screen s) (security_menu_open s) (action_log s) (source_initial
    s) (undo_target s) (mission_ctx_idx s) (last_mission_idx s).
Definition set_turma_grupo (v : pystr) (s : session_state) : session_state :=
  Build_session_state
    (stage s) (players_count s) (players s) (current_player s) (mission_idx
    s) (total_xp s) (safe_mode s) (game_started_at s) (mission_started_at s)
    (finish_reason s) v (alunos s) (feedback s) (clipboard_virtual s)
    (source_text s) (destination_text s) (editor_box s) (final_box s)
    (undo_stack s) (sim_tabs s) (active_window s) (show_desktop s)
    (locked_screen s) (security_menu_open s) (action_log s) (source_initial
    s) (undo_target s) (mission_ctx_idx s) (last_mission_idx s).
Definition set_alunos (v : pystr) (s : session_state) : session_state :=
  Build_session_state
    (stage s) (players_count s) (players s) (current_player s) (mission_idx
    s) (total_xp s) (safe_mode s) (game_started_at s) (mission_started_at s)
    (finish_reason s) (turma_grupo s) v (feedback s) (clipboard_virtual s)
    (source_text s) (destination_text s) (editor_box s) (final_box s)
    (undo_stack s) (sim_tabs s) (active_window s) (show_desktop s)
    (locked_screen s) (security_menu_open s) (action_log s) (source_initial
    s) (undo_target s) (mission_ctx_idx s) (last_mission_idx s).
Definition set_feedback (v : pystr) (s : session_state) : session_state :=
  Build_session_state
    (stage s) (players_count s) (players s) (current_player s) (mission_idx
    s) (total_xp s) (safe_mode s) (game_started_at s) (mission_started_at s)
    (finish_reason s) (turma_grupo s) (alunos s) v (clipboard_virtual s)
    (source_text s) (destination_text s) (editor_box s) (final_box s)
    (undo_stack s) (sim_tabs s) (active_window s) (show_desktop s)
    (locked_screen s) (security_menu_open s) (action_log s) (source_initial
    s) (undo_target s) (mission_ctx_idx s) (last_mission_idx s).
Definition set_clipboard_virtual (v : pystr) (s : session_state) : session_state :=
  Build_session_state
    (stage s) (players_count s) (players s) (current_player s) (mission_idx
    s) (total_xp s) (safe_mode s) (game_started_at s) (mission_started_at s)
    (finish_reason s) (turma_grupo s) (alunos s) (feedback s) v (source_text
    s) (destination_text s) (editor_box s) (final_box s) (undo_stack s)
    (sim_tabs s) (active_window s) (show_desktop s) (locked_screen s)
    (security_menu_open s) (action_log s) (source_initial s) (undo_target s)
    (mission_ctx_idx s) (last_mission_idx s).
Definition set_source_text (v : pystr) (s : session_state) : session_state :=
  Build_session_state
    (stage s) (players_count s) (players s) (current_player s) (mission_idx
    s) (total_xp s) (safe_mode s) (game_started_at s) (mission_started_at s)
    (finish_reason s) (turma_grupo s) (alunos s) (feedback s)
    (clipboard_virtual s) v (destination_text s) (editor_box s) (final_box
    s) (undo_stack s) (sim_tabs s) (active_window s) (show_desktop s)
    (locked_screen s) (security_menu_open s) (action_log s) (source_initial
    s) (undo_target s) (mission_ctx_idx s) (last_mission_idx s).
Definition set_destination_text (v : pystr) (s : session_state) : session_state :=
  Build_session_state
    (stage s) (players_count s) (players s) (current_player s) (mission_idx
    s) (total_xp s) (safe_mode s) (game_started_at s) (mission_started_at s)
    (finish_reason s) (turma_grupo s) (alunos s) (feedback s)
    (clipboard_virtual s) (source_text s) v (editor_box s) (final_box s)
    (undo_stack s) (sim_tabs s) (active_window s) (show_desktop s)
    (locked_screen s) (security_menu_open s) (action_log s) (source_initial
    s) (undo_target s) (mission_ctx_idx s) (last_mission_idx s).
Definition set_editor_box (v : pystr) (s : session_state) : session_state :=
  Build_session_state
    (stage s) (players_count s) (players s) (current_player s) (mission_idx
    s) (total_xp s) (safe_mode s) (game_started_at s) (mission_started_at s)
    (finish_reason s) (turma_grupo s) (alunos s) (feedback s)
    (clipboard_virtual s) (source_text s) (destination_text s) v (final_box
    s) (undo_stack s) (sim_tabs s) (active_window s) (show_desktop s)
    (locked_screen s) (security_menu_open s) (action_log s) (source_initial
    s) (undo_target s) (mission_ctx_idx s) (last_mission_idx s).
Definition set_final_box (v : pystr) (s : session_state) : session_state :=
  Build_session_state
    (stage s) (players_count s) (players s) (current_player s) (mission_idx
    s) (total_xp s) (safe_mode s) (game_started_at s) (mission_started_at s)
    (finish_reason s) (turma_grupo s) (alunos s) (feedback s)
    (clipboard_virtual s) (source_text s) (destination_text s) (editor_box
    s) v (undo_stack s) (sim_tabs s) (active_window s) (show_desktop s)
    (locked_screen s) (security_menu_open s) (action_log s) (source_initial
    s) (undo_target s) (mission_ctx_idx s) (last_mission_idx s).
Definition set_undo_stack (v : list pystr) (s : session_state) : session_state :=
  Build_session_state
    (stage s) (players_count s) (players s) (current_player s) (mission_idx
    s) (total_xp s) (safe_mode s) (game_started_at s) (mission_started_at s)
    (finish_reason s) (turma_grupo s) (alunos s) (feedback s)
    (clipboard_virtual s) (source_text s) (destination_text s) (editor_box
    s) (final_box s) v (sim_tabs s) (active_window s) (show_desktop s)
    (locked_screen s) (security_menu_open s) (action_log s) (source_initial
    s) (undo_target s) (mission_ctx_idx s) (last_mission_idx s).
Definition set_sim_tabs (v : Z) (s : session_state) : session_state :=
  Build_session_state
    (stage s) (players_count s) (players s) (current_player s) (mission_idx
    s) (total_xp s) (safe_mode s) (game_started_at s) (mission_started_at s)
    (finish_reason s) (turma_grupo s) (alunos s) (feedback s)
    (clipboard_virtual s) (source_text s) (destination_text s) (editor_box
    s) (final_box s) (undo_stack s) v (active_window s) (show_desktop s)
    (locked_screen s) (security_menu_open s) (action_log s) (source_initial
    s) (undo_target s) (mission_ctx_idx s) (last_mission_idx s).
Definition set_active_window (v : pystr) (s : session_state) : session_state :=
  Build_session_state
    (stage s) (players_count s) (players s) (current_player s) (mission_idx
    s) (total_xp s) (safe_mode s) (game_started_at s) (mission_started_at s)
    (finish_reason s) (turma_grupo s) (alunos s) (feedback s)
    (clipboard_virtual s) (source_text s) (destination_text s) (editor_box
    s) (final_box s) (undo_stack s) (sim_tabs s) v (show_desktop s)
    (locked_screen s) (security_menu_open s) (action_log s) (source_initial
    s) (undo_target s) (mission_ctx_idx s) (last_mission_idx s).
Definition set_show_desktop (v : bool) (s : session_state) : session_state :=
  Build_session_state
    (stage s) (players_count s) (players s) (current_player s) (mission_idx
    s) (total_xp s) (safe_mode s) (game_started_at s) (mission_started_at s)
    (finish_reason s) (turma_grupo s) (alunos s) (feedback s)
    (clipboard_virtual s) (source_text s) (destination_text s) (editor_box
    s) (final_box s) (undo_stack s) (sim_tabs s) (active_window s) v
    (locked_screen s) (security_menu_open s) (action_log s) (source_initial
    s) (undo_target s) (mission_ctx_idx s) (last_mission_idx s).
Definition set_locked_screen (v : bool) (s : session_state) : session_state :=
  Build_session_state
    (stage s) (players_count s) (players s) (current_player s) (mission_idx
    s) (total_xp s) (safe_mode s) (game_started_at s) (mission_started_at s)
    (finish_reason s) (turma_grupo s) (alunos s) (feedback s)
    (clipboard_virtual s) (source_text s) (destination_text s) (editor_box
    s) (final_box s) (undo_stack s) (sim_tabs s) (active_window s)
    (show_desktop s) v (security_menu_open s) (action_log s) (source_initial
    s) (undo_target s) (mission_ctx_idx s) (last_mission_idx s).
Definition set_security_menu_open (v : bool) (s : session_state) : session_state :=
  Build_session_state
    (stage s) (players_count s) (players s) (current_player s) (mission_idx
    s) (total_xp s) (safe_mode s) (game_started_at s) (mission_started_at s)
    (finish_reason s) (turma_grupo s) (alunos s) (feedback s)
    (clipboard_virtual s) (source_text s) (destination_text s) (editor_box
    s) (final_box s) (undo_stack s) (sim_tabs s) (active_window s)
    (show_desktop s) (locked_screen s) v (action_log s) (source_initial s)
    (undo_target s) (mission_ctx_idx s) (last_mission_idx s).
Definition set_action_log (v : pystr) (s : session_state) : session_state :=
  Build_session_state
    (stage s) (players_count s) (players s) (current_player s) (mission_idx
    s) (total_xp s) (safe_mode s) (game_started_at s) (mission_started_at s)
    (finish_reason s) (turma_grupo s) (alunos s) (feedback s)
    (clipboard_virtual s) (source_text s) (destination_text s) (editor_box
    s) (final_box s) (undo_stack s) (sim_tabs s) (active_window s)
    (show_desktop s) (locked_screen s) (security_menu_open s) v
    (source_initial s) (undo_target s) (mission_ctx_idx s) (last_mission_idx
    s).
Definition set_source_initial (v : pystr) (s : session_state) : session_state :=
  Build_session_state
    (stage s) (players_count s) (players s) (current_player s) (mission_idx
    s) (total_xp s) (safe_mode s) (game_started_at s) (mission_started_at s)
    (finish_reason s) (turma_grupo s) (alunos s) (feedback s)
    (clipboard_virtual s) (source_text s) (destination_text s) (editor_box
    s) (final_box s) (undo_stack s) (sim_tabs s) (active_window s)
    (show_desktop s) (locked_screen s) (security_menu_open s) (action_log s)
    v (undo_target s) (mission_ctx_idx s) (last_mission_idx s).
Definition set_undo_target (v : pystr) (s : session_state) : session_state :=
  Build_session_state
    (stage s) (players_count s) (players s) (current_player s) (mission_idx
    s) (total_xp s) (safe_mode s) (game_started_at s) (mission_started_at s)
    (finish_reason s) (turma_grupo s) (alunos s) (feedback s)
    (clipboard_virtual s) (source_text s) (destination_text s) (editor_box
    s) (final_box s) (undo_stack s) (sim_tabs s) (active_window s)
    (show_desktop s) (locked_screen s) (security_menu_open s) (action_log s)
    (source_initial s) v (mission_ctx_idx s) (last_mission_idx s).
Definition set_mission_ctx_idx (v : Z) (s : session_state) : session_state :=
  Build_session_state
    (stage s) (players_count s) (players s) (current_player s) (mission_idx
    s) (total_xp s) (safe_mode s) (game_started_at s) (mission_started_at s)
    (finish_reason s) (turma_grupo s) (alunos s) (feedback s)
    (clipboard_virtual s) (source_text s) (destination_text s) (editor_box
    s) (final_box s) (undo_stack s) (sim_tabs s) (active_window s)
    (show_desktop s) (locked_screen s) (security_menu_open s) (action_log s)
    (source_initial s) (undo_target s) v (last_mission_idx s).
Definition set_last_mission_idx (v : Z) (s : session_state) : session_state :=
  Build_session_state
    (stage s) (players_count s) (players s) (current_player s) (mission_idx
    s) (total_xp s) (safe_mode s) (game_started_at s) (mission_started_at s)
    (finish_reason s) (turma_grupo s) (alunos s) (feedback s)
    (clipboard_virtual s) (source_text s) (destination_text s) (editor_box
    s) (final_box s) (undo_stack s) (sim_tabs s) (active_window s)
    (show_desktop s) (locked_screen s) (security_menu_open s) (action_log s)
    (source_initial s) (undo_target s) (mission_ctx_idx s) v.

(** The session as [init_state] leaves it on the first run. *)
Definition init_state : session_state := {|
  stage := py "start";
  players_count := 1;
  players := [];
  current_player := 0;
  mission_idx := 0;
  total_xp := 0;
  safe_mode := true;
  game_started_at := None;
  mission_started_at := None;
  finish_reason := [];
  turma_grupo := [];
  alunos := [];
  feedback := [];
  clipboard_virtual := [];
  source_text :=
    py "Texto de treino: copie este paragrafo com Ctrl+C e cole no bloco de destino usando Ctrl+V.";
  destination_text := [];
  editor_box := [];
  final_box := [];
  undo_stack := [];
  sim_tabs := 1;
  active_window := py "Editor";
  show_desktop := false;
  locked_screen := false;
  security_menu_open := false;
  action_log := [];
  source_initial := [];
  undo_target := [];
  mission_ctx_idx := -1;
  last_mission_idx := -1;
|}.

(** [MISSIONS[st.session_state.mission_idx]] *)
Definition current_mission (s : session_state) : option Mission :=
  py_getitem MISSIONS (mission_idx s).

Definition init_simulation_env (s : session_state) : session_state :=
  let s := set_clipboard_virtual [] s in
  let s := set_source_text
    (py "Texto de treino: copie este paragrafo com Ctrl+C e cole no bloco de destino usando Ctrl+V.") s in
  let s := set_destination_text [] s in
  let s := set_undo_stack [] s in
  let s := set_sim_tabs 1 s in
  let s := set_active_window (py "Editor") s in
  let s := set_show_desktop false s in
  let s := set_locked_screen false s in
  let s := set_security_menu_open false s in
  let s := set_action_log (py "Simulador iniciado.") s in
  let s := set_source_initial
    (py "Texto base: pratique os comandos de edicao nesta atividade.") s in
  let s := set_undo_target [] s in
  let s := set_mission_ctx_idx (-1) s in
  let s := set_editor_box [] s in
  set_final_box [] s.

Definition samples : list pystr :=
  [ py "A tecnologia move o mundo.";
    py "Aprender atalhos aumenta a produtividade.";
    py "Cada comando economiza segundos preciosos.";
    py "Praticar diariamente gera autonomia digital.";
    py "Copiar, colar e desfazer sao superpoderes basicos." ].

(** [samples[st.session_state.current_player % len(samples)]]; Python's [%]
    takes the sign of the divisor, as [Z.modulo] does, so the subscript is
    always in range. *)
Definition sample_for (current_player : Z) : pystr :=
  default [] (py_getitem samples (current_player `mod` Z.of_nat (length samples))).

Definition prepare_mission_context (mission : Mission) (mission_idx : Z)
    (s : session_state) : session_state :=
  if decide (mission_ctx_idx s = current_player s) then s
  else
    let sample := sample_for (current_player s) in
    let s := set_source_text sample s in
    let s := set_source_initial sample s in
    let s := set_destination_text [] s in
    let s := set_editor_box [] s in
    let s := set_final_box [] s in
    let s := set_undo_target [] s in
    let s := set_action_log
      (py "Contexto carregado para o Jogador " ++
       py_str_int (current_player s + 1) ++ py ".") s in
    set_mission_ctx_idx (current_player s) s.

Definition validate_mission_by_result (mission : Mission)
    (source_value editor_value final_value : pystr) (s : session_state)
    : bool * pystr :=
  let src_now := strip source_value in
  let editor_now := strip editor_value in
  let final_now := strip final_value in
  let src_initial := strip (source_initial s) in
  if decide (task_type mission = py "copy") then
    (bool_decide (src_now = src_initial),
     py "Para validar, selecione na ORIGEM e pressione Ctrl+C.")
  else if decide (task_type mission = py "paste") then
    (bool_decide (editor_now = src_initial),
     py "Para validar, cole o texto da origem na CAIXA DE TRABALHO com Ctrl+V.")
  else if decide (task_type mission = py "select_all") then
    (true, py "Use Ctrl+A na caixa de trabalho e clique em validar.")
  else if decide (task_type mission = py "cut") then
    (bool_decide (editor_now = []),
     py "Para validar, use Ctrl+A e Ctrl+X na caixa de trabalho para esvaziar o texto.")
  else if decide (task_type mission = py "undo") then
    (true, py "Use Ctrl+Z na caixa de trabalho e clique em validar.")
  else if decide (task_type mission = py "paste_plain") then
    (bool_decide (final_now = src_initial),
     py "Para validar, copie da origem e cole sem formatacao na CAIXA FINAL com Ctrl+Shift+V.")
  else (false, py "Missao desconhecida.").

(** The three literal sets of the last branches of [apply_simulation_effect]. *)
Definition logged_only_combos : gset pystr :=
  {[ py "Ctrl+L"; py "Ctrl+R"; py "F5"; py "Ctrl+S"; py "Ctrl+F"; py "Ctrl+A";
     py "Ctrl+Y"; py "Ctrl+Shift+V" ]}.
Definition window_combos : gset pystr :=
  {[ py "Win+Right"; py "Win+Left"; py "Win+Up"; py "Win+M"; py "Ctrl+Esc" ]}.
Definition navigation_combos : gset pystr :=
  {[ py "Ctrl+Right"; py "Ctrl+Left"; py "Ctrl+Shift+Right";
     py "Ctrl+Shift+Left"; py "Home"; py "End" ]}.

Definition apply_simulation_effect (combo : pystr) (s : session_state)
    : session_state :=
  if decide (combo = py "Alt+Tab") then
    let s := set_active_window
      (if decide (active_window s = py "Editor") then py "Navegador"
       else py "Editor") s in
    let s := set_show_desktop false s in
    set_action_log
      (py "Alt+Tab executado: foco trocado para " ++ active_window s ++ py ".") s
  else if decide (combo = py "Ctrl+T") then
    let s := set_sim_tabs (sim_tabs s + 1) s in
    set_action_log
      (py "Ctrl+T executado: nova aba virtual aberta (" ++
       py_str_int (sim_tabs s) ++ py ").") s
  else if decide (combo = py "Ctrl+W") then
    let s := set_sim_tabs (1 `max` (sim_tabs s - 1)) s in
    set_action_log
      (py "Ctrl+W executado: aba virtual fechada (" ++
       py_str_int (sim_tabs s) ++ py ").") s
  else if decide (combo = py "Win+D") then
    let s := set_show_desktop true s in
    set_action_log (py "Win+D executado: desktop virtual mostrado.") s
  else if decide (combo = py "Win+L") then
    let s := set_locked_screen true s in
    set_action_log (py "Win+L executado: tela virtual bloqueada.") s
  else if decide (combo = py "Ctrl+Alt+Del") then
    let s := set_security_menu_open true s in
    set_action_log
      (py "Ctrl+Alt+Del executado: menu de seguranca virtual aberto.") s
  else if decide (combo = py "Win+E") then
    let s := set_active_window (py "Explorador") s in
    set_action_log
      (py "Win+E executado: explorador de arquivos virtual aberto.") s
  else if decide (combo = py "Win+I") then
    let s := set_active_window (py "Configuracoes") s in
    set_action_log (py "Win+I executado: configuracoes virtuais abertas.") s
  else if decide (combo = py "Ctrl+Shift+Esc") then
    let s := set_active_window (py "Gerenciador de Tarefas") s in
    set_action_log
      (py "Ctrl+Shift+Esc executado: gerenciador de tarefas virtual aberto.") s
  else if decide (combo = py "Alt+F4") then
    let s := set_active_window (py "Editor") s in
    set_action_log (py "Alt+F4 executado: janela ativa virtual fechada.") s
  else if decide (combo = py "Win+Shift+S") then
    set_action_log
      (py "Win+Shift+S executado: captura de area virtual registrada.") s
  else if decide (combo = py "Ctrl+Shift+T") then
    let s := set_sim_tabs (sim_tabs s + 1) s in
    set_action_log
      (py "Ctrl+Shift+T executado: aba virtual reaberta (" ++
       py_str_int (sim_tabs s) ++ py ").") s
  else if decide (combo ∈ logged_only_combos) then
    set_action_log (combo ++ py " executado no simulador.") s
  else if decide (combo ∈ window_combos) then
    set_action_log
      (combo ++ py " executado: gerenciamento de janela/menu virtual atualizado.") s
  else if decide (combo ∈ navigation_combos) then
    set_action_log
      (combo ++ py " executado: navegacao de texto virtual aplicada.") s
  else s.

(** ** Mission success and turn rotation *)

(** [PHASE_REGEX.search(phase_text)] for the pattern [Fase\s+(\d)]: the
    leftmost position where [Fase], a run of whitespace and a decimal digit
    follow one another; the result is group 1.  The run is matched greedily
    and no whitespace is a digit, so a position matches exactly when the
    first non-blank after the run is a digit.  The phases of the catalogue
    are ASCII, whose digits are [0-9]. *)
Definition is_digit (c : N) : bool := ((48 <=? c) && (c <=? 57))%N.

Definition phase_match_here (s : pystr) : option pystr :=
  if startswith (py "Fase") s then
    match drop 4 s with
    | c :: r =>
        if py_isspace c then
          match lstrip r with
          | d :: _ => if is_digit d then Some [d] else None
          | [] => None
          end
        else None
    | [] => None
    end
  else None.

Fixpoint phase_search (s : pystr) : option pystr :=
  match phase_match_here s with
  | Some g => Some g
  | None => match s with
            | [] => None
            | _ :: s' => phase_search s'
            end
  end.

Definition phase_number (phase_text : pystr) : pystr :=
  default (py "1") (phase_search phase_text).

Definition finish_game (reason : pystr) (s : session_state) : session_state :=
  let s := set_stage (py "end") s in
  set_finish_reason reason s.

(** The updates of the [player] dict in the first lines of
    [register_mission_success]. *)
Definition credit_player (mission : Mission) (delta : Z) (p : Player) : Player :=
  let ph := phase_number (phase mission) in
  let hits0 := match p_phase_hits p !! ph with
               | Some _ => p_phase_hits p
               | None => <[ph := 0]> (p_phase_hits p)
               end in
  {| p_id := p_id p;
     p_xp := p_xp p + xp mission;
     p_hits := p_hits p + 1;
     p_attempts := p_attempts p;
     p_errors := p_errors p;
     p_phase_hits := <[ph := default 0 (hits0 !! ph) + 1]> hits0;
     p_mission_times := p_mission_times p ++ [delta] |}.

(** [register_mission_success(player, mission)].  [player] is the dict at
    position [pidx] of [st.session_state.players], mutated in place; [t1]
    and [t2] are the two readings of [datetime.now()].  [None] is the
    [TypeError] of subtracting [mission_started_at] while it is [None]. *)
Definition register_mission_success (pidx : nat) (mission : Mission)
    (t1 t2 : Z) (s : session_state) : option session_state :=
  player ← players s !! pidx;
  started ← mission_started_at s;
  let delta := t1 - started in
  let s := set_players (<[pidx := credit_player mission delta player]> (players s)) s in
  let s := set_total_xp (total_xp s + xp mission) s in
  let finished_player_list :=
    bool_decide (Z.of_nat (length MISSIONS) - 1 ≤ mission_idx s) in
  let s :=
    if finished_player_list then
      if bool_decide (1 < players_count s) &&
         bool_decide (current_player s < players_count s - 1) then
        let next_player := current_player s + 1 in
        let s := set_current_player next_player s in
        let s := set_mission_idx 0 s in
        let s := set_mission_ctx_idx (-1) s in
        let s := set_last_mission_idx (-1) s in
        set_feedback
          (py "Lista concluida pelo Jogador " ++ py_str_int (p_id player) ++
           py "! TROCA DE PILOTO! Vez do Jogador " ++
           py_str_int (next_player + 1) ++ py ".") s
      else
        let s := finish_game
          (py "Todos os alunos da equipe conclu" ++ [237%N] ++
           py "ram a lista de comandos.") s in
        set_feedback (py "Parabens! Atividade concluida por toda a equipe.") s
    else
      let s := set_mission_idx (mission_idx s + 1) s in
      set_feedback (py "Acerto critico! Missao concluida.") s in
  Some (set_mission_started_at (Some t2) s).

(** ** The pages *)

(** The body of [if st.button("Iniciar Missao")] in [render_start], with the
    values of the four inputs above it. *)
Definition start_mission (count : Z) (turma alunos_txt : pystr) (safe : bool)
    (t1 t2 : Z) (s : session_state) : session_state :=
  let s := set_players_count count s in
  let s := set_turma_grupo (strip turma) s in
  let s := set_alunos alunos_txt s in
  let s := set_safe_mode safe s in
  let s := set_players (init_players count) s in
  let s := set_current_player 0 s in
  let s := set_mission_idx 0 s in
  let s := set_total_xp 0 s in
  let s := set_game_started_at (Some t1) s in
  let s := set_mission_started_at (Some t2) s in
  let s := set_feedback [] s in
  let s := init_simulation_env s in
  set_stage (py "game") s.

(** What [render_simulation_panel] does to the session and what it returns. *)
Definition render_simulation_panel (mission : Mission) (s : session_state)
    : session_state * (pystr * pystr * pystr) :=
  let source_value := source_initial s in
  let editor_value := editor_box s in
  let final_value := final_box s in
  if decide (strip source_value = []) then
    let source_value :=
      py "Texto de treino nao carregado. Clique em Jogar novamente para reiniciar a atividade." in
    (set_source_initial source_value s, (source_value, editor_value, final_value))
  else (s, (source_value, editor_value, final_value)).

(** [player[...] += 1] on the dict at position [pidx]. *)
Definition add_attempt (p : Player) : Player :=
  {| p_id := p_id p; p_xp := p_xp p; p_hits := p_hits p;
     p_attempts := p_attempts p + 1; p_errors := p_errors p;
     p_phase_hits := p_phase_hits p; p_mission_times := p_mission_times p |}.

Definition add_error (p : Player) : Player :=
  {| p_id := p_id p; p_xp := p_xp p; p_hits := p_hits p;
     p_attempts := p_attempts p; p_errors := p_errors p + 1;
     p_phase_hits := p_phase_hits p; p_mission_times := p_mission_times p |}.

Definition update_player (pidx : nat) (f : Player → Player)
    (s : session_state) : session_state :=
  set_players (alter f pidx (players s)) s.

(** [render_game] up to its buttons: the mission on display, the position
    of the current player's dict and the session as the drawing code leaves
    it.  The drawing calls themselves are left out; [None] is an uncaught
    exception. *)
Definition render_game_display (s : session_state)
    : option (session_state * Mission * nat) :=
  let s := if decide (last_mission_idx s ≠ mission_idx s)
           then set_last_mission_idx (mission_idx s) s else s in
  mission ← current_mission s;
  let s := prepare_mission_context mission (mission_idx s) s in
  pidx ← py_index (length (players s)) (current_player s);
  let s := (render_simulation_panel mission s).1 in
  Some (s, mission, pidx).

(** The [if st.button(...)] and form blocks of [render_game], for a click
    on the validation button of the mission on display. *)
Definition render_game_buttons (mission : Mission) (pidx : nat) (t1 t2 : Z)
    (s : session_state) : option session_state :=
  let expected := expected_combo mission in
  if decide (task_type mission = py "confirm") then
    let s := update_player pidx add_attempt s in
    let s := apply_simulation_effect expected s in
    register_mission_success pidx mission t1 t2 s
  else if decide (task_type mission = py "select_all") then
    let s := update_player pidx add_attempt s in
    register_mission_success pidx mission t1 t2 s
  else if decide (task_type mission = py "undo") then
    let s := update_player pidx add_attempt s in
    register_mission_success pidx mission t1 t2 s
  else
    let s := update_player pidx add_attempt s in
    let '(ok, hint) :=
      validate_mission_by_result mission (source_initial s) (editor_box s)
        (final_box s) s in
    if ok then register_mission_success pidx mission t1 t2 s
    else
      let s := update_player pidx add_error s in
      Some (set_feedback (py "Ainda nao validou. " ++ hint) s).

(** One run of [render_game]; [clicked] tells whether the validation button
    was pressed. *)
Definition render_game (clicked : bool) (t1 t2 : Z) (s : session_state)
    : option session_state :=
  '(s, mission, pidx) ← render_game_display s;
  if clicked then render_game_buttons mission pidx t1 t2 s else Some s.

(** What the learner can do between two runs of the script. *)
Inductive action :=
  | StartMission (count : Z) (turma alunos_txt : pystr) (safe : bool)
  | TypeEditor (text : pystr)
  | TypeFinal (text : pystr)
  | Validate
  | Refresh
  | PlayAgain.

(** One run of [main] after [act], with the clock readings [t1], [t2]:
    the page is chosen by [stage]; a text area stores what was typed under
    its key before the script runs; buttons of other pages do not exist. *)
Definition main (act : action) (t1 t2 : Z) (s : session_state)
    : option session_state :=
  if decide (stage s = py "start") then
    match act with
    | StartMission count turma alunos_txt safe =>
        Some (start_mission count turma alunos_txt safe t1 t2 s)
    | _ => Some s
    end
  else if decide (stage s = py "game") then
    match act with
    | TypeEditor text => render_game false t1 t2 (set_editor_box text s)
    | TypeFinal text => render_game false t1 t2 (set_final_box text s)
    | Validate => render_game true t1 t2 s
    | _ => render_game false t1 t2 s
    end
  else
    match act with
    | PlayAgain => Some (set_stage (py "start") s)
    | _ => Some s
    end.

(** A session: the runs of [main] for a sequence of actions. *)
Fixpoint run (acts : list (action * (Z * Z))) (s : session_state)
    : option session_state :=
  match acts with
  | [] => Some s
  | (act, (t1, t2)) :: acts' => s' ← main act t1 t2 s; run acts' s'
  end.

(** The radio of [render_start] offers one, two or three players. *)
Definition action_ok (a : action * (Z * Z)) : Prop :=
  match a.1 with
  | StartMission count _ _ _ => 1 ≤ count ≤ 3
  | _ => True
  end.

(** The call [register_mission_success(player, mission)] as [render_game]
    makes it: for the current player and the current mission. *)
Definition mission_success (t1 t2 : Z) (s : session_state)
    : option session_state :=
  mission ← current_mission s;
  pidx ← py_index (length (players s)) (current_player s);
  register_mission_success pidx mission t1 t2 s.

Fixpoint successes (clock : list (Z * Z)) (s : session_state)
    : option session_state :=
  match clock with
  | [] => Some s
  | (t1, t2) :: clock' => s' ← mission_success t1 t2 s; successes clock' s'
  end.

(** ** The browser shortcut guard

    The script that [inject_browser_shortcut_guard] writes into the page.
    Its state lives in properties of the parent window; a key event carries
    its four modifier flags and its [key]. *)

Record key_event := {
  ctrlKey : bool;
  altKey : bool;
  shiftKey : bool;
  metaKey : bool;
  key : pystr;
}.

Definition keyMap : gmap pystr pystr :=
  list_to_map
    [ (py "Control", py "Ctrl"); (py "Alt", py "Alt"); (py "Shift", py "Shift");
      (py "Meta", py "Win"); (py "OS", py "Win"); (py "Escape", py "Esc");
      (py "Esc", py "Esc"); (py "Delete", py "Del"); (py "Del", py "Del");
      (py "Tab", py "Tab"); (py "ArrowRight", py "Right");
      (py "ArrowLeft", py "Left"); (py "ArrowUp", py "Up");
      (py "ArrowDown", py "Down"); (py " ", py "Space") ].

(** [normalizeCombo(e)]; [keyMap[e.key] || e.key] takes the table's entry
    when there is one (every entry is a non-empty string), and
    [toUpperCase] is the mapping [upper]. *)
Definition normalizeCombo (e : key_event) : pystr :=
  let parts := [] in
  let parts := if ctrlKey e then parts ++ [py "Ctrl"] else parts in
  let parts := if altKey e then parts ++ [py "Alt"] else parts in
  let parts := if shiftKey e then parts ++ [py "Shift"] else parts in
  let parts := if metaKey e then parts ++ [py "Win"] else parts in
  let k := default (key e) (keyMap !! key e) in
  let parts :=
    if decide (k ∈ modifier_names) then parts
    else
      let k := if decide (length k = 1%nat) then upper k else k in
      parts ++ [k] in
  join (py "+") parts.

Definition blocked : gset pystr :=
  {[ py "Ctrl+W"; py "Ctrl+T"; py "Ctrl+Shift+T"; py "Ctrl+R"; py "Ctrl+N";
     py "Ctrl+L"; py "F5"; py "Ctrl+F4"; py "Alt+F4" ]}.

Definition isBlockedCombo (combo : pystr) : bool :=
  bool_decide (combo ∈ blocked).

(** The [__cyber_*] properties of the parent window; a property not yet
    assigned reads as falsy. *)
Record guard := {
  cyber_guard_installed : bool;
  cyber_combo_ok : bool;
  cyber_expected_combo : pystr;
  cyber_require_combo : bool;
  cyber_last_combo : pystr;
  cyber_click_guard_bound : bool;
}.

Definition fresh_window : guard := {|
  cyber_guard_installed := false;
  cyber_combo_ok := false;
  cyber_expected_combo := [];
  cyber_require_combo := false;
  cyber_last_combo := [];
  cyber_click_guard_bound := false;
|}.

Definition set_cyber_combo_ok (v : bool) (g : guard) : guard :=
  Build_guard
    (cyber_guard_installed g) v (cyber_expected_combo g)
    (cyber_require_combo g) (cyber_last_combo g) (cyber_click_guard_bound g).
Definition set_cyber_expected_combo (v : pystr) (g : guard) : guard :=
  Build_guard
    (cyber_guard_installed g) (cyber_combo_ok g) v (cyber_require_combo g)
    (cyber_last_combo g) (cyber_click_guard_bound g).
Definition set_cyber_require_combo (v : bool) (g : guard) : guard :=
  Build_guard
    (cyber_guard_installed g) (cyber_combo_ok g) (cyber_expected_combo g) v
    (cyber_last_combo g) (cyber_click_guard_bound g).
Definition set_cyber_last_combo (v : pystr) (g : guard) : guard :=
  Build_guard
    (cyber_guard_installed g) (cyber_combo_ok g) (cyber_expected_combo g)
    (cyber_require_combo g) v (cyber_click_guard_bound g).
Definition set_cyber_guard_installed (v : bool) (g : guard) : guard :=
  Build_guard
    v (cyber_combo_ok g) (cyber_expected_combo g) (cyber_require_combo g)
    (cyber_last_combo g) (cyber_click_guard_bound g).
Definition set_cyber_click_guard_bound (v : bool) (g : guard) : guard :=
  Build_guard
    (cyber_guard_installed g) (cyber_combo_ok g) (cyber_expected_combo g)
    (cyber_require_combo g) (cyber_last_combo g) v.

(** One execution of the injected script, for the two arguments of
    [inject_browser_shortcut_guard]. *)
Definition inject_browser_shortcut_guard (expectedCombo : pystr)
    (requireCombo : bool) (g : guard) : guard :=
  let g :=
    if cyber_guard_installed g then g
    else
      let g := set_cyber_guard_installed true g in
      let g := set_cyber_combo_ok false g in
      let g := set_cyber_expected_combo [] g in
      set_cyber_require_combo false g in
  let g :=
    if decide (cyber_expected_combo g ≠ expectedCombo) then
      let g := set_cyber_expected_combo expectedCombo g in
      set_cyber_combo_ok false g
    else g in
  let g := set_cyber_require_combo requireCombo g in
  if cyber_click_guard_bound g then g
  else set_cyber_click_guard_bound true g.

(** [__cyber_guard_handler(e)]: the new state, and whether the event was
    suppressed ([preventDefault] and [stopPropagation] called). *)
Definition cyber_guard_handler (e : key_event) (g : guard) : guard * bool :=
  let combo := normalizeCombo e in
  let g := set_cyber_last_combo combo g in
  let g :=
    if bool_decide (cyber_expected_combo g ≠ []) &&
       bool_decide (combo = cyber_expected_combo g)
    then set_cyber_combo_ok true g else g in
  (g, isBlockedCombo combo).

(** White space and line terminators, as [String.prototype.trim] removes
    them. *)
Definition js_isspace (c : N) : bool :=
  ((9 <=? c) && (c <=? 13) || (c =? 32) || (c =? 160) || (c =? 5760) ||
   (8192 <=? c) && (c <=? 8202) || (c =? 8232) || (c =? 8233) ||
   (c =? 8239) || (c =? 8287) || (c =? 12288) || (c =? 65279))%N.

Fixpoint js_trim_start (s : pystr) : pystr :=
  match s with
  | c :: s' => if js_isspace c then js_trim_start s' else s
  | [] => []
  end.

Definition js_trim (s : pystr) : pystr :=
  reverse (js_trim_start (reverse (js_trim_start s))).

Definition isValidateBtn (label : pystr) : bool :=
  startswith (py "Apertei ") label ||
  startswith (py "Validar comando protegido:") label ||
  startswith (py "Validar licao") label.

(** The click listener; [target] is the [innerText] of the button the click
    landed in, if any.  The result tells whether the click was cancelled. *)
Definition click_guard (target : option pystr) (g : guard) : guard * bool :=
  if negb (cyber_require_combo g) then (g, false)
  else
    match target with
    | None => (g, false)
    | Some innerText =>
        let label := js_trim innerText in
        if negb (isValidateBtn label) then (g, false)
        else if negb (cyber_combo_ok g) then (g, true)
        else (set_cyber_combo_ok false g, false)
    end.

(** What happens in the page: the script runs again (every run of
    [render_game] injects it), a key goes down, a click lands. *)
Inductive page_event :=
  | Inject (expectedCombo : pystr) (requireCombo : bool)
  | KeyDown (e : key_event)
  | Click (target : option pystr).

(** The listeners exist once the script has registered them. *)
Definition page_step (ev : page_event) (g : guard) : guard :=
  match ev with
  | Inject expectedCombo requireCombo =>
      inject_browser_shortcut_guard expectedCombo requireCombo g
  | KeyDown e =>
      if cyber_guard_installed g then (cyber_guard_handler e g).1 else g
  | Click target =>
      if cyber_click_guard_bound g then (click_guard target g).1 else g
  end.

Definition page_run (evs : list page_event) (g : guard) : guard :=
  foldl (λ g ev, page_step ev g) g evs.

(** ** Further functions of [app.py] *)

(** [s.endswith(p)] *)
Definition endswith (p s : pystr) : bool :=
  startswith (reverse p) (reverse s).

(** [s[1:-1]] *)
Definition strip_ends (s : pystr) : pystr := removelast (tail s).

(** [sanitize_secret(value)]; [None] and the empty string are falsy.  The
    apostrophe is code point 39 and the quotation mark code point 34. *)
Definition sanitize_secret (value : option pystr) : pystr :=
  match value with
  | None => []
  | Some [] => []
  | Some value =>
      let cleaned := strip value in
      if (startswith [39%N] cleaned || startswith [34%N] cleaned) &&
         (endswith [39%N] cleaned || endswith [34%N] cleaned) &&
         bool_decide (2 ≤ length cleaned)%nat
      then strip (strip_ends cleaned)
      else cleaned
  end.

(** [pretty_key(key)]: the four arrow names become the arrows U+2192,
    U+2190, U+2191 and U+2193. *)
Definition arrows : gmap pystr pystr :=
  list_to_map
    [ (py "Right", [8594%N]); (py "Left", [8592%N]); (py "Up", [8593%N]);
      (py "Down", [8595%N]) ].

Definition pretty_key (k : pystr) : pystr := default k (arrows !! k).

(** [s.split(sep)] for a separator of one character: a piece, empty or
    not, between any two occurrences and at either end. *)
Fixpoint py_split (sep : N) (s : pystr) : list pystr :=
  match s with
  | [] => [[]]
  | c :: s' =>
      if (c =? sep)%N then [] :: py_split sep s'
      else
        match py_split sep s' with
        | p :: ps => (c :: p) :: ps
        | [] => [[c]]
        end
  end.

Definition pretty_combo (combo : pystr) : pystr :=
  join (py "+") (pretty_key <$> py_split 43 combo).

Definition advance_player_turn (s : session_state) : session_state :=
  if decide (players_count s ≤ 1) then s
  else
    set_current_player ((current_player s + 1) `mod` players_count s) s.

(** The two integers behind the progress bar of [render_game]:
    [sum(p["hits"] for p in players)] and [len(MISSIONS) * players_count]. *)
Definition total_done (s : session_state) : Z :=
  foldr Z.add 0 (p_hits <$> players s).

Definition total_target (s : session_state) : Z :=
  Z.of_nat (length MISSIONS) * players_count s.

(** The integer fields [missions_completed] and [missions_total] of
    [build_report] (the other fields are floating-point rates and clock
    readings). *)
Definition missions_completed (s : session_state) : Z :=
  foldr Z.add 0 (p_hits <$> players s).

Definition missions_total (s : session_state) : Z :=
  Z.of_nat (length MISSIONS) * (1 `max` players_count s).

(** [max(players, key=lambda p: p["xp"])] of [render_end]: the first player
    of greatest XP; [None] stands for the placeholder dict that
    [render_end] takes when there is no player. *)
Fixpoint max_by_xp (best : Player) (l : list Player) : Player :=
  match l with
  | [] => best
  | p :: l' => max_by_xp (if decide (p_xp best < p_xp p) then p else best) l'
  end.

Definition top_player (s : session_state) : option Player :=
  match players s with
  | [] => None
  | p :: l => Some (max_by_xp p l)
  end.

(** The class [[a-zA-Z0-9_-]] of the pattern in [render_end]. *)
Definition group_char (c : N) : bool :=
  ((97 <=? c) && (c <=? 122) || (65 <=? c) && (c <=? 90) ||
   (48 <=? c) && (c <=? 57) || (c =? 95) || (c =? 45))%N.

(** [re.sub(r"[^a-zA-Z0-9_-]", "-", st.session_state.turma_grupo or "turma")] *)
Definition safe_group (s : session_state) : pystr :=
  (λ c, if group_char c then c else 45%N) <$>
  (if decide (turma_grupo s = []) then py "turma" else turma_grupo s).

(** [f"relatorio-{safe_group}-{ts}.pdf"], for the time stamp [ts]. *)
Definition report_filename (ts : pystr) (s : session_state) : pystr :=
  py "relatorio-" ++ safe_group s ++ py "-" ++ ts ++ py ".pdf".

(** [f"relatorios-cybercommand/{filename}"] of [upload_pdf_to_github]. *)
Definition upload_path (filename : pystr) : pystr :=
  py "relatorios-cybercommand/" ++ filename.


(** ** Vocabulary of the statements *)

(** Page events between two validation clicks that leave the guard's flag
    alone: no key press that matches the armed combo, and every run of the
    script asks for the combo (as the only caller, [render_game], does). *)
Definition captures (ev : page_event) (g : guard) : bool :=
  match ev with
  | KeyDown e =>
      cyber_guard_installed g &&
      bool_decide (cyber_expected_combo g ≠ []) &&
      bool_decide (normalizeCombo e = cyber_expected_combo g)
  | _ => false
  end.

Definition keeps_requirement (ev : page_event) : bool :=
  match ev with
  | Inject _ requireCombo => requireCombo
  | _ => true
  end.

Fixpoint quiet (evs : list page_event) (g : guard) : Prop :=
  match evs with
  | [] => True
  | ev :: evs' =>
      captures ev g = false ∧ keeps_requirement ev = true ∧
      quiet evs' (page_step ev g)
  end.

(** The combos of the last four branches of [apply_simulation_effect]. *)
Definition catch_all_combos : gset pystr :=
  {[ py "Win+Shift+S" ]} ∪ logged_only_combos ∪ window_combos ∪ navigation_combos.

(** The suffixes those branches append to the combo. *)
Definition catch_all_suffixes : list pystr :=
  [ py " executado: captura de area virtual registrada.";
    py " executado no simulador.";
    py " executado: gerenciamento de janela/menu virtual atualizado.";
    py " executado: navegacao de texto virtual aplicada." ].


(** The tokens [normalize_combo] finds in its input, and their normal
    forms. *)
Definition tokens (text : pystr) : list pystr :=
  filter (λ token, token ≠ []) (re_split (strip text)).

Definition norm_tokens (text : pystr) : list pystr :=
  normalize_token <$> tokens text.

Definition is_ascii (s : pystr) : Prop := Forall (λ c, (c < 128)%N) s.

(** What the proof of idempotence needs of the case tables on one ASCII
    code point: single images that stay ASCII, are fixed by the mapping
    that made them, lower to the same letter, and are separators only when
    the code point is (none is). *)
Definition ascii_case_ok (c : N) : bool :=
  match lower_cp c, upper_cp c, title_cp c with
  | [l], [u], [t] =>
      (t =? u)%N && (l <? 128)%N && (u <? 128)%N &&
      bool_decide (lower_cp l = [l]) && bool_decide (lower_cp u = [l]) &&
      bool_decide (upper_cp u = [u]) && bool_decide (title_cp u = [u]) &&
      bool_decide (is_sep l = is_sep c) && bool_decide (is_sep u = is_sep c)
  | _, _, _ => false
  end.

(** A token as [re.split] leaves it: not empty, no separator in it. *)
Definition not_sep (c : N) : Prop := is_sep c = false.
Definition token_ok (t : pystr) : Prop := t ≠ [] ∧ Forall not_sep t.

(** A token that [normalize_token] leaves as it is (checked by evaluation
    on the values of [mapping]). *)
Definition fixed_token (v : pystr) : bool :=
  bool_decide (normalize_token v = v) && bool_decide (v ≠ []) &&
  forallb (λ c, negb (is_sep c)) v && forallb (λ c, c <? 128)%N v.

(** Task types whose button validates without looking at the buffers. *)
Definition literal_types : list pystr :=
  [py "confirm"; py "select_all"; py "undo"].

Definition hits_bounded (p : Player) : Prop := 0 ≤ p_hits p ≤ p_attempts p.

Definition bounds (s : session_state) : Prop :=
  0 ≤ current_player s < Z.of_nat (length (players s)) ∧
  0 ≤ mission_idx s ≤ Z.of_nat (length MISSIONS).

Definition in_game (s : session_state) : Prop :=
  players_count s = Z.of_nat (length (players s)) ∧
  0 ≤ current_player s < Z.of_nat (length (players s)) ∧
  0 ≤ mission_idx s < Z.of_nat (length MISSIONS) ∧
  is_Some (mission_started_at s).

Definition session_inv (s : session_state) : Prop :=
  (stage s ≠ py "start" → in_game s) ∧ Forall hits_bounded (players s).

Definition same_game (s s1 : session_state) : Prop :=
  players s1 = players s ∧ players_count s1 = players_count s ∧
  current_player s1 = current_player s ∧ mission_idx s1 = mission_idx s ∧
  stage s1 = stage s ∧ mission_started_at s1 = mission_started_at s.

(** Sample key events and guards. *)
Definition alt_tab : key_event :=
  {| ctrlKey := false; altKey := true; shiftKey := false; metaKey := false;
     key := py "Tab" |}.

Definition ctrl_f4 : key_event :=
  {| ctrlKey := true; altKey := false; shiftKey := false; metaKey := false;
     key := py "F4" |}.

Definition ctrl_c : key_event :=
  {| ctrlKey := true; altKey := false; shiftKey := false; metaKey := false;
     key := py "c" |}.

Definition armed : guard :=
  inject_browser_shortcut_guard (py "Ctrl+C") true fresh_window.

Definition first_mission : Mission :=
  Build_Mission (py "Fase 1 - Texto") (py "Copiar texto da origem")
      (py "Ctrl+C") (py "Ctrl+C") [py "Ctrl"; py "C"] 10 (py "copy").


(** A one-player game just started, and the same game with its context
    prepared, as the first run of [render_game] leaves it. *)
Definition new_game : session_state :=
  start_mission 1 [] [] true 0 0 init_state.

Definition loaded_game : session_state :=
  prepare_mission_context first_mission 0 new_game.

(** A two-player game just started, and a one-player session in which the
    copy mission was validated and the learner then typed a wrong text into
    the work box of the paste mission. *)
Definition duo : session_state :=
  start_mission 2 [] [] true 0 0 init_state.

Definition paste_attempt : list (action * (Z * Z)) :=
  [ (StartMission 1 [] [] true, (0, 0)); (Validate, (1, 1));
    (TypeEditor (py "outro texto"), (2, 2)) ].



(** ** Vocabulary of the further properties *)

Definition blank (s : pystr) : Prop := Forall (λ c, py_isspace c = true) s.

(** A string with no white space at either end. *)
Definition trimmed (s : pystr) : Prop :=
  (∀ c, head s = Some c → py_isspace c = false) ∧
  (∀ c, last s = Some c → py_isspace c = false).

Definition quote_mark (c : N) : Prop := c = 39%N ∨ c = 34%N.

(** The parts [normalize_combo] joins: modifiers, then the rest. *)
Definition combo_parts (text : pystr) : list pystr :=
  filter (λ m, m ∈ norm_tokens text) modifier_names ++
  filter (λ k, k ∉ modifier_names) (norm_tokens text).

(** The lower-case and upper-case image of one code point, where the
    tables give a single one. *)
Definition lower_char (c : N) : N := default c (head (lower_cp c)).

Definition upper_char (c : N) : N := default c (head (upper_cp c)).

Definition ascii_fold_ok (c : N) : bool :=
  bool_decide (lower_cp c = [lower_char c]) &&
  bool_decide (upper_cp c = [upper_char c]) &&
  (lower_char c <? 128)%N && (upper_char c <? 128)%N &&
  bool_decide (py_isspace (lower_char c) = py_isspace c) &&
  bool_decide (py_isspace (upper_char c) = py_isspace c) &&
  bool_decide (is_sep (lower_char c) = is_sep c) &&
  bool_decide (is_sep (upper_char c) = is_sep c) &&
  bool_decide (lower_cp (lower_char c) = lower_cp c) &&
  bool_decide (lower_cp (upper_char c) = lower_cp c) &&
  bool_decide (upper_cp (lower_char c) = upper_cp c) &&
  bool_decide (upper_cp (upper_char c) = upper_cp c) &&
  bool_decide (title_cp (lower_char c) = title_cp c) &&
  bool_decide (title_cp (upper_char c) = title_cp c).

(** A map on code points that keeps the tables and the character classes
    [normalize_combo] looks at. *)
Definition folds (f : N → N) (c : N) : Prop :=
  py_isspace (f c) = py_isspace c ∧ is_sep (f c) = is_sep c ∧
  lower_cp (f c) = lower_cp c ∧ upper_cp (f c) = upper_cp c ∧
  title_cp (f c) = title_cp c.

(** The combos [apply_simulation_effect] has a branch for. *)
Definition handled_combos : gset pystr :=
  {[ py "Alt+Tab"; py "Ctrl+T"; py "Ctrl+W"; py "Win+D"; py "Win+L";
     py "Ctrl+Alt+Del"; py "Win+E"; py "Win+I"; py "Ctrl+Shift+Esc";
     py "Alt+F4"; py "Win+Shift+S"; py "Ctrl+Shift+T" ]} ∪
  logged_only_combos ∪ window_combos ∪ navigation_combos.

(** The same key event with another [key]. *)
Definition with_key (k : pystr) (e : key_event) : key_event :=
  Build_key_event (ctrlKey e) (altKey e) (shiftKey e) (metaKey e) k.

Definition letter_case_ok (c : N) : bool :=
  forallb (λ e, bool_decide (normalizeCombo (with_key [upper_char c] e) =
                             normalizeCombo (with_key [c] e)))
    (b1 ← [true; false]; b2 ← [true; false]; b3 ← [true; false];
     b4 ← [true; false]; [Build_key_event b1 b2 b3 b4 []]).

(** The seven fields of the simulated desktop that only
    [init_simulation_env] and [apply_simulation_effect] write. *)
Definition desktop (s : session_state)
    : pystr * list pystr * Z * pystr * bool * bool * bool :=
  (clipboard_virtual s, undo_stack s, sim_tabs s, active_window s,
   show_desktop s, locked_screen s, security_menu_open s).

(** What one run of [render_game] does to the players and the score, for
    the player [p] at position [n] whose turn it is. *)
Inductive game_step (s s' : session_state) (n : nat) (p : Player) : Prop :=
  | step_idle :
      players s' = players s → total_xp s' = total_xp s →
      current_player s' = current_player s → mission_idx s' = mission_idx s →
      stage s' = stage s → game_step s s' n p
  | step_failure :
      players s' = <[n := add_error (add_attempt p)]> (players s) →
      total_xp s' = total_xp s →
      current_player s' = current_player s → mission_idx s' = mission_idx s →
      stage s' = stage s → game_step s s' n p
  | step_success m d :
      current_mission s = Some m →
      players s' = <[n := credit_player m d (add_attempt p)]> (players s) →
      total_xp s' = total_xp s + xp m →
      (mission_idx s < 5 ∧ mission_idx s' = mission_idx s + 1 ∧
       current_player s' = current_player s ∧ stage s' = stage s) ∨
      (mission_idx s = 5 ∧ current_player s < players_count s - 1 ∧
       current_player s' = current_player s + 1 ∧ mission_idx s' = 0 ∧
       mission_ctx_idx s' = -1 ∧ stage s' = stage s) ∨
      (mission_idx s = 5 ∧ current_player s = players_count s - 1 ∧
       current_player s' = current_player s ∧ mission_idx s' = mission_idx s ∧
       stage s' = py "end") →
      game_step s s' n p.

Definition sumZ (l : list Z) : Z := foldr Z.add 0 l.

(** The XP of the first [h] missions of the catalogue. *)
Definition xp_done (h : Z) : Z := sumZ (take (Z.to_nat h) (xp <$> MISSIONS)).

(** The sum of the counters of [phase_hits]. *)
Definition total_phase_hits (p : Player) : Z :=
  map_fold (λ _ v acc, v + acc) 0 (p_phase_hits p).

Definition counters_ok (p : Player) : Prop :=
  p_attempts p = p_hits p + p_errors p ∧ 0 ≤ p_errors p ∧ 0 ≤ p_hits p ∧
  p_hits p = Z.of_nat (length (p_mission_times p)) ∧
  total_phase_hits p = p_hits p.

(** The number of missions the player at position [k] has completed,
    read off the turn: all six before the current player, none after, and
    for the current player the mission index while the game is on. *)
Definition done_at (s : session_state) (k : nat) : Z :=
  if decide (Z.of_nat k < current_player s) then 6
  else if decide (Z.of_nat k = current_player s) then
    if decide (stage s = py "game") then mission_idx s else 6
  else 0.

Definition score_ok (s : session_state) : Prop :=
  (∀ k p, players s !! k = Some p →
     p_id p = Z.of_nat k + 1 ∧ p_xp p = xp_done (p_hits p) ∧
     p_hits p = done_at s k) ∧
  total_xp s = sumZ (p_xp <$> players s) ∧
  (stage s ≠ py "game" → current_player s = players_count s - 1).

Definition game_shape (s : session_state) : Prop :=
  0 ≤ mission_idx s ≤ 5 ∧ 0 ≤ current_player s ∧ 1 ≤ players_count s ∧
  ((players s = [] ∧ stage s = py "start") ∨
   (players_count s = Z.of_nat (length (players s)) ∧
    current_player s < players_count s)).

(** The text that [render_simulation_panel] installs when the snapshot of
    the source is blank. *)
Definition fallback_text : pystr :=
  py "Texto de treino nao carregado. Clique em Jogar novamente para reiniciar a atividade.".

Definition context_ok (s : session_state) : Prop :=
  0 ≤ current_player s ∧
  (mission_ctx_idx s = current_player s →
   source_initial s = sample_for (current_player s) ∧
   source_text s = sample_for (current_player s)) ∧
  source_initial s ≠ fallback_text.

(** The counters of the phases other than the first, as [init_players]
    sets them. *)
Definition other_phases : gmap pystr Z :=
  list_to_map [(py "2", 0); (py "3", 0); (py "4", 0); (py "5", 0)].

Definition phase_ok (p : Player) : Prop :=
  p_phase_hits p = <[py "1" := p_hits p]> other_phases.

(** A whole game of one player: every mission validated at the first
    attempt, but for the paste mission, first validated with an empty work
    box. *)
Definition solo_game : list (action * (Z * Z)) :=
  [ (StartMission 1 (py "Turma A") (py "Ana") true, (0, 0));
    (Validate, (1, 1));
    (Validate, (2, 2));
    (TypeEditor (py "A tecnologia move o mundo."), (2, 2));
    (Validate, (3, 3));
    (Validate, (4, 4));
    (TypeEditor [], (5, 5));
    (Validate, (6, 6));
    (Validate, (7, 7));
    (TypeFinal (py "A tecnologia move o mundo."), (8, 8));
    (Validate, (9, 9)) ].

Definition solo_end : session_state :=
  default init_state (run solo_game init_state).

(** A three-player session at the second player's turn. *)
Definition trio_second : session_state :=
  set_current_player 1 (start_mission 3 [] [] true 0 0 init_state).

(** The name that [normalizeCombo] gives to the key of an event: the entry
    of [keyMap] or the key itself, in upper case when it is one
    character. *)
Definition pressed_key (e : key_event) : pystr :=
  let k := default (key e) (keyMap !! key e) in
  if decide (length k = 1%nat) then upper k else k.

(** The modifiers that [normalizeCombo] writes for the flags of an
    event. *)
Definition pressed_modifiers (e : key_event) : list pystr :=
  (if ctrlKey e then [py "Ctrl"] else []) ++
  (if altKey e then [py "Alt"] else []) ++
  (if shiftKey e then [py "Shift"] else []) ++
  (if metaKey e then [py "Win"] else []).

Definition ctrl_shift_v : key_event :=
  {| ctrlKey := true; altKey := false; shiftKey := true; metaKey := false;
     key := py "v" |}.

(** A class whose name would leave the reports folder if it were used as
    it is. *)
Definition dotted_group : session_state :=
  set_turma_grupo (py "../9 A") init_state.

Definition paste_mission : Mission :=
  Build_Mission (py "Fase 1 - Texto") (py "Colar texto no destino")
    (py "Ctrl+V") (py "Ctrl+V") [py "Ctrl"; py "V"] 10 (py "paste").

(** What happens in the page when the learner presses Ctrl+Shift+V while
    the last mission is on display. *)
Definition capture_page : list page_event :=
  [Inject (py "Ctrl+Shift+V") true; KeyDown ctrl_shift_v].

(** The invariant carried along a session: the property [I] under study,
    hits bounded by attempts, and a game under way unless the start page is
    on. *)
Definition reach_inv (I : session_state -> Prop) (s : session_state) : Prop :=
  I s ∧ Forall hits_bounded (players s) ∧ (stage s = py "start" ∨ in_game s).


(** * Proofs *)

(** Projections of updated sessions, and the inversion of a successful
    [register_mission_success]. *)
Ltac session_simpl :=
  cbn [stage players_count players current_player mission_idx total_xp
       safe_mode game_started_at mission_started_at finish_reason turma_grupo
       alunos feedback clipboard_virtual source_text destination_text
       editor_box final_box undo_stack sim_tabs active_window show_desktop
       locked_screen security_menu_open action_log source_initial undo_target
       mission_ctx_idx last_mission_idx set_stage set_players_count
       set_players set_current_player set_mission_idx set_total_xp
       set_safe_mode set_game_started_at set_mission_started_at
       set_finish_reason set_turma_grupo set_alunos set_feedback
       set_clipboard_virtual set_source_text set_destination_text
       set_editor_box set_final_box set_undo_stack set_sim_tabs
       set_active_window set_show_desktop set_locked_screen
       set_security_menu_open set_action_log set_source_initial
       set_undo_target set_mission_ctx_idx set_last_mission_idx finish_game] in *.

Ltac register_inv :=
  match goal with
  | Hp : players _ !! _ = Some _, Hs : mission_started_at _ = Some _,
    H : register_mission_success _ _ _ _ _ = Some _ |- _ =>
      unfold register_mission_success in H; rewrite Hp, Hs in H;
      cbn [mbind option_bind] in H; apply (inj Some) in H as <-;
      change (Z.of_nat (length MISSIONS)) with 6 in *; session_simpl
  end.

#[local] Arguments py : simpl never.
#[local] Arguments normalizeCombo : simpl never.
#[local] Arguments isValidateBtn : simpl never.
#[local] Arguments js_trim : simpl never.

(** ** Text *)

Lemma re_split_from_cons c s b :
  is_sep c = false →
  re_split_from b (c :: s) =
    (c :: hd [] (re_split_from false s)) :: tl (re_split_from false s).
Proof.
  intros Hc. cbn [re_split_from]. rewrite Hc.
  by destruct (re_split_from false s).
Qed.

Lemma re_split_from_nonempty b s : re_split_from b s ≠ [].
Proof.
  revert b. induction s as [|c s IH]; intros b; [done|].
  cbn [re_split_from]. destruct (is_sep c).
  - destruct b; [apply IH|done].
  - by destruct (re_split_from false s).
Qed.

Lemma re_split_from_sepfree s : ∀ b,
  Forall (Forall not_sep) (re_split_from b s).
Proof.
  induction s as [|c s IH]; intros b.
  { repeat constructor. }
  destruct (is_sep c) eqn:Hc.
  - cbn [re_split_from]. rewrite Hc. destruct b; [apply IH|].
    constructor; [constructor|apply IH].
  - rewrite re_split_from_cons by done.
    specialize (IH false). destruct (re_split_from false s) as [|p ps].
    + repeat constructor; done.
    + apply Forall_cons_1 in IH as [Hp Hps]. cbn [hd tl].
      constructor; [by constructor|done].
Qed.

Lemma tokens_ok text : Forall token_ok (tokens text).
Proof.
  unfold tokens, re_split. apply Forall_forall. intros t Ht.
  apply list_elem_of_filter in Ht as [Hne Hin]. split; [done|].
  pose proof (re_split_from_sepfree (strip text) false) as Hall.
  rewrite Forall_forall in Hall. by apply Hall.
Qed.

(** Splitting a joined list of tokens gives the tokens back. *)
Lemma re_split_from_token t rest b :
  token_ok t →
  re_split_from b (t ++ rest) =
    (t ++ hd [] (re_split_from false rest)) :: tl (re_split_from false rest).
Proof.
  intros [Hne Hall]. revert b.
  induction Hall as [|c t Hc Hall IH]; intros b; [done|].
  cbn [app]. rewrite re_split_from_cons by done.
  destruct t as [|c' t'].
  - cbn [app]. pose proof (re_split_from_nonempty false rest).
    by destruct (re_split_from false rest).
  - rewrite (IH ltac:(done) false). done.
Qed.

Lemma re_split_from_join L b :
  Forall token_ok L → L ≠ [] → re_split_from b (join (py "+") L) = L.
Proof.
  intros Hall. revert b.
  induction Hall as [|t L Ht Hall IH]; intros b Hne; [done|].
  destruct L as [|t' L'].
  - cbn [join]. rewrite <- (app_nil_r t) at 1.
    rewrite re_split_from_token by done. cbn. by rewrite app_nil_r.
  - change (join (py "+") (t :: t' :: L'))
      with (t ++ py "+" ++ join (py "+") (t' :: L')).
    rewrite re_split_from_token by done.
    change (py "+" ++ ?x) with (43%N :: x).
    cbn [re_split_from]. change (is_sep 43) with true. cbn [hd tl].
    rewrite app_nil_r. f_equal. by apply IH.
Qed.

Lemma lstrip_id s : (∀ c, head s = Some c → py_isspace c = false) → lstrip s = s.
Proof. destruct s as [|c s]; [done|]. intros H. cbn. by rewrite H. Qed.

Lemma strip_id s :
  (∀ c, head s = Some c → py_isspace c = false) →
  (∀ c, last s = Some c → py_isspace c = false) → strip s = s.
Proof.
  intros Hh Hl. unfold strip, rstrip. rewrite (lstrip_id s) by done.
  rewrite lstrip_id; [apply reverse_involutive|].
  intros c. rewrite head_reverse. apply Hl.
Qed.

Lemma not_sep_not_space c : not_sep c → py_isspace c = false.
Proof. unfold not_sep, is_sep. by intros [_ ?]%orb_false_elim. Qed.

Lemma join_head L c :
  Forall token_ok L → head (join (py "+") L) = Some c → not_sep c.
Proof.
  intros Hall. destruct Hall as [|t L [Hne Ht] Hall]; [done|].
  destruct Ht as [|c' t Hc' Ht]; [done|].
  destruct L; cbn; by intros [= <-].
Qed.

Lemma join_last L c :
  Forall token_ok L → last (join (py "+") L) = Some c → not_sep c.
Proof.
  intros Hall. induction Hall as [|t L [Hne Ht] Hall IH]; [done|].
  destruct L as [|t' L'].
  - cbn [join]. intros Hl. rewrite Forall_forall in Ht. apply Ht.
    by apply last_Some_elem_of.
  - change (join (py "+") (t :: t' :: L'))
      with (t ++ py "+" ++ join (py "+") (t' :: L')).
    rewrite !last_app.
    destruct (last (join (py "+") (t' :: L'))) as [x|] eqn:E.
    + intros [= <-]. by apply IH.
    + exfalso. apply last_None in E.
      apply Forall_cons_1 in Hall as [[Hne' _] _].
      destruct t'; [done|]. by destruct L'.
Qed.

Lemma filter_all {A} (P : A → Prop) `{!∀ x, Decision (P x)} (l : list A) :
  Forall P l → filter P l = l.
Proof.
  induction 1 as [|x l Hx Hl IH]; [done|].
  by rewrite filter_cons_True, IH.
Qed.

Lemma filter_none {A} (P : A → Prop) `{!∀ x, Decision (P x)} (l : list A) :
  Forall (λ x, ¬ P x) l → filter P l = [].
Proof.
  induction 1 as [|x l Hx Hl IH]; [done|].
  by rewrite filter_cons_False, IH.
Qed.

Lemma tokens_join L : Forall token_ok L → tokens (join (py "+") L) = L.
Proof.
  intros Hall. unfold tokens, re_split.
  rewrite strip_id.
  - destruct L as [|t L]; [done|].
    rewrite re_split_from_join by done.
    apply filter_all.
    eapply Forall_impl; [exact Hall|]. by intros ? [? _].
  - intros c Hc. eapply not_sep_not_space, join_head; done.
  - intros c Hc. eapply not_sep_not_space, join_last; done.
Qed.

(** *** Case mappings on ASCII *)

Lemma ascii_enumerated (P : N → bool) :
  forallb P (N.of_nat <$> seq 0 128) = true →
  ∀ c, (c < 128)%N → P c = true.
Proof.
  intros Hall c Hc. rewrite forallb_forall in Hall. apply Hall.
  apply list_elem_of_In, list_elem_of_fmap. exists (N.to_nat c).
  split; [lia|]. apply elem_of_seq. lia.
Qed.

Lemma ascii_case c :
  (c < 128)%N →
  ∃ l u, lower_cp c = [l] ∧ upper_cp c = [u] ∧ title_cp c = [u] ∧
    (l < 128)%N ∧ (u < 128)%N ∧ lower_cp l = [l] ∧ lower_cp u = [l] ∧
    upper_cp u = [u] ∧ title_cp u = [u] ∧
    is_sep l = is_sep c ∧ is_sep u = is_sep c.
Proof.
  intros Hc.
  pose proof (ascii_enumerated ascii_case_ok ltac:(by vm_compute) c Hc) as H.
  unfold ascii_case_ok in H.
  destruct (lower_cp c) as [|l [|]]; try done.
  destruct (upper_cp c) as [|u [|]]; try done.
  destruct (title_cp c) as [|t [|]]; try done.
  rewrite !andb_true_iff, !bool_decide_eq_true in H.
  destruct H as ((((((((Ht%N.eqb_eq & Hl%N.ltb_lt) & Hu%N.ltb_lt) & ?) & ?) & ?)
                   & ?) & ?) & ?).
  subst t. exists l, u. done.
Qed.

Lemma lower_cons c s : lower (c :: s) = lower_cp c ++ lower s.
Proof. reflexivity. Qed.
Lemma upper_cons c s : upper (c :: s) = upper_cp c ++ upper s.
Proof. reflexivity. Qed.

(** [lower] and [upper] on an ASCII string: letter by letter. *)
Lemma ascii_lower_upper s :
  is_ascii s →
  is_ascii (lower s) ∧ is_ascii (upper s) ∧
  length (lower s) = length s ∧ length (upper s) = length s ∧
  lower (lower s) = lower s ∧ lower (upper s) = lower s ∧
  upper (upper s) = upper s ∧
  (Forall not_sep s → Forall not_sep (lower s) ∧ Forall not_sep (upper s)).
Proof.
  unfold is_ascii. induction 1 as [|c s Hc Hs IH].
  { repeat split; constructor. }
  destruct IH as (IH1 & IH2 & IH3 & IH4 & IH5 & IH6 & IH7 & IH8).
  destruct (ascii_case c Hc)
    as (l & u & Hl & Hu & _ & Hl128 & Hu128 & Hll & Hul & Huu & _ & Hsl & Hsu).
  rewrite lower_cons, upper_cons, Hl, Hu. cbn [app].
  rewrite !lower_cons, !upper_cons, Hll, Hul, Huu. cbn [app length].
  rewrite IH3, IH4, IH5, IH6, IH7.
  split_and!; try done; try by constructor.
  intros [Hc' Hs']%Forall_cons_1. destruct (IH8 Hs') as [? ?].
  unfold not_sep in *. split; constructor; congruence.
Qed.

Lemma ascii_capitalize s :
  is_ascii s →
  is_ascii (capitalize s) ∧ length (capitalize s) = length s ∧
  lower (capitalize s) = lower s ∧
  capitalize (capitalize s) = capitalize s ∧
  (Forall not_sep s → Forall not_sep (capitalize s)).
Proof.
  intros Hs. destruct Hs as [|c s Hc Hs].
  { repeat split; constructor. }
  destruct (ascii_lower_upper s Hs) as (A1 & _ & A3 & _ & A5 & _ & _ & A8).
  destruct (ascii_case c Hc)
    as (l & u & Hl & Hu & Ht & Hl128 & Hu128 & Hll & Hul & Huu & Htu & Hsl & Hsu).
  cbn [capitalize]. rewrite Ht. cbn [app capitalize].
  rewrite Htu, !lower_cons, Hul, Hl, A5. cbn [app length]. rewrite A3.
  split_and!; try done; try by constructor.
  intros [Hc' Hs']%Forall_cons_1. destruct (A8 Hs') as [? _].
  unfold not_sep in *. constructor; congruence.
Qed.

(** *** Tokens *)

Lemma mapping_values k v :
  mapping !! k = Some v →
  normalize_token v = v ∧ token_ok v ∧ is_ascii v.
Proof.
  intros Hk. apply elem_of_list_to_map_2 in Hk.
  assert (Hall : forallb (λ kv, fixed_token kv.2) mapping_items = true)
    by by vm_compute.
  rewrite forallb_forall in Hall.
  apply list_elem_of_In, Hall in Hk. cbn [snd] in Hk.
  unfold fixed_token in Hk.
  rewrite !andb_true_iff, !bool_decide_eq_true, !forallb_forall in Hk.
  destruct Hk as (((Hf & Hne) & Hsep) & Hasc).
  split; [done|]. split; [split; [done|]|].
  - apply Forall_forall. intros c Hc%list_elem_of_In%Hsep.
    unfold not_sep. by destruct (is_sep c).
  - apply Forall_forall. intros c Hc%list_elem_of_In%Hasc. by apply N.ltb_lt.
Qed.

Lemma modifiers_fixed m :
  m ∈ modifier_names → normalize_token m = m ∧ token_ok m.
Proof.
  unfold modifier_names. rewrite !elem_of_cons, elem_of_nil.
  intros H. destruct_or!; subst; (split; [by vm_compute|]);
    (split; [done|]); repeat constructor.
Qed.

Lemma normalize_token_ascii t :
  is_ascii t → token_ok t →
  normalize_token (normalize_token t) = normalize_token t ∧
  token_ok (normalize_token t) ∧ is_ascii (normalize_token t).
Proof.
  intros Ha [Hne Hsep].
  destruct (mapping !! lower t) as [v|] eqn:Hm.
  { assert (normalize_token t = v) as ->
      by (unfold normalize_token; by rewrite Hm).
    exact (mapping_values _ _ Hm). }
  destruct (ascii_lower_upper t Ha) as (_ & U2 & _ & U4 & _ & U6 & U7 & U8).
  destruct (ascii_capitalize t Ha) as (C1 & C2 & C3 & C4 & C5).
  destruct (U8 Hsep) as [_ U9].
  destruct (decide (length t = 1%nat)) as [Hlen|Hlen].
  - assert (normalize_token t = upper t) as ->
      by (unfold normalize_token; by rewrite Hm, decide_True).
    split; [|split; [split|]]; try done.
    + unfold normalize_token. by rewrite U6, Hm, U4, decide_True.
    + intros E. rewrite E in U4. by destruct t.
  - assert (normalize_token t = capitalize t) as ->
      by (unfold normalize_token; by rewrite Hm, decide_False).
    split; [|split; [split|]]; try done.
    + unfold normalize_token. by rewrite C3, Hm, C2, decide_False.
    + intros E. rewrite E in C2. by destruct t.
    + by apply C5.
Qed.

(** *** normalize_combo *)

Lemma lstrip_Forall (P : N → Prop) s : Forall P s → Forall P (lstrip s).
Proof.
  induction 1 as [|c s Hc Hs IH]; [done|].
  cbn [lstrip]. destruct (py_isspace c); [done|by constructor].
Qed.

Lemma strip_Forall (P : N → Prop) s : Forall P s → Forall P (strip s).
Proof.
  intros H. unfold strip, rstrip.
  by apply Forall_reverse, lstrip_Forall, Forall_reverse, lstrip_Forall.
Qed.

Lemma re_split_from_Forall (P : N → Prop) s : ∀ b,
  Forall P s → Forall (Forall P) (re_split_from b s).
Proof.
  induction s as [|c s IH]; intros b Hs.
  { repeat constructor. }
  apply Forall_cons_1 in Hs as [Hc Hs]. cbn [re_split_from].
  destruct (is_sep c).
  - destruct b; [by apply IH|]. constructor; [constructor|by apply IH].
  - specialize (IH false Hs). destruct (re_split_from false s) as [|p ps].
    + repeat constructor; done.
    + apply Forall_cons_1 in IH as [Hp Hps].
      constructor; [by constructor|done].
Qed.

Lemma tokens_ascii text : is_ascii text → Forall is_ascii (tokens text).
Proof.
  intros H. unfold tokens, re_split. apply Forall_forall. intros t Ht.
  apply list_elem_of_filter in Ht as [_ Hin].
  pose proof (re_split_from_Forall _ _ false (strip_Forall _ _ H)) as Hall.
  rewrite Forall_forall in Hall. by apply Hall.
Qed.

Lemma normalize_combo_eq text :
  normalize_combo text =
  join (py "+")
    (filter (λ m, m ∈ norm_tokens text) modifier_names ++
     filter (λ k, k ∉ modifier_names) (norm_tokens text)).
Proof.
  unfold normalize_combo, norm_tokens. fold (tokens text).
  case_decide as He; [|done]. rewrite He. cbn [fmap list_fmap].
  rewrite filter_none; [done|].
  apply Forall_forall. intros m _. apply not_elem_of_nil.
Qed.

Lemma fmap_fixed {A} (f : A → A) (l : list A) :
  Forall (λ x, f x = x) l → f <$> l = l.
Proof.
  induction 1 as [|x l Hx Hl IH]; [done|]. cbn. by rewrite Hx, IH.
Qed.

Lemma norm_tokens_fixed text :
  is_ascii text →
  Forall (λ k, normalize_token k = k ∧ token_ok k) (norm_tokens text).
Proof.
  intros Ha. unfold norm_tokens. apply Forall_fmap, Forall_forall.
  intros t Ht. cbn.
  pose proof (tokens_ascii text Ha) as H1. pose proof (tokens_ok text) as H2.
  rewrite Forall_forall in H1, H2.
  destruct (normalize_token_ascii t (H1 _ Ht) (H2 _ Ht)) as (? & ? & _). done.
Qed.

(** C10, for ASCII input: normalising twice is normalising once; and for
    every input the result is the modifiers that occur among the
    normalised tokens, in the order Ctrl, Alt, Shift, Win, followed by the
    other normalised tokens in their order, joined by [+]. *)
Theorem C10_normalize_combo_idempotent_on_ascii :
  (∀ text,
     ∃ modifiers rest,
       normalize_combo text = join (py "+") (modifiers ++ rest) ∧
       modifiers `sublist_of` [py "Ctrl"; py "Alt"; py "Shift"; py "Win"] ∧
       (∀ m, m ∈ modifiers ↔ m ∈ modifier_names ∧ m ∈ norm_tokens text) ∧
       rest = filter (λ k, k ∉ modifier_names) (norm_tokens text)) ∧
  (∀ text, is_ascii text →
     normalize_combo (normalize_combo text) = normalize_combo text).
Proof.
  split.
  - intros text. eexists _, _. split; [apply normalize_combo_eq|].
    split; [apply sublist_filter|]. split; [|done].
    intros m. rewrite list_elem_of_filter. tauto.
  - intros text Ha.
    set (norm := norm_tokens text).
    set (mods := filter (λ m, m ∈ norm) modifier_names).
    set (rest := filter (λ k, k ∉ modifier_names) norm).
    assert (Hout : normalize_combo text = join (py "+") (mods ++ rest))
      by apply normalize_combo_eq.
    pose proof (norm_tokens_fixed text Ha) as Hnorm. fold norm in Hnorm.
    assert (Hfix : Forall (λ k, normalize_token k = k ∧ token_ok k)
                     (mods ++ rest)).
    { apply Forall_app. split; apply Forall_forall; intros k Hk.
      - apply list_elem_of_filter in Hk as [_ Hk]. by apply modifiers_fixed.
      - apply list_elem_of_filter in Hk as [_ Hk].
        rewrite Forall_forall in Hnorm. by apply Hnorm. }
    assert (Htok : norm_tokens (join (py "+") (mods ++ rest)) = mods ++ rest).
    { unfold norm_tokens. rewrite tokens_join.
      - apply fmap_fixed. eapply Forall_impl; [exact Hfix|]. by intros ? [? _].
      - eapply Forall_impl; [exact Hfix|]. by intros ? [_ ?]. }
    rewrite Hout at 1. rewrite normalize_combo_eq, Htok, Hout. f_equal.
    f_equal.
    + apply list_filter_iff. intros m. unfold mods, rest.
      rewrite elem_of_app, !list_elem_of_filter.
      destruct (decide (m ∈ modifier_names)); tauto.
    + rewrite filter_app, (filter_none _ mods), (filter_all _ rest); [done| |].
      * apply Forall_forall. by intros k [? _]%list_elem_of_filter.
      * apply Forall_forall. intros k [_ ?]%list_elem_of_filter. tauto.
Qed.

Lemma C10_sharp_s_normalises_twice :
  normalize_combo [223%N] = py "SS" ∧
  normalize_combo (normalize_combo [223%N]) = py "Ss" ∧
  normalize_combo (normalize_combo [223%N]) ≠ normalize_combo [223%N].
Proof. by vm_compute. Qed.

Lemma C10_witness :
  is_ascii (py " shift+ctrl  a") ∧
  normalize_combo (normalize_combo (py " shift+ctrl  a")) =
    normalize_combo (py " shift+ctrl  a").
Proof.
  assert (H : is_ascii (py " shift+ctrl  a")).
  { vm_compute. repeat constructor. }
  split; [exact H|].
  apply (proj2 C10_normalize_combo_idempotent_on_ascii _ H).
Defined.
(** ** Mission context and validation *)

Lemma sample_for_lookup p :
  samples !! Z.to_nat (p `mod` 5) = Some (sample_for p).
Proof.
  unfold sample_for, py_getitem, py_index.
  change (Z.of_nat (length samples)) with 5. change (length samples) with 5%nat.
  pose proof (Z.mod_pos_bound p 5 ltac:(lia)) as Hr.
  rewrite decide_True by lia. cbn [mbind option_bind].
  destruct (samples !! Z.to_nat (p `mod` 5)) eqn:E; [done|].
  apply lookup_ge_None in E. change (length samples) with 5%nat in E. lia.
Qed.

Lemma sample_for_in p : sample_for p ∈ samples.
Proof. eapply list_elem_of_lookup_2, sample_for_lookup. Qed.

Lemma strip_sample p : strip (sample_for p) = sample_for p.
Proof.
  pose proof (sample_for_in p) as Hin. unfold samples in Hin.
  set (x := sample_for p) in *. clearbody x.
  repeat (apply elem_of_cons in Hin as [->|Hin]; [by vm_compute|]).
  by apply elem_of_nil in Hin.
Qed.

Lemma prepare_fresh m i s :
  mission_ctx_idx s ≠ current_player s →
  source_initial (prepare_mission_context m i s) = sample_for (current_player s) ∧
  source_text (prepare_mission_context m i s) = sample_for (current_player s) ∧
  mission_ctx_idx (prepare_mission_context m i s) = current_player s.
Proof.
  intros Hne. unfold prepare_mission_context. rewrite decide_False by done.
  done.
Qed.

Lemma prepare_same m i s :
  mission_ctx_idx s = current_player s → prepare_mission_context m i s = s.
Proof. intros He. unfold prepare_mission_context. by rewrite decide_True. Qed.

Lemma prepare_current_player m i s :
  current_player (prepare_mission_context m i s) = current_player s.
Proof. unfold prepare_mission_context. by case_decide. Qed.

Lemma prepare_ctx m i s :
  mission_ctx_idx (prepare_mission_context m i s) = current_player s.
Proof.
  destruct (decide (mission_ctx_idx s = current_player s)) as [He|Hne].
  - by rewrite prepare_same.
  - by apply prepare_fresh.
Qed.

Lemma init_players_id count n p :
  init_players count !! n = Some p → p_id p = Z.of_nat n + 1.
Proof.
  unfold init_players. rewrite list_lookup_fmap.
  destruct (seqZ 0 count !! n) as [idx|] eqn:E; [|done].
  apply lookup_seqZ in E as [-> _]. by intros [= <-].
Qed.

(** C4, as the code has it: when the cached context is not the current
    player's, [prepare_mission_context] takes the snapshot from the pool at
    [current_player] modulo the pool size, [current_player] being the
    position of the player in [players] (its id minus one); otherwise it
    changes nothing, so a second call changes nothing.  Position 0 (player
    id 1) gets the first text, position 1 (player id 2) the second. *)
Theorem C4_context_by_player_position (m : Mission) (i : Z) (s : session_state) :
  (mission_ctx_idx s ≠ current_player s →
   source_initial (prepare_mission_context m i s) = sample_for (current_player s) ∧
   samples !! Z.to_nat (current_player s `mod` Z.of_nat (length samples)) =
     Some (sample_for (current_player s))) ∧
  (mission_ctx_idx s = current_player s → prepare_mission_context m i s = s) ∧
  prepare_mission_context m i (prepare_mission_context m i s) =
    prepare_mission_context m i s ∧
  (∀ count n p, init_players count !! n = Some p → p_id p = Z.of_nat n + 1) ∧
  sample_for 0 = py "A tecnologia move o mundo." ∧
  sample_for 1 = py "Aprender atalhos aumenta a produtividade.".
Proof.
  split; [|split; [|split; [|split]]].
  - intros Hne. split; [by apply prepare_fresh|apply sample_for_lookup].
  - apply prepare_same.
  - apply prepare_same. by rewrite prepare_ctx, prepare_current_player.
  - apply init_players_id.
  - by vm_compute.
Qed.

Lemma C4_witness :
  mission_ctx_idx new_game ≠ current_player new_game ∧
  source_initial (prepare_mission_context first_mission 0 new_game) =
    sample_for (current_player new_game).
Proof.
  assert (H : mission_ctx_idx new_game ≠ current_player new_game)
    by by vm_compute.
  split; [exact H|].
  apply (proj1 (C4_context_by_player_position first_mission 0 new_game) H).
Defined.

Lemma C4_player_one_gets_first_sample :
  (p_id <$> py_getitem (players new_game) (current_player new_game)) = Some 1 ∧
  source_initial (prepare_mission_context first_mission 0 new_game) =
    py "A tecnologia move o mundo." ∧
  samples !! Z.to_nat (1 `mod` Z.of_nat (length samples)) =
    Some (py "Aprender atalhos aumenta a produtividade.") ∧
  source_initial (prepare_mission_context first_mission 0 new_game) ≠
    py "Aprender atalhos aumenta a produtividade.".
Proof. vm_compute. repeat split; done. Qed.

Lemma validate_copy mission source_value editor_value final_value s :
  task_type mission = py "copy" →
  validate_mission_by_result mission source_value editor_value final_value s =
  (bool_decide (strip source_value = strip (source_initial s)),
   py "Para validar, selecione na ORIGEM e pressione Ctrl+C.").
Proof.
  intros Ht. unfold validate_mission_by_result. by rewrite decide_True.
Qed.

(** C9: for [Win+Shift+S] and every combo of the three literal sets that
    close [apply_simulation_effect], the call writes one line, the combo
    followed by the text of its branch, into [action_log] and leaves every
    other field as it was. *)
Theorem C9_catch_all_only_logs (combo : pystr) (s : session_state) :
  combo ∈ catch_all_combos →
  ∃ suffix, suffix ∈ catch_all_suffixes ∧
    apply_simulation_effect combo s = set_action_log (combo ++ suffix) s ∧
    action_log (apply_simulation_effect combo s) = combo ++ suffix ∧
    clipboard_virtual (apply_simulation_effect combo s) = clipboard_virtual s ∧
    source_text (apply_simulation_effect combo s) = source_text s ∧
    source_initial (apply_simulation_effect combo s) = source_initial s ∧
    destination_text (apply_simulation_effect combo s) = destination_text s ∧
    editor_box (apply_simulation_effect combo s) = editor_box s ∧
    final_box (apply_simulation_effect combo s) = final_box s ∧
    undo_stack (apply_simulation_effect combo s) = undo_stack s ∧
    undo_target (apply_simulation_effect combo s) = undo_target s ∧
    sim_tabs (apply_simulation_effect combo s) = sim_tabs s ∧
    active_window (apply_simulation_effect combo s) = active_window s ∧
    show_desktop (apply_simulation_effect combo s) = show_desktop s ∧
    locked_screen (apply_simulation_effect combo s) = locked_screen s ∧
    security_menu_open (apply_simulation_effect combo s) = security_menu_open s.
Proof.
  intros Hin.
  assert (Hline : ∃ suffix, suffix ∈ catch_all_suffixes ∧
            apply_simulation_effect combo s = set_action_log (combo ++ suffix) s).
  { unfold catch_all_combos in Hin.
    rewrite !elem_of_union in Hin. destruct Hin as [[[Hin|Hin]|Hin]|Hin].
    - exists (py " executado: captura de area virtual registrada.").
      split; [unfold catch_all_suffixes; rewrite !elem_of_cons; tauto|].
      apply elem_of_singleton in Hin as ->. by vm_compute.
    - exists (py " executado no simulador.").
      split; [unfold catch_all_suffixes; rewrite !elem_of_cons; tauto|].
      unfold logged_only_combos in Hin.
      rewrite !elem_of_union, !elem_of_singleton in Hin.
      destruct_or!; subst combo; by vm_compute.
    - exists (py " executado: gerenciamento de janela/menu virtual atualizado.").
      split; [unfold catch_all_suffixes; rewrite !elem_of_cons; tauto|].
      unfold window_combos in Hin.
      rewrite !elem_of_union, !elem_of_singleton in Hin.
      destruct_or!; subst combo; by vm_compute.
    - exists (py " executado: navegacao de texto virtual aplicada.").
      split; [unfold catch_all_suffixes; rewrite !elem_of_cons; tauto|].
      unfold navigation_combos in Hin.
      rewrite !elem_of_union, !elem_of_singleton in Hin.
      destruct_or!; subst combo; by vm_compute. }
  destruct Hline as (suffix & Hs & ->). exists suffix.
  repeat split; done.
Qed.

Lemma C9_witness :
  py "F5" ∈ catch_all_combos ∧
  ∃ suffix, suffix ∈ catch_all_suffixes ∧
    apply_simulation_effect (py "F5") init_state =
      set_action_log (py "F5" ++ suffix) init_state.
Proof.
  assert (H : py "F5" ∈ catch_all_combos)
    by (apply (bool_decide_unpack _); by vm_compute).
  split; [exact H|].
  destruct (C9_catch_all_only_logs (py "F5") init_state H)
    as (suffix & Hs & Heq & _).
  exists suffix. split; [exact Hs|exact Heq].
Defined.
(** ** Mission success *)

Lemma length_MISSIONS : Z.of_nat (length MISSIONS) = 6.
Proof. reflexivity. Qed.

Section register.
Context (pidx : nat) (mission : Mission) (t1 t2 : Z) (s : session_state).
Context (player : Player) (started : Z).
Hypothesis Hplayer : players s !! pidx = Some player.
Hypothesis Hstarted : mission_started_at s = Some started.

Lemma register_total : is_Some (register_mission_success pidx mission t1 t2 s).
Proof.
  unfold register_mission_success. rewrite Hplayer, Hstarted.
  cbn [mbind option_bind]. eauto.
Qed.

Context (s' : session_state).

Hypothesis Hreg : register_mission_success pidx mission t1 t2 s = Some s'.

Lemma register_players :
  players s' = <[pidx := credit_player mission (t1 - started) player]> (players s).
Proof using Hplayer Hstarted Hreg.
  register_inv.
  repeat case_match; reflexivity.
Qed.

Lemma register_frame :
  players_count s' = players_count s ∧ mission_started_at s' = Some t2 ∧
  total_xp s' = total_xp s + xp mission.
Proof using Hplayer Hstarted Hreg.
  register_inv.
  repeat case_match; done.
Qed.

Lemma register_advance :
  mission_idx s < Z.of_nat (length MISSIONS) - 1 →
  mission_idx s' = mission_idx s + 1 ∧ current_player s' = current_player s ∧
  stage s' = stage s ∧ mission_ctx_idx s' = mission_ctx_idx s.
Proof using Hplayer Hstarted Hreg.
  intros Hlt.
  register_inv.
  rewrite (bool_decide_eq_false_2 (_ ≤ _)) by lia. done.
Qed.

Lemma register_rotate :
  Z.of_nat (length MISSIONS) - 1 ≤ mission_idx s →
  1 < players_count s → current_player s < players_count s - 1 →
  current_player s' = current_player s + 1 ∧ mission_idx s' = 0 ∧
  mission_ctx_idx s' = -1 ∧ last_mission_idx s' = -1 ∧ stage s' = stage s.
Proof using Hplayer Hstarted Hreg.
  intros Hlast Hmany Hnext.
  register_inv.
  rewrite !bool_decide_eq_true_2 by lia. done.
Qed.

Lemma register_finish :
  Z.of_nat (length MISSIONS) - 1 ≤ mission_idx s →
  ¬ (1 < players_count s ∧ current_player s < players_count s - 1) →
  stage s' = py "end" ∧ current_player s' = current_player s ∧
  mission_idx s' = mission_idx s ∧ finish_reason s' ≠ [].
Proof using Hplayer Hstarted Hreg.
  intros Hlast Hnot.
  register_inv.
  rewrite (bool_decide_eq_true_2 (_ ≤ _)) by lia.
  destruct (bool_decide (1 < players_count s)) eqn:E1;
    destruct (bool_decide (current_player s < players_count s - 1)) eqn:E2;
    try done.
  apply bool_decide_eq_true in E1, E2. tauto.
Qed.
End register.

(** ** The game page *)

Lemma same_game_refl s : same_game s s.
Proof. by repeat split. Qed.

Lemma same_game_trans s1 s2 s3 :
  same_game s1 s2 → same_game s2 s3 → same_game s1 s3.
Proof.
  unfold same_game. intros (?&?&?&?&?&?) (?&?&?&?&?&?).
  repeat split; congruence.
Qed.

Lemma prepare_same_game m i s : same_game s (prepare_mission_context m i s).
Proof. unfold prepare_mission_context. case_decide; by repeat split. Qed.

Lemma panel_same_game m s : same_game s (render_simulation_panel m s).1.
Proof. unfold render_simulation_panel. case_decide; by repeat split. Qed.

Lemma effect_same_game combo s : same_game s (apply_simulation_effect combo s).
Proof.
  unfold apply_simulation_effect. repeat case_decide; by repeat split.
Qed.

Lemma py_index_in_range len i :
  0 ≤ i < Z.of_nat len → py_index len i = Some (Z.to_nat i).
Proof. intros. unfold py_index. by rewrite decide_True. Qed.

Lemma py_index_bound len i n : py_index len i = Some n → (n < len)%nat.
Proof.
  unfold py_index. repeat case_decide; intros [= <-]; lia.
Qed.

Lemma py_getitem_elem {A} (l : list A) i x : py_getitem l i = Some x → x ∈ l.
Proof.
  unfold py_getitem. destruct (py_index _ _); [|done]. cbn.
  apply list_elem_of_lookup_2.
Qed.

Lemma current_mission_total s :
  0 ≤ mission_idx s < Z.of_nat (length MISSIONS) → is_Some (current_mission s).
Proof.
  intros H. unfold current_mission, py_getitem.
  rewrite py_index_in_range by done. cbn [mbind option_bind].
  apply lookup_lt_is_Some. lia.
Qed.

Lemma display_inv s s1 m pidx :
  render_game_display s = Some (s1, m, pidx) →
  same_game s s1 ∧ current_mission s = Some m ∧
  py_index (length (players s)) (current_player s) = Some pidx.
Proof.
  unfold render_game_display.
  set (s0 := if decide (last_mission_idx s ≠ mission_idx s) then _ else s).
  assert (H0 : same_game s s0 ∧ current_mission s0 = current_mission s).
  { unfold s0. case_decide; by repeat split. }
  destruct H0 as [H0 Hm]. rewrite Hm.
  destruct (current_mission s) as [m'|]; [|done]. cbn [mbind option_bind].
  set (s2 := prepare_mission_context m' (mission_idx s0) s0).
  assert (H2 : same_game s0 s2) by apply prepare_same_game.
  assert (H02 := same_game_trans _ _ _ H0 H2).
  destruct H02 as (Hp & _ & Hc & _).
  rewrite Hp, Hc.
  destruct (py_index _ _) as [n|]; [|done]. cbn [mbind option_bind].
  intros [= <- <- <-]. split; [|done].
  eapply same_game_trans; [|apply panel_same_game].
  by eapply same_game_trans.
Qed.

Lemma display_total s :
  0 ≤ mission_idx s < Z.of_nat (length MISSIONS) →
  0 ≤ current_player s < Z.of_nat (length (players s)) →
  ∃ s1 m, render_game_display s = Some (s1, m, Z.to_nat (current_player s)).
Proof.
  intros Hm Hc. unfold render_game_display.
  set (s0 := if decide (last_mission_idx s ≠ mission_idx s) then _ else s).
  assert (H0 : same_game s s0 ∧ current_mission s0 = current_mission s).
  { unfold s0. case_decide; by repeat split. }
  destruct H0 as [H0 Hm0]. rewrite Hm0.
  destruct (current_mission_total s Hm) as [m ->]. cbn [mbind option_bind].
  set (s2 := prepare_mission_context m (mission_idx s0) s0).
  assert (H2 : same_game s0 s2) by apply prepare_same_game.
  destruct (same_game_trans _ _ _ H0 H2) as (Hp & _ & Hcp & _).
  rewrite Hp, Hcp, py_index_in_range by done. cbn [mbind option_bind]. eauto.
Qed.

Lemma update_player_same_game pidx f s :
  players_count (update_player pidx f s) = players_count s ∧
  current_player (update_player pidx f s) = current_player s ∧
  mission_idx (update_player pidx f s) = mission_idx s ∧
  stage (update_player pidx f s) = stage s ∧
  mission_started_at (update_player pidx f s) = mission_started_at s ∧
  players (update_player pidx f s) = alter f pidx (players s).
Proof. by repeat split. Qed.

Lemma validate_reads_snapshot m a b c s s1 :
  source_initial s1 = source_initial s →
  validate_mission_by_result m a b c s1 = validate_mission_by_result m a b c s.
Proof. intros H. unfold validate_mission_by_result. by rewrite H. Qed.


Lemma mission_types m :
  m ∈ MISSIONS →
  task_type m ∈ [py "copy"; py "paste"; py "select_all"; py "cut"; py "undo";
                 py "paste_plain"].
Proof.
  unfold MISSIONS. rewrite !elem_of_cons, elem_of_nil.
  intros H. destruct_or!; subst; cbn [task_type]; rewrite ?elem_of_cons; tauto.
Qed.


(** The two ways a click on the validation button ends. *)
Lemma buttons_cases m pidx t1 t2 s :
  (render_game_buttons m pidx t1 t2 s =
     register_mission_success pidx m t1 t2 (update_player pidx add_attempt s) ∨
   render_game_buttons m pidx t1 t2 s =
     register_mission_success pidx m t1 t2
       (apply_simulation_effect (expected_combo m)
          (update_player pidx add_attempt s))) ∧
  (task_type m ∈ literal_types ∨
   (validate_mission_by_result m (source_initial s) (editor_box s)
      (final_box s) s).1 = true)
  ∨
  (∃ hint,
     render_game_buttons m pidx t1 t2 s =
       Some (set_feedback (py "Ainda nao validou. " ++ hint)
               (update_player pidx add_error (update_player pidx add_attempt s))) ∧
     (task_type m ∉ literal_types) ∧
     validate_mission_by_result m (source_initial s) (editor_box s)
       (final_box s) s = (false, hint)).
Proof.
  unfold render_game_buttons, literal_types.
  destruct (decide (task_type m = py "confirm")) as [E1|N1].
  { left. split; [by right|]. left. rewrite E1. rewrite !elem_of_cons. tauto. }
  destruct (decide (task_type m = py "select_all")) as [E2|N2].
  { left. split; [by left|]. left. rewrite E2. rewrite !elem_of_cons. tauto. }
  destruct (decide (task_type m = py "undo")) as [E3|N3].
  { left. split; [by left|]. left. rewrite E3. rewrite !elem_of_cons. tauto. }
  rewrite (validate_reads_snapshot m _ _ _ s (update_player pidx add_attempt s))
    by done.
  change (source_initial (update_player pidx add_attempt s)) with (source_initial s).
  change (editor_box (update_player pidx add_attempt s)) with (editor_box s).
  change (final_box (update_player pidx add_attempt s)) with (final_box s).
  destruct (validate_mission_by_result m _ _ _ s) as [[|] hint] eqn:Ev.
  - left. split; [by left|by right].
  - right. exists hint. split; [done|]. split; [|done].
    rewrite !not_elem_of_cons. split_and!; try done. apply not_elem_of_nil.
Qed.

(** ** Invariants of a session *)

Lemma game_is_not_start : py "game" ≠ py "start".
Proof. by vm_compute. Qed.

Lemma start_in_game count turma alunos_txt safe t1 t2 s :
  1 ≤ count →
  let s' := start_mission count turma alunos_txt safe t1 t2 s in
  in_game s' ∧ Forall hits_bounded (players s') ∧ stage s' = py "game" ∧
  current_player s' = 0 ∧ mission_idx s' = 0 ∧ players_count s' = count.
Proof.
  intros Hc s'.
  assert (Hp : players s' = init_players count) by done.
  assert (Hl : length (init_players count) = Z.to_nat count).
  { unfold init_players. by rewrite length_fmap, length_seqZ. }
  split; [|split; [|done]].
  - unfold in_game. rewrite Hp, Hl.
    change (players_count s') with count. change (current_player s') with 0.
    change (mission_idx s') with 0. change (mission_started_at s') with (Some t2).
    change (Z.of_nat (length MISSIONS)) with 6.
    split_and!; try lia. by eexists.
  - rewrite Hp. unfold init_players. apply Forall_fmap, Forall_forall.
    intros idx _. unfold hits_bounded. cbn. lia.
Qed.

Lemma register_in_game pidx m t1 t2 s s' p :
  in_game s → players s !! pidx = Some p →
  register_mission_success pidx m t1 t2 s = Some s' →
  in_game s' ∧
  ∃ d, players s' = <[pidx := credit_player m d p]> (players s).
Proof.
  intros (Hpc & Hcp & Hmi & [started Hst]) Hp Hreg.
  pose proof (register_players _ _ _ _ _ _ _ Hp Hst _ Hreg) as Hpl.
  destruct (register_frame _ _ _ _ _ _ _ Hp Hst _ Hreg) as (Hpc' & Hst' & _).
  split; [|eauto].
  unfold in_game. rewrite Hpl, length_insert, Hpc', Hst'.
  change (Z.of_nat (length MISSIONS)) with 6 in *.
  destruct (decide (mission_idx s < 5)) as [Hlt|Hge].
  - destruct (register_advance _ _ _ _ _ _ _ Hp Hst _ Hreg) as (-> & -> & _);
      [by change (Z.of_nat (length MISSIONS)) with 6|].
    split_and!; try lia. by eexists.
  - destruct (decide (1 < players_count s ∧
                      current_player s < players_count s - 1)) as [[H1 H2]|Hn].
    + destruct (register_rotate _ _ _ _ _ _ _ Hp Hst _ Hreg) as (-> & -> & _);
        [change (Z.of_nat (length MISSIONS)) with 6; lia|done..|].
      split_and!; try lia. by eexists.
    + destruct (register_finish _ _ _ _ _ _ _ Hp Hst _ Hreg) as (_ & -> & -> & _);
        [change (Z.of_nat (length MISSIONS)) with 6; lia|done|].
      split_and!; try lia. by eexists.
Qed.

Lemma credit_after_attempt m d p :
  hits_bounded p → hits_bounded (credit_player m d (add_attempt p)).
Proof. unfold hits_bounded. cbn. lia. Qed.

Lemma error_after_attempt p :
  hits_bounded p → hits_bounded (add_error (add_attempt p)).
Proof. unfold hits_bounded. cbn. lia. Qed.

Lemma in_game_same s s1 : same_game s s1 → in_game s → in_game s1.
Proof.
  unfold same_game, in_game. intros (-> & -> & -> & -> & _ & ->). done.
Qed.

Lemma in_game_attempt pidx s :
  in_game s → in_game (update_player pidx add_attempt s).
Proof.
  unfold in_game.
  change (players (update_player pidx add_attempt s))
    with (alter add_attempt pidx (players s)).
  rewrite length_alter. done.
Qed.

Lemma players_after_failure pidx line s :
  players (set_feedback line
             (update_player pidx add_error (update_player pidx add_attempt s))) =
  alter add_error pidx (alter add_attempt pidx (players s)).
Proof. reflexivity. Qed.

Lemma buttons_inv m pidx t1 t2 s p :
  in_game s → Forall hits_bounded (players s) → players s !! pidx = Some p →
  ∃ s', render_game_buttons m pidx t1 t2 s = Some s' ∧
        in_game s' ∧ Forall hits_bounded (players s').
Proof.
  intros Hin Hall Hp.
  assert (Hhb : hits_bounded p).
  { rewrite Forall_lookup in Hall. by eapply Hall. }
  set (s2 := update_player pidx add_attempt s).
  assert (Hp2 : players s2 !! pidx = Some (add_attempt p)).
  { change (players s2) with (alter add_attempt pidx (players s)).
    by rewrite list_lookup_alter_eq, Hp. }
  assert (Hin2 : in_game s2) by by apply in_game_attempt.
  assert (Hall2 : Forall hits_bounded (players s)) by done.
  assert (Hreg : ∀ s3, same_game s2 s3 →
            ∃ s', register_mission_success pidx m t1 t2 s3 = Some s' ∧
                  in_game s' ∧ Forall hits_bounded (players s')).
  { intros s3 Hsame. pose proof (in_game_same _ _ Hsame Hin2) as Hin3.
    destruct Hsame as (Hpl3 & _).
    assert (Hp3 : players s3 !! pidx = Some (add_attempt p)) by by rewrite Hpl3.
    destruct (Hin3) as (? & ? & ? & [started Hst]).
    destruct (register_total pidx m t1 t2 s3 _ _ Hp3 Hst) as [s' Hs'].
    exists s'. split; [done|].
    destruct (register_in_game pidx m t1 t2 s3 s' (add_attempt p))
      as (Hin' & d & Hpl');
      [done..|].
    split; [done|]. rewrite Hpl', Hpl3.
    change (players s2) with (alter add_attempt pidx (players s)).
    apply Forall_insert; [|by apply credit_after_attempt].
    apply Forall_alter; [done|].
    intros q Hq. rewrite Hq in Hp. injection Hp as ->.
    unfold hits_bounded in *. cbn. lia. }
  destruct (buttons_cases m pidx t1 t2 s) as [[[->| ->] _]|(hint & -> & _)].
  - apply Hreg, same_game_refl.
  - apply Hreg, effect_same_game.
  - eexists. split; [done|]. split.
    + unfold in_game in *. rewrite players_after_failure, !length_alter.
      exact Hin.
    + rewrite players_after_failure, list_alter_alter_eq.
      apply Forall_alter; [done|].
      intros q Hq _. rewrite Hq in Hp. injection Hp as ->.
      by apply error_after_attempt.
Qed.

Lemma render_game_inv clicked t1 t2 s :
  in_game s → Forall hits_bounded (players s) →
  ∃ s', render_game clicked t1 t2 s = Some s' ∧
        in_game s' ∧ Forall hits_bounded (players s').
Proof.
  intros Hin Hall. pose proof Hin as (Hpc & Hcp & Hmi & Hst).
  destruct (display_total s Hmi Hcp) as (s1 & m & Hd).
  destruct (display_inv _ _ _ _ Hd) as (Hsame & _ & Hidx).
  unfold render_game. rewrite Hd. cbn [mbind option_bind].
  pose proof (in_game_same _ _ Hsame Hin) as Hin1.
  destruct Hsame as (Hpl & _).
  destruct clicked.
  - apply py_index_bound, lookup_lt_is_Some in Hidx as [p Hp].
    apply (buttons_inv m _ t1 t2 s1 p); [done|by rewrite Hpl|by rewrite Hpl].
  - exists s1. by rewrite Hpl.
Qed.

Lemma main_in_game act t1 t2 s :
  action_ok (act, (t1, t2)) → in_game s → Forall hits_bounded (players s) →
  ∃ s', main act t1 t2 s = Some s' ∧
        in_game s' ∧ Forall hits_bounded (players s').
Proof.
  intros Hok Hin Hall. unfold main.
  destruct (decide (stage s = py "start")).
  { destruct act; eauto.
    eexists. split; [done|].
    destruct (start_in_game count turma alunos_txt safe t1 t2 s) as (?&?&_);
      [unfold action_ok in Hok; cbn in Hok; lia|done]. }
  destruct (decide (stage s = py "game")).
  { destruct act; by apply render_game_inv. }
  destruct act; eauto.
Qed.

Lemma run_in_game acts : ∀ s,
  Forall action_ok acts → in_game s → Forall hits_bounded (players s) →
  ∃ s', run acts s = Some s' ∧ in_game s' ∧ Forall hits_bounded (players s').
Proof.
  induction acts as [|[act [t1 t2]] acts IH]; intros s Hok Hin Hall; [by eauto|].
  apply Forall_cons_1 in Hok as [Hok Hoks].
  destruct (main_in_game act t1 t2 s Hok Hin Hall) as (s1 & Hs1 & Hin1 & Hall1).
  cbn [run]. rewrite Hs1. cbn [mbind option_bind]. by apply IH.
Qed.

Lemma run_from_start acts : ∀ s,
  Forall action_ok acts → stage s = py "start" →
  Forall hits_bounded (players s) →
  ∃ s', run acts s = Some s' ∧ Forall hits_bounded (players s').
Proof.
  induction acts as [|[act [t1 t2]] acts IH]; intros s Hok Hst Hall; [by eauto|].
  apply Forall_cons_1 in Hok as [Hok Hoks].
  cbn [run]. unfold main. rewrite decide_True by done.
  destruct act; cbn [mbind option_bind]; try by apply IH.
  destruct (start_in_game count turma alunos_txt safe t1 t2 s) as (Hin&Hhb&_);
    [unfold action_ok in Hok; cbn in Hok; lia|].
  destruct (run_in_game acts _ Hoks Hin Hhb) as (s' & ? & _ & ?). eauto.
Qed.

Lemma in_game_bounds s : in_game s → bounds s.
Proof.
  unfold in_game, bounds. change (Z.of_nat (length MISSIONS)) with 6. lia.
Qed.

(** ** Turn rotation *)

Lemma register_needs pidx m t1 t2 s s' :
  register_mission_success pidx m t1 t2 s = Some s' →
  ∃ p started, players s !! pidx = Some p ∧ mission_started_at s = Some started.
Proof.
  unfold register_mission_success.
  destruct (players s !! pidx) as [p|]; [|done].
  destruct (mission_started_at s) as [started|]; [|done]. eauto.
Qed.

Lemma mission_success_step t1 t2 s :
  in_game s →
  ∃ s' m p, mission_success t1 t2 s = Some s' ∧ in_game s' ∧
    current_mission s = Some m ∧
    players s !! Z.to_nat (current_player s) = Some p ∧
    register_mission_success (Z.to_nat (current_player s)) m t1 t2 s = Some s'.
Proof.
  intros Hin. pose proof Hin as (Hpc & Hcp & Hmi & [started Hst]).
  destruct (current_mission_total s Hmi) as [m Hm].
  destruct (lookup_lt_is_Some_2 (players s) (Z.to_nat (current_player s)))
    as [p Hp]; [lia|].
  destruct (register_total (Z.to_nat (current_player s)) m t1 t2 s p started
              Hp Hst) as [s' Hs'].
  exists s', m, p. unfold mission_success.
  rewrite Hm, py_index_in_range by done. cbn [mbind option_bind].
  split_and!; try done.
  by destruct (register_in_game _ _ _ _ _ _ _ Hin Hp Hs').
Qed.

Lemma successes_progress clock : ∀ s,
  in_game s → stage s = py "game" →
  Z.of_nat (length clock) + 6 * current_player s + mission_idx s
    ≤ 6 * players_count s →
  ∃ s', successes clock s = Some s' ∧ players_count s' = players_count s ∧
    if decide (Z.of_nat (length clock) + 6 * current_player s + mission_idx s
               < 6 * players_count s)
    then stage s' = py "game" ∧
         6 * current_player s' + mission_idx s' =
           Z.of_nat (length clock) + 6 * current_player s + mission_idx s ∧
         0 ≤ mission_idx s' < 6
    else stage s' = py "end" ∧ current_player s' = players_count s - 1.
Proof.
  induction clock as [|[t1 t2] clock IH]; intros s Hin Hstage Hlen.
  { exists s. split; [done|]. split; [done|].
    destruct Hin as (Hpc & Hcp & Hmi & _).
    change (Z.of_nat (length MISSIONS)) with 6 in Hmi.
    cbn [length] in *. case_decide; [split_and!; [done|lia..]|lia]. }
  destruct (mission_success_step t1 t2 s Hin)
    as (s1 & m & p & Hs1 & Hin1 & Hm & Hp & Hreg).
  pose proof Hin as (Hpc & Hcp & Hmi & [started Hst]).
  destruct (register_frame _ _ _ _ _ _ _ Hp Hst _ Hreg) as (Hpc1 & _).
  change (Z.of_nat (length MISSIONS)) with 6 in Hmi.
  cbn [successes length] in *. rewrite Hs1. cbn [mbind option_bind].
  rewrite Nat2Z.inj_succ in *.
  destruct (decide (mission_idx s < 5)) as [Hlt|Hge].
  - destruct (register_advance _ _ _ _ _ _ _ Hp Hst _ Hreg)
      as (Hmi1 & Hcp1 & Hst1 & _); [by change (Z.of_nat (length MISSIONS)) with 6|].
    destruct (IH s1) as (s' & Hs' & Hpc' & Hres); [done|congruence|lia|].
    exists s'. split; [done|]. split; [congruence|].
    rewrite Hpc1, Hmi1, Hcp1 in Hres.
    repeat case_decide; try lia; intuition lia.
  - destruct (decide (current_player s < players_count s - 1)) as [Hnext|Hlast].
    + destruct (register_rotate _ _ _ _ _ _ _ Hp Hst _ Hreg)
        as (Hcp1 & Hmi1 & _ & _ & Hst1);
        [change (Z.of_nat (length MISSIONS)) with 6; lia|lia|done|].
      destruct (IH s1) as (s' & Hs' & Hpc' & Hres); [done|congruence|lia|].
      exists s'. split; [done|]. split; [congruence|].
      rewrite Hpc1, Hmi1, Hcp1 in Hres.
      repeat case_decide; try lia; intuition lia.
    + destruct (register_finish _ _ _ _ _ _ _ Hp Hst _ Hreg)
        as (Hst1 & Hcp1 & Hmi1 & _);
        [change (Z.of_nat (length MISSIONS)) with 6; lia|lia|].
      destruct clock as [|c clock]; [|cbn [length] in Hlen; lia].
      exists s1. split; [done|]. split; [done|].
      cbn [length] in *. case_decide; [lia|]. split; [done|lia].
Qed.

(** C2: [register_mission_success] moves to the next mission, or, after the
    last mission, to the next player (mission 0, context cache reset) or,
    for the last player, to the end page; so a game of [n] players that
    goes from success to success has player [k / 6] on mission [k mod 6]
    after [k] successes and ends with success number [6 * n]. *)
Theorem C2_success_advances_rotates_or_ends :
  (∀ pidx m t1 t2 s s',
     register_mission_success pidx m t1 t2 s = Some s' →
     0 ≤ mission_idx s < Z.of_nat (length MISSIONS) →
     0 ≤ current_player s < players_count s →
     (mission_idx s ≠ Z.of_nat (length MISSIONS) - 1 →
      mission_idx s' = mission_idx s + 1 ∧
      current_player s' = current_player s ∧ stage s' = stage s) ∧
     (mission_idx s = Z.of_nat (length MISSIONS) - 1 →
      current_player s ≠ players_count s - 1 →
      current_player s' = current_player s + 1 ∧ mission_idx s' = 0 ∧
      mission_ctx_idx s' = -1 ∧ stage s' = stage s) ∧
     (mission_idx s = Z.of_nat (length MISSIONS) - 1 →
      current_player s = players_count s - 1 →
      stage s' = py "end" ∧ finish_reason s' ≠ [])) ∧
  (∀ n turma alunos_txt safe t1 t2 s0 clock,
     1 ≤ n → Z.of_nat (length clock) ≤ Z.of_nat (length MISSIONS) * n →
     ∃ s', successes clock (start_mission n turma alunos_txt safe t1 t2 s0)
             = Some s' ∧
       if decide (Z.of_nat (length clock) < Z.of_nat (length MISSIONS) * n)
       then stage s' = py "game" ∧
            current_player s' = Z.of_nat (length clock) `div` 6 ∧
            mission_idx s' = Z.of_nat (length clock) `mod` 6
       else stage s' = py "end" ∧ current_player s' = n - 1).
Proof.
  split.
  - intros pidx m t1 t2 s s' Hreg Hmi Hcp.
    destruct (register_needs _ _ _ _ _ _ Hreg) as (p & started & Hp & Hst).
    split_and!.
    + intros Hne.
      destruct (register_advance _ _ _ _ _ _ _ Hp Hst _ Hreg) as (?&?&?&_);
        [lia|done].
    + intros He Hne.
      destruct (register_rotate _ _ _ _ _ _ _ Hp Hst _ Hreg) as (?&?&?&_&?);
        [lia..|done].
    + intros He Hlast.
      destruct (register_finish _ _ _ _ _ _ _ Hp Hst _ Hreg) as (?&_&_&?);
        [lia..|done].
  - intros n turma alunos_txt safe t1 t2 s0 clock Hn Hlen.
    change (Z.of_nat (length MISSIONS)) with 6 in *.
    destruct (start_in_game n turma alunos_txt safe t1 t2 s0 Hn)
      as (Hin & _ & Hstage & Hcp & Hmi & Hpc).
    destruct (successes_progress clock _ Hin Hstage) as (s' & Hs' & _ & Hres);
      [rewrite Hcp, Hmi, Hpc; lia|].
    exists s'. split; [done|]. rewrite Hcp, Hmi, Hpc in Hres.
    repeat case_decide; try lia.
    + destruct Hres as (? & ? & ?). split; [done|]. split.
      * apply Z.div_unique with (r := mission_idx s'); lia.
      * apply Z.mod_unique with (q := current_player s'); lia.
    + done.
Qed.

Lemma C2_witness :
  1 ≤ 2 ∧
  Z.of_nat (length (replicate 7 (1, 1))) ≤ Z.of_nat (length MISSIONS) * 2 ∧
  ∃ s', successes (replicate 7 (1, 1)) duo = Some s' ∧
        stage s' = py "game" ∧ current_player s' = 1 ∧ mission_idx s' = 1.
Proof.
  assert (H1 : 1 ≤ 2) by lia.
  assert (H2 : Z.of_nat (length (replicate 7 (1, 1)))
               ≤ Z.of_nat (length MISSIONS) * 2) by (vm_compute; discriminate).
  split; [exact H1|]. split; [exact H2|].
  destruct (proj2 C2_success_advances_rotates_or_ends 2 [] [] true 0 0
              init_state (replicate 7 (1, 1)) H1 H2) as (s' & Hs' & Hres).
  exists s'. split; [exact Hs'|].
  rewrite decide_True in Hres by (vm_compute; reflexivity).
  exact Hres.
Defined.

(** ** Counters *)



(** C7: from the first run of the script on, whatever the learner does,
    every run ends normally and every player has [0 ≤ hits ≤ attempts]. *)
Theorem C7_hits_between_zero_and_attempts (acts : list (action * (Z * Z))) :
  Forall action_ok acts →
  ∃ s', run acts init_state = Some s' ∧
        ∀ p, p ∈ players s' → 0 ≤ p_hits p ≤ p_attempts p.
Proof.
  intros Hok.
  destruct (run_from_start acts init_state Hok) as (s' & Hs' & Hall);
    [done|apply Forall_nil_2|].
  exists s'. split; [done|]. by apply Forall_forall.
Qed.

Lemma C7_witness :
  Forall action_ok (paste_attempt ++ [(Validate, (3, 3))]) ∧
  ∃ s', run (paste_attempt ++ [(Validate, (3, 3))]) init_state = Some s' ∧
        ∀ p, p ∈ players s' → 0 ≤ p_hits p ≤ p_attempts p.
Proof.
  assert (H : Forall action_ok (paste_attempt ++ [(Validate, (3, 3))])).
  { repeat constructor; unfold action_ok; cbn; lia. }
  split; [exact H|].
  apply (C7_hits_between_zero_and_attempts _ H).
Defined.

(** C8: once "Iniciar Missao" was pressed, every later state of the session
    has [0 ≤ current_player < len(players)] and
    [0 ≤ mission_idx ≤ len(MISSIONS)]; and [register_mission_success]
    keeps these bounds in any state whose [players_count] is the length of
    [players]. *)
Theorem C8_player_and_mission_bounds :
  (∀ s0 count turma alunos_txt safe t1 t2 acts,
     stage s0 = py "start" → 1 ≤ count ≤ 3 → Forall action_ok acts →
     ∃ s', run ((StartMission count turma alunos_txt safe, (t1, t2)) :: acts) s0
             = Some s' ∧ bounds s') ∧
  (∀ pidx m t1 t2 s s',
     players_count s = Z.of_nat (length (players s)) → bounds s →
     register_mission_success pidx m t1 t2 s = Some s' →
     bounds s' ∧ players_count s' = Z.of_nat (length (players s'))).
Proof.
  split.
  - intros s0 count turma alunos_txt safe t1 t2 acts Hst Hc Hok.
    cbn [run]. unfold main. rewrite decide_True by done.
    cbn [mbind option_bind].
    destruct (start_in_game count turma alunos_txt safe t1 t2 s0)
      as (Hin & Hhb & _); [lia|].
    destruct (run_in_game acts _ Hok Hin Hhb) as (s' & Hs' & Hin' & _).
    exists s'. split; [done|]. by apply in_game_bounds.
  - intros pidx m t1 t2 s s' Hpc (Hcp & Hmi) Hreg.
    destruct (register_needs _ _ _ _ _ _ Hreg) as (p & started & Hp & Hst).
    pose proof (register_players _ _ _ _ _ _ _ Hp Hst _ Hreg) as Hpl.
    destruct (register_frame _ _ _ _ _ _ _ Hp Hst _ Hreg) as (Hpc' & _).
    unfold bounds. rewrite Hpl, length_insert, Hpc'.
    change (Z.of_nat (length MISSIONS)) with 6 in *.
    split; [|done].
    destruct (decide (mission_idx s < 5)) as [Hlt|Hge].
    { destruct (register_advance _ _ _ _ _ _ _ Hp Hst _ Hreg) as (-> & -> & _);
        [by change (Z.of_nat (length MISSIONS)) with 6|lia]. }
    destruct (decide (1 < players_count s ∧
                      current_player s < players_count s - 1)) as [[H1 H2]|Hn].
    + destruct (register_rotate _ _ _ _ _ _ _ Hp Hst _ Hreg) as (-> & -> & _);
        [change (Z.of_nat (length MISSIONS)) with 6; lia|done..|lia].
    + destruct (register_finish _ _ _ _ _ _ _ Hp Hst _ Hreg) as (_ & -> & -> & _);
        [change (Z.of_nat (length MISSIONS)) with 6; lia|done|lia].
Qed.

Lemma C8_witness :
  stage init_state = py "start" ∧ 1 ≤ 2 ≤ 3 ∧
  Forall action_ok [(Validate, (1, 1)); (Validate, (2, 2))] ∧
  ∃ s', run [(StartMission 2 [] [] true, (0, 0)); (Validate, (1, 1));
             (Validate, (2, 2))] init_state = Some s' ∧ bounds s'.
Proof.
  assert (H1 : stage init_state = py "start") by reflexivity.
  assert (H2 : 1 ≤ 2 ≤ 3) by lia.
  assert (H3 : Forall action_ok [(Validate, (1, 1)); (Validate, (2, 2))]).
  { repeat constructor. }
  split; [exact H1|]. split; [exact H2|]. split; [exact H3|].
  apply (proj1 C8_player_and_mission_bounds init_state 2 [] [] true 0 0 _
           H1 H2 H3).
Defined.
(** ** The shortcut guard *)

Lemma isBlockedCombo_spec combo :
  isBlockedCombo combo = true ↔
  combo ∈ [py "Ctrl+W"; py "Ctrl+T"; py "Ctrl+Shift+T"; py "Ctrl+R";
           py "Ctrl+N"; py "Ctrl+L"; py "F5"; py "Ctrl+F4"; py "Alt+F4"].
Proof.
  unfold isBlockedCombo, blocked. rewrite bool_decide_eq_true.
  rewrite !elem_of_union, !elem_of_singleton, !elem_of_cons, elem_of_nil.
  tauto.
Qed.

(** C3, as the code has it: the keydown handler suppresses a normalized
    combo exactly when it is one of Ctrl+W, Ctrl+T, Ctrl+Shift+T, Ctrl+R,
    Ctrl+N, Ctrl+L, F5, Ctrl+F4, Alt+F4 (the set of [isBlockedCombo]),
    whatever the state of the guard, its armed combo included. *)
Theorem C3_guard_suppresses_its_blocked_set (e : key_event) (g g' : guard) :
  ((cyber_guard_handler e g).2 = true ↔
   normalizeCombo e ∈
     [py "Ctrl+W"; py "Ctrl+T"; py "Ctrl+Shift+T"; py "Ctrl+R";
      py "Ctrl+N"; py "Ctrl+L"; py "F5"; py "Ctrl+F4"; py "Alt+F4"]) ∧
  (cyber_guard_handler e g).2 = (cyber_guard_handler e g').2.
Proof.
  split; [|reflexivity].
  change ((cyber_guard_handler e g).2) with (isBlockedCombo (normalizeCombo e)).
  apply isBlockedCombo_spec.
Qed.

Lemma C3_witness :
  (cyber_guard_handler ctrl_f4 armed).2 = true ∧
  (cyber_guard_handler ctrl_f4 armed).2 = (cyber_guard_handler ctrl_f4 fresh_window).2.
Proof.
  destruct (C3_guard_suppresses_its_blocked_set ctrl_f4 armed fresh_window)
    as [H1 H2].
  split; [|exact H2]. apply H1. vm_compute.
  do 7 apply list_elem_of_further. apply list_elem_of_here.
Defined.

Lemma C3_alt_tab_not_suppressed :
  normalizeCombo alt_tab = py "Alt+Tab" ∧
  normalizeCombo alt_tab ∈ DANGEROUS_COMBOS ∧
  (cyber_guard_handler alt_tab armed).2 = false ∧
  normalizeCombo ctrl_f4 = py "Ctrl+F4" ∧
  (normalizeCombo ctrl_f4 ∉ DANGEROUS_COMBOS) ∧
  (cyber_guard_handler ctrl_f4 armed).2 = true.
Proof.
  split; [by vm_compute|].
  split; [apply (bool_decide_unpack _); vm_compute; reflexivity|].
  split; [by vm_compute|].
  split; [by vm_compute|].
  split; [|by vm_compute].
  apply (bool_decide_unpack _). vm_compute. reflexivity.
Qed.

Lemma quiet_step ev g :
  cyber_combo_ok g = false → cyber_require_combo g = true →
  captures ev g = false → keeps_requirement ev = true →
  cyber_combo_ok (page_step ev g) = false ∧
  cyber_require_combo (page_step ev g) = true.
Proof.
  destruct g as [inst ok exp req last bound].
  cbn [cyber_combo_ok cyber_require_combo].
  intros -> -> Hcap Hkeep. destruct ev as [exp' req'|e|target].
  - cbn [keeps_requirement page_step] in *. subst req'. unfold inject_browser_shortcut_guard.
    cbn [cyber_guard_installed].
    destruct inst; cbn; repeat case_decide; destruct bound; cbn; auto.
  - cbn [page_step captures cyber_guard_installed cyber_expected_combo] in *. destruct inst; [|auto].
    unfold cyber_guard_handler. cbn in *.
    destruct (bool_decide (exp ≠ []) && bool_decide (normalizeCombo e = exp));
      cbn; [discriminate|auto].
  - cbn [page_step cyber_click_guard_bound]. destruct bound; [|auto].
    unfold click_guard. cbn.
    destruct target as [txt|]; [|auto].
    destruct (isValidateBtn (js_trim txt)); cbn; auto.
Qed.
Lemma quiet_run evs : ∀ g,
  cyber_combo_ok g = false → cyber_require_combo g = true → quiet evs g →
  cyber_combo_ok (page_run evs g) = false ∧
  cyber_require_combo (page_run evs g) = true.
Proof.
  induction evs as [|ev evs IH]; intros g Hok Hreq Hq; [done|].
  destruct Hq as (Hcap & Hkeep & Hq).
  destruct (quiet_step ev g Hok Hreq Hcap Hkeep) as [Hok' Hreq'].
  apply (IH _ Hok' Hreq' Hq).
Qed.

(** C5: with the combo required and captured, a click on a validation
    button passes and clears [__cyber_combo_ok]; after any page events that
    neither capture the armed combo again nor drop the requirement, the
    next click on a validation button is cancelled; after a new capture it
    passes. *)
Theorem C5_one_capture_one_validation (g : guard) (label label' : pystr)
    (evs : list page_event) :
  cyber_require_combo g = true → cyber_combo_ok g = true →
  isValidateBtn (js_trim label) = true →
  isValidateBtn (js_trim label') = true →
  let g1 := (click_guard (Some label) g).1 in
  (click_guard (Some label) g).2 = false ∧
  cyber_combo_ok g1 = false ∧
  (quiet evs g1 → (click_guard (Some label') (page_run evs g1)).2 = true) ∧
  (∀ e, cyber_guard_installed g1 = true → cyber_expected_combo g1 ≠ [] →
        normalizeCombo e = cyber_expected_combo g1 →
        (click_guard (Some label') (page_step (KeyDown e) g1)).2 = false).
Proof.
  destruct g as [inst ok exp req last bound]. cbn.
  intros -> -> Hl Hl'. unfold click_guard at 1 2 3 4. cbn. rewrite Hl. cbn.
  split; [done|]. split; [done|]. split.
  - intros Hq.
    destruct (quiet_run evs (Build_guard inst false exp true last bound)
                eq_refl eq_refl Hq) as [Hok' Hreq'].
    destruct (page_run evs _) as [inst2 ok2 exp2 req2 last2 bound2].
    cbn in Hok', Hreq'. subst. unfold click_guard. cbn. by rewrite Hl'.
  - intros e -> Hexp Hcombo. unfold cyber_guard_handler, click_guard. cbn.
    rewrite !bool_decide_eq_true_2 by done. cbn. by rewrite Hl'.
Qed.


Lemma C5_witness :
  let g := (cyber_guard_handler ctrl_c armed).1 in
  let evs := [Inject (py "Ctrl+C") true; KeyDown alt_tab;
              Click (Some (py "Baixar"))] in
  cyber_require_combo g = true ∧ cyber_combo_ok g = true ∧
  isValidateBtn (js_trim (py " Validar licao ")) = true ∧
  (click_guard (Some (py " Validar licao ")) g).2 = false ∧
  (click_guard (Some (py " Validar licao "))
     (page_run evs (click_guard (Some (py " Validar licao ")) g).1)).2 = true.
Proof.
  intros g evs.
  assert (H1 : cyber_require_combo g = true) by reflexivity.
  assert (H2 : cyber_combo_ok g = true) by (vm_compute; reflexivity).
  assert (H3 : isValidateBtn (js_trim (py " Validar licao ")) = true)
    by (vm_compute; reflexivity).
  split; [exact H1|]. split; [exact H2|]. split; [exact H3|].
  destruct (C5_one_capture_one_validation g (py " Validar licao ")
              (py " Validar licao ") evs H1 H2 H3 H3) as (Ha & _ & Hb & _).
  split; [exact Ha|]. apply Hb. vm_compute. repeat split.
Defined.

(** * Further properties of the code *)

Lemma elem_iff_by_decide (m : pystr) (A B : list pystr) :
  bool_decide (m ∈ A) = bool_decide (m ∈ B) → (m ∈ A ↔ m ∈ B).
Proof.
  intros H. rewrite <- (bool_decide_spec (m ∈ A)), <- (bool_decide_spec (m ∈ B)).
  by rewrite H.
Qed.

(** ** White space *)

Lemma lstrip_blank s : blank s → lstrip s = [].
Proof. induction 1 as [|c s Hc Hs IH]; [done|]. cbn [lstrip]. by rewrite Hc. Qed.

Lemma lstrip_app_blank pre s : blank pre → lstrip (pre ++ s) = lstrip s.
Proof.
  induction 1 as [|c pre Hc Hpre IH]; [done|]. cbn [app lstrip]. by rewrite Hc.
Qed.

Lemma lstrip_suffix s :
  ∃ pre, s = pre ++ lstrip s ∧ blank pre ∧
         ∀ c, head (lstrip s) = Some c → py_isspace c = false.
Proof.
  induction s as [|c s (pre & Hs & Hpre & Hh)].
  { exists []. split; [done|]. split; [constructor|done]. }
  cbn [lstrip]. destruct (py_isspace c) eqn:Hc.
  - exists (c :: pre). split; [cbn; by f_equal|]. split; [by constructor|done].
  - exists []. split; [done|]. split; [constructor|].
    cbn. by intros ? [= <-].
Qed.

Lemma blank_reverse s : blank s → blank (reverse s).
Proof. apply Forall_reverse. Qed.

Lemma strip_unique pre m post :
  blank pre → blank post → trimmed m → strip (pre ++ m ++ post) = m.
Proof.
  intros Hpre Hpost [Hh Hl]. unfold strip, rstrip.
  rewrite lstrip_app_blank by done.
  destruct m as [|c m].
  { cbn [app]. by rewrite (lstrip_blank post). }
  rewrite (lstrip_id ((c :: m) ++ post)) by (cbn; intros ? [= <-]; by apply Hh).
  rewrite reverse_app, lstrip_app_blank by by apply blank_reverse.
  rewrite lstrip_id; [apply reverse_involutive|].
  intros x. rewrite head_reverse. apply Hl.
Qed.

Lemma strip_decompose s :
  ∃ pre post, s = pre ++ strip s ++ post ∧ blank pre ∧ blank post ∧
              trimmed (strip s).
Proof.
  destruct (lstrip_suffix s) as (pre & Hs & Hpre & Hh).
  destruct (lstrip_suffix (reverse (lstrip s))) as (post & Hr & Hpost & Hl).
  exists pre, (reverse post). unfold strip, rstrip.
  set (m := lstrip (reverse (lstrip s))) in *.
  assert (Hls : lstrip s = reverse m ++ reverse post).
  { rewrite <- reverse_app, <- Hr. by rewrite reverse_involutive. }
  split; [by rewrite <- Hls|]. split; [done|].
  split; [by apply blank_reverse|]. split.
  - intros c Hc. apply Hh. rewrite Hls. revert Hc.
    by destruct (reverse m).
  - intros c. rewrite last_reverse. apply Hl.
Qed.

Lemma strip_trimmed s : trimmed (strip s).
Proof. by destruct (strip_decompose s) as (? & ? & _ & _ & _ & ?). Qed.

Lemma strip_of_trimmed s : trimmed s → strip s = s.
Proof.
  intros H. rewrite <- (strip_unique [] s []) at 2; [|constructor..|done].
  by rewrite app_nil_r.
Qed.

Lemma strip_idempotent s : strip (strip s) = strip s.
Proof. apply strip_of_trimmed, strip_trimmed. Qed.

Lemma strip_padded l s r : blank l → blank r → strip (l ++ s ++ r) = strip s.
Proof.
  intros Hl Hr. destruct (strip_decompose s) as (pre & post & Hs & Hpre & Hpost & Ht).
  rewrite Hs at 1.
  replace (l ++ (pre ++ strip s ++ post) ++ r)
    with ((l ++ pre) ++ strip s ++ (post ++ r)) by by rewrite <- !app_assoc.
  apply strip_unique; [by apply Forall_app..|done].
Qed.

(** X1: white space around the three texts never changes the outcome of
    a validation. *)
Theorem validation_ignores_outer_blanks (mission : Mission)
    (source_value editor_value final_value l1 r1 l2 r2 l3 r3 : pystr)
    (s : session_state) :
  blank l1 → blank r1 → blank l2 → blank r2 → blank l3 → blank r3 →
  validate_mission_by_result mission (l1 ++ source_value ++ r1)
    (l2 ++ editor_value ++ r2) (l3 ++ final_value ++ r3) s =
  validate_mission_by_result mission source_value editor_value final_value s.
Proof.
  intros. unfold validate_mission_by_result. by rewrite !strip_padded.
Qed.

Lemma validation_ignores_outer_blanks_witness :
  blank (py "  ") ∧ blank [] ∧
  validate_mission_by_result paste_mission
    (py "  " ++ py "abc" ++ []) (py "  " ++ py "A tecnologia" ++ py "  ")
    ([] ++ [] ++ []) init_state =
  validate_mission_by_result paste_mission (py "abc") (py "A tecnologia") []
    init_state.
Proof.
  assert (H1 : blank (py "  ")) by (vm_compute; repeat constructor).
  assert (H2 : blank []) by constructor.
  split; [exact H1|]. split; [exact H2|].
  exact (validation_ignores_outer_blanks paste_mission (py "abc")
           (py "A tecnologia") [] (py "  ") [] (py "  ") (py "  ") [] []
           init_state H1 H2 H1 H1 H2 H2).
Defined.

(** ** sanitize_secret *)

Lemma strip_nil : strip [] = [].
Proof. reflexivity. Qed.

(** X2: whatever its argument, the result of [sanitize_secret] has no
    white space at either end, so stripping it again changes nothing. *)
Theorem sanitize_secret_trimmed (value : option pystr) :
  trimmed (sanitize_secret value) ∧
  strip (sanitize_secret value) = sanitize_secret value.
Proof.
  assert (H : trimmed (sanitize_secret value)).
  { destruct value as [[|c v]|]; [split; done| |split; done].
    unfold sanitize_secret. case_match; apply strip_trimmed. }
  split; [done|by apply strip_of_trimmed].
Qed.

Lemma startswith_one q s :
  startswith [q] s = true ↔ head s = Some q.
Proof.
  destruct s as [|c s]; cbn; [done|].
  rewrite andb_true_r, N.eqb_eq. split; [by intros ->|by intros [= ->]].
Qed.

Lemma endswith_one q s : endswith [q] s = true ↔ last s = Some q.
Proof.
  unfold endswith. change (reverse [q]) with [q].
  by rewrite startswith_one, head_reverse.
Qed.

Lemma strip_ends_quoted q1 mid q2 : strip_ends (q1 :: mid ++ [q2]) = mid.
Proof. unfold strip_ends. cbn [tail]. apply removelast_last. Qed.

Lemma quoted_test s :
  (startswith [39%N] s || startswith [34%N] s) &&
  (endswith [39%N] s || endswith [34%N] s) &&
  bool_decide (2 ≤ length s)%nat = true ↔
  ∃ q1 mid q2, s = q1 :: mid ++ [q2] ∧ quote_mark q1 ∧ quote_mark q2.
Proof.
  rewrite !andb_true_iff, !orb_true_iff, !startswith_one, !endswith_one,
    bool_decide_eq_true.
  split.
  - intros [[Hh Hl] Hlen].
    destruct s as [|q1 s]; [cbn in Hlen; lia|].
    destruct (decide (s = [])) as [->|Hne]; [cbn in Hlen; lia|].
    destruct (proj2 (last_is_Some s) Hne) as [q2 Hq2].
    pose proof Hq2 as [mid ->]%last_Some.
    exists q1, mid, q2. split; [done|]. split.
    + unfold quote_mark. cbn in Hh. destruct Hh as [[= <-]|[= <-]]; auto.
    + unfold quote_mark.
      rewrite last_cons, last_snoc in Hl. destruct Hl as [[= <-]|[= <-]]; auto.
  - intros (q1 & mid & q2 & -> & H1 & H2). split; [split|].
    + cbn. unfold quote_mark in H1. destruct H1 as [->| ->]; auto.
    + rewrite last_cons, last_snoc. unfold quote_mark in H2.
      destruct H2 as [->| ->]; auto.
    + cbn [length]. rewrite length_app. cbn. lia.
Qed.

(** X3: [sanitize_secret] trims its argument and, when what is left
    starts and ends with a quote mark (not necessarily the same one) and
    has at least two characters, removes that one pair of marks and trims
    again; in any other case the trimmed argument is the result. *)
Theorem sanitize_secret_removes_one_pair_of_quotes (value : pystr) :
  value ≠ [] →
  (∀ q1 mid q2, strip value = q1 :: mid ++ [q2] →
     quote_mark q1 → quote_mark q2 →
     sanitize_secret (Some value) = strip mid) ∧
  ((¬ ∃ q1 mid q2, strip value = q1 :: mid ++ [q2] ∧
                   quote_mark q1 ∧ quote_mark q2) →
   sanitize_secret (Some value) = strip value).
Proof.
  intros Hne. destruct value as [|c v]; [done|]. clear Hne.
  unfold sanitize_secret. set (cleaned := strip (c :: v)).
  pose proof (quoted_test cleaned) as Hq. split.
  - intros q1 mid q2 Hs H1 H2.
    rewrite (proj2 Hq) by eauto 6. by rewrite Hs, strip_ends_quoted.
  - intros Hn. destruct (_ && _ && _) eqn:E; [|done].
    destruct Hn. by apply Hq.
Qed.

Lemma sanitize_secret_removes_one_pair_of_quotes_witness :
  py " 'ghp_abc' " ≠ [] ∧
  sanitize_secret (Some (py " 'ghp_abc' ")) = strip (py "ghp_abc").
Proof.
  assert (H : py " 'ghp_abc' " ≠ []) by (by vm_compute).
  split; [exact H|].
  apply (proj1 (sanitize_secret_removes_one_pair_of_quotes _ H)
           39%N (py "ghp_abc") 39%N).
  - vm_compute. reflexivity.
  - by left.
  - by left.
Defined.

(** ** pretty_combo *)

Lemma py_split_nonempty sep s : py_split sep s ≠ [].
Proof.
  induction s as [|c s IH]; [done|]. cbn [py_split].
  destruct (c =? sep)%N; [done|]. by destruct (py_split sep s).
Qed.

Lemma join_cons2 sep p q ps :
  join sep (p :: q :: ps) = p ++ sep ++ join sep (q :: ps).
Proof. reflexivity. Qed.

Lemma join_py_split sep s : join [sep] (py_split sep s) = s.
Proof.
  induction s as [|c s IH]; [done|]. cbn [py_split].
  pose proof (py_split_nonempty sep s) as Hne.
  destruct (c =? sep)%N eqn:E.
  - apply N.eqb_eq in E as ->.
    destruct (py_split sep s) as [|q ps]; [done|].
    rewrite join_cons2, IH. done.
  - destruct (py_split sep s) as [|p [|q ps]]; [done|..].
    + cbn [join] in *. by rewrite IH.
    + rewrite join_cons2 in *. by rewrite <- IH.
Qed.

Lemma py_split_free sep s :
  sep ∉ s → py_split sep s = [s].
Proof.
  induction s as [|c s IH]; [done|]. intros [Hc Hs]%not_elem_of_cons.
  cbn [py_split]. rewrite (proj2 (N.eqb_neq c sep)) by done.
  by rewrite IH.
Qed.

Lemma py_split_app sep p s :
  sep ∉ p → py_split sep (p ++ sep :: s) = p :: py_split sep s.
Proof.
  induction p as [|c p IH]; intros Hp.
  - cbn [app py_split]. by rewrite N.eqb_refl.
  - apply not_elem_of_cons in Hp as [Hc Hp].
    cbn [app py_split]. rewrite (proj2 (N.eqb_neq c sep)) by done.
    by rewrite IH.
Qed.

Lemma py_split_join sep L :
  L ≠ [] → Forall (λ p, sep ∉ p) L → py_split sep (join [sep] L) = L.
Proof.
  intros Hne Hall. induction Hall as [|p L Hp Hall IH]; [done|].
  destruct L as [|q L].
  - cbn [join]. by apply py_split_free.
  - rewrite join_cons2. cbn [app]. rewrite py_split_app by done.
    by rewrite IH.
Qed.

Lemma py_split_parts_free sep s : Forall (λ p, sep ∉ p) (py_split sep s).
Proof.
  induction s as [|c s IH].
  { repeat constructor. apply not_elem_of_nil. }
  cbn [py_split]. destruct (c =? sep)%N eqn:E.
  - constructor; [apply not_elem_of_nil|done].
  - apply N.eqb_neq in E.
    destruct (py_split sep s) as [|p ps].
    + repeat constructor. rewrite not_elem_of_cons. split; [done|apply not_elem_of_nil].
    + apply Forall_cons_1 in IH as [Hp Hps]. constructor; [|done].
      rewrite not_elem_of_cons. done.
Qed.

Lemma arrows_lookup k v :
  arrows !! k = Some v →
  (43%N ∉ v) ∧ arrows !! v = None.
Proof.
  intros H. apply elem_of_list_to_map_2 in H.
  rewrite !elem_of_cons, elem_of_nil in H.
  destruct_or!; try done; injection H as -> ->;
    (split; [|by vm_compute]); rewrite !not_elem_of_cons;
    (split; [done|apply not_elem_of_nil]).
Qed.

Lemma pretty_key_free k : 43%N ∉ k → 43%N ∉ pretty_key k.
Proof.
  intros Hk. unfold pretty_key.
  destruct (arrows !! k) as [v|] eqn:E; [|done].
  by apply arrows_lookup in E as [? _].
Qed.

Lemma pretty_key_idempotent k : pretty_key (pretty_key k) = pretty_key k.
Proof.
  unfold pretty_key at 2 3. destruct (arrows !! k) as [v|] eqn:E; cbn.
  - unfold pretty_key. by apply arrows_lookup in E as [_ ->].
  - unfold pretty_key. by rewrite E.
Qed.

(** X4: [pretty_combo] rewrites the combo part by part: splitting its
    result on [+] gives the parts of the argument, each through
    [pretty_key]; a combo none of whose parts is an arrow name comes back
    unchanged; and a second application changes nothing. *)
Theorem pretty_combo_acts_on_parts (combo : pystr) :
  py_split 43 (pretty_combo combo) = pretty_key <$> py_split 43 combo ∧
  (Forall (λ part, arrows !! part = None) (py_split 43 combo) →
   pretty_combo combo = combo) ∧
  pretty_combo (pretty_combo combo) = pretty_combo combo.
Proof.
  assert (Hparts : py_split 43 (pretty_combo combo)
                   = pretty_key <$> py_split 43 combo).
  { unfold pretty_combo. change (py "+") with [43%N].
    apply py_split_join.
    - pose proof (py_split_nonempty 43 combo). by destruct (py_split 43 combo).
    - apply Forall_fmap. eapply Forall_impl; [apply py_split_parts_free|].
      intros p Hp. by apply pretty_key_free. }
  split; [done|]. split.
  - intros Hno. unfold pretty_combo. change (py "+") with [43%N].
    rewrite <- (join_py_split 43 combo) at 2. f_equal.
    apply fmap_fixed. eapply Forall_impl; [exact Hno|].
    intros p Hp. unfold pretty_key. by rewrite Hp.
  - unfold pretty_combo at 1. rewrite Hparts. unfold pretty_combo.
    f_equal. rewrite <- list_fmap_compose. apply list_fmap_ext.
    intros _ p _. apply pretty_key_idempotent.
Qed.

Lemma pretty_combo_acts_on_parts_witness :
  Forall (λ part, arrows !! part = None) (py_split 43 (py "Ctrl+Shift+V")) ∧
  pretty_combo (py "Ctrl+Shift+V") = py "Ctrl+Shift+V".
Proof.
  assert (H : Forall (λ part, arrows !! part = None)
                (py_split 43 (py "Ctrl+Shift+V"))).
  { vm_compute. repeat constructor. }
  split; [exact H|].
  exact (proj1 (proj2 (pretty_combo_acts_on_parts (py "Ctrl+Shift+V"))) H).
Defined.

(** ** More on normalize_combo *)

Lemma concat_re_split s : ∀ b,
  concat (re_split_from b s) = filter (λ c, is_sep c = false) s.
Proof.
  induction s as [|c s IH]; intros b; [done|].
  cbn [re_split_from]. destruct (is_sep c) eqn:Hc.
  - rewrite filter_cons_False by (rewrite Hc; done).
    destruct b; [apply IH|]. cbn [concat app]. apply IH.
  - rewrite filter_cons_True by done. rewrite <- (IH false).
    pose proof (re_split_from_nonempty false s).
    by destruct (re_split_from false s).
Qed.

Lemma filter_nonempty_nil (L : list pystr) :
  filter (λ t, t ≠ []) L = [] ↔ concat L = [].
Proof.
  induction L as [|t L IH]; [done|].
  destruct t as [|c t].
  - rewrite filter_cons_False by (intros H; by apply H). cbn [concat app]. done.
  - rewrite filter_cons_True by done. cbn. split; intros H; discriminate H.
Qed.

Lemma blank_seps pre : blank pre → filter (λ c, is_sep c = false) pre = [].
Proof.
  intros H. apply filter_none. eapply Forall_impl; [exact H|].
  intros c Hc. unfold is_sep. rewrite Hc, orb_true_r. done.
Qed.

Lemma tokens_nil text :
  tokens text = [] ↔ Forall (λ c, is_sep c = true) text.
Proof.
  unfold tokens, re_split.
  rewrite filter_nonempty_nil, concat_re_split.
  destruct (strip_decompose text) as (pre & post & Ht & Hpre & Hpost & _).
  assert (Hf : filter (λ c, is_sep c = false) text
               = filter (λ c, is_sep c = false) (strip text)).
  { rewrite Ht at 1. rewrite !filter_app.
    rewrite (blank_seps pre), (blank_seps post) by done.
    cbn [app]. apply app_nil_r. }
  rewrite <- Hf. split.
  - intros Hnil. apply Forall_forall. intros c Hc.
    destruct (is_sep c) eqn:E; [done|].
    assert (c ∈ filter (λ c, is_sep c = false) text)
      by by apply list_elem_of_filter.
    rewrite Hnil in H. by apply elem_of_nil in H.
  - intros Hall. apply filter_none. eapply Forall_impl; [exact Hall|].
    intros c ->. done.
Qed.

Lemma upper_cp_nonempty c : upper_cp c ≠ [].
Proof. unfold upper_cp. by repeat case_match. Qed.

Lemma title_cp_nonempty c : title_cp c ≠ [].
Proof. unfold title_cp. case_match; [done|apply upper_cp_nonempty]. Qed.

Lemma normalize_token_nonempty t : t ≠ [] → normalize_token t ≠ [].
Proof.
  intros Ht. unfold normalize_token.
  destruct (mapping !! lower t) as [v|] eqn:Hm; cbn.
  { by destruct (mapping_values _ _ Hm) as (_ & [? _] & _). }
  destruct t as [|c t]; [done|]. case_decide.
  - destruct t; [|done]. cbn. rewrite app_nil_r. apply upper_cp_nonempty.
  - cbn [capitalize]. pose proof (title_cp_nonempty c).
    by destruct (title_cp c).
Qed.

Lemma join_nonempty sep p ps : p ≠ [] → join sep (p :: ps) ≠ [].
Proof. destruct p; [done|]. by destruct ps. Qed.

(** X5: the result of [normalize_combo] is empty exactly when the text
    holds nothing but separators ([+] and white space). *)
Theorem normalize_combo_empty_iff_no_token (text : pystr) :
  normalize_combo text = [] ↔ Forall (λ c, is_sep c = true) text.
Proof.
  rewrite <- tokens_nil. split.
  - intros Hout. destruct (tokens text) as [|t ts] eqn:Et; [done|]. exfalso.
    rewrite normalize_combo_eq in Hout. unfold norm_tokens in Hout.
    rewrite Et in Hout. cbn [fmap list_fmap] in Hout.
    pose proof (tokens_ok text) as Hok. rewrite Et in Hok.
    apply Forall_cons_1 in Hok as [[Hne _] _].
    pose proof (normalize_token_nonempty t Hne) as Hk.
    set (k := normalize_token t) in *. set (ks := normalize_token <$> ts) in *.
    destruct (decide (k ∈ modifier_names)) as [Hmod|Hmod].
    + assert (Hin : k ∈ filter (λ m, m ∈ k :: ks) modifier_names).
      { apply list_elem_of_filter. split; [apply list_elem_of_here|done]. }
      destruct (filter (λ m, m ∈ k :: ks) modifier_names) as [|m ms] eqn:Em;
        [by apply elem_of_nil in Hin|].
      assert (Hm : m ∈ modifier_names).
      { assert (m ∈ filter (λ m, m ∈ k :: ks) modifier_names)
          by (rewrite Em; apply list_elem_of_here).
        by apply list_elem_of_filter in H as [_ ?]. }
      revert Hout. apply join_nonempty.
      by destruct (modifiers_fixed m Hm) as (_ & ? & _).
    + assert (Hnone : filter (λ m, m ∈ k :: ks) modifier_names ++
                      filter (λ k0, k0 ∉ modifier_names) (k :: ks)
                      = filter (λ m, m ∈ k :: ks) modifier_names ++
                        k :: filter (λ k0, k0 ∉ modifier_names) ks).
      { by rewrite filter_cons_True. }
      rewrite Hnone in Hout.
      destruct (filter (λ m, m ∈ k :: ks) modifier_names) as [|m ms] eqn:Em.
      * revert Hout. by apply join_nonempty.
      * assert (Hm : m ∈ modifier_names).
        { assert (m ∈ filter (λ m, m ∈ k :: ks) modifier_names)
            by (rewrite Em; apply list_elem_of_here).
          by apply list_elem_of_filter in H as [_ ?]. }
        revert Hout. apply join_nonempty.
        by destruct (modifiers_fixed m Hm) as (_ & ? & _).
  - intros Hnil. rewrite normalize_combo_eq. unfold norm_tokens.
    rewrite Hnil. cbn [fmap list_fmap].
    rewrite filter_none; [done|].
    apply Forall_forall. intros m _. apply not_elem_of_nil.
Qed.

Lemma normalize_combo_empty_iff_no_token_witness :
  Forall (λ c, is_sep c = true) (py " + ") ∧ normalize_combo (py " + ") = [].
Proof.
  assert (H : Forall (λ c, is_sep c = true) (py " + ")).
  { vm_compute. repeat constructor. }
  split; [exact H|].
  exact (proj2 (normalize_combo_empty_iff_no_token (py " + ")) H).
Defined.

Lemma filter_ext_in {A} (P Q : A → Prop) `{!∀ x, Decision (P x)}
    `{!∀ x, Decision (Q x)} (l : list A) :
  (∀ x, x ∈ l → (P x ↔ Q x)) → filter P l = filter Q l.
Proof.
  induction l as [|x l IH]; intros Hext; [done|].
  rewrite !filter_cons.
  rewrite IH by (intros y Hy; apply Hext; by apply list_elem_of_further).
  pose proof (Hext x (list_elem_of_here _ _)).
  repeat case_decide; tauto.
Qed.

(** X6: the result of [normalize_combo] depends on the normalised tokens
    only through which modifiers occur among them and through the
    sequence of the other tokens: the order and the repetition of
    modifiers in the text do not matter. *)
Theorem normalize_combo_ignores_modifier_order (text text' : pystr) :
  (∀ m, m ∈ modifier_names →
        (m ∈ norm_tokens text ↔ m ∈ norm_tokens text')) →
  filter (λ k, k ∉ modifier_names) (norm_tokens text) =
    filter (λ k, k ∉ modifier_names) (norm_tokens text') →
  normalize_combo text = normalize_combo text'.
Proof.
  intros Hmods Hrest. rewrite !normalize_combo_eq, Hrest. do 2 f_equal.
  by apply filter_ext_in.
Qed.

Lemma normalize_combo_ignores_modifier_order_witness :
  filter (λ k, k ∉ modifier_names) (norm_tokens (py "shift+ctrl+a")) =
    filter (λ k, k ∉ modifier_names) (norm_tokens (py "ctrl shift ctrl a")) ∧
  normalize_combo (py "shift+ctrl+a") = normalize_combo (py "ctrl shift ctrl a").
Proof.
  assert (H1 : ∀ m, m ∈ modifier_names →
            (m ∈ norm_tokens (py "shift+ctrl+a") ↔
             m ∈ norm_tokens (py "ctrl shift ctrl a"))).
  { intros m Hm. unfold modifier_names in Hm.
    rewrite !elem_of_cons, elem_of_nil in Hm.
    destruct_or!; try done; subst m; apply elem_iff_by_decide; vm_compute;
      reflexivity. }
  assert (H2 : filter (λ k, k ∉ modifier_names)
                 (norm_tokens (py "shift+ctrl+a")) =
               filter (λ k, k ∉ modifier_names)
                 (norm_tokens (py "ctrl shift ctrl a"))).
  { vm_compute. reflexivity. }
  split; [exact H2|].
  exact (normalize_combo_ignores_modifier_order _ _ H1 H2).
Defined.

Lemma combo_parts_ok text :
  is_ascii text →
  Forall (λ k, normalize_token k = k ∧ token_ok k) (combo_parts text).
Proof.
  intros Ha. pose proof (norm_tokens_fixed text Ha) as Hnorm.
  unfold combo_parts. apply Forall_app. split; apply Forall_forall; intros k Hk.
  - apply list_elem_of_filter in Hk as [_ Hk]. by apply modifiers_fixed.
  - apply list_elem_of_filter in Hk as [_ Hk].
    rewrite Forall_forall in Hnorm. by apply Hnorm.
Qed.

Lemma join_Forall (P : N → Prop) sep L :
  Forall P sep → Forall (Forall P) L → Forall P (join sep L).
Proof.
  intros Hsep. induction 1 as [|p L Hp HL IH]; [constructor|].
  destruct L as [|q L]; [done|].
  rewrite join_cons2. by rewrite !Forall_app.
Qed.

(** X7: on ASCII input the result of [normalize_combo] is in canonical
    form: it holds no white space, and cutting it at every [+] gives back
    the parts that were joined, none of them empty (so no [+] at either
    end and no two in a row). *)
Theorem normalize_combo_canonical_form (text : pystr) :
  is_ascii text → normalize_combo text ≠ [] →
  normalize_combo text = join (py "+") (combo_parts text) ∧
  py_split 43 (normalize_combo text) = combo_parts text ∧
  Forall (λ part, part ≠ []) (py_split 43 (normalize_combo text)) ∧
  Forall (λ c, py_isspace c = false) (normalize_combo text).
Proof.
  intros Ha Hne. pose proof (combo_parts_ok text Ha) as Hok.
  assert (Hout : normalize_combo text = join (py "+") (combo_parts text))
    by apply normalize_combo_eq.
  assert (Hparts : combo_parts text ≠ []).
  { intros E. rewrite Hout, E in Hne. by apply Hne. }
  assert (Hsplit : py_split 43 (normalize_combo text) = combo_parts text).
  { rewrite Hout. change (py "+") with [43%N]. apply py_split_join; [done|].
    eapply Forall_impl; [exact Hok|]. intros p (_ & _ & Hp) Hin.
    rewrite Forall_forall in Hp. specialize (Hp _ Hin). by vm_compute in Hp. }
  split; [done|]. split; [done|]. split.
  - rewrite Hsplit. eapply Forall_impl; [exact Hok|]. by intros p (_ & ? & _).
  - rewrite Hout. apply join_Forall.
    + by repeat constructor.
    + eapply Forall_impl; [exact Hok|]. intros p (_ & _ & Hp).
      eapply Forall_impl; [exact Hp|]. intros c. apply not_sep_not_space.
Qed.

Lemma normalize_combo_canonical_form_witness :
  is_ascii (py " shift+ctrl  a") ∧ normalize_combo (py " shift+ctrl  a") ≠ [] ∧
  py_split 43 (normalize_combo (py " shift+ctrl  a")) =
    combo_parts (py " shift+ctrl  a").
Proof.
  assert (H1 : is_ascii (py " shift+ctrl  a")).
  { vm_compute. repeat constructor. }
  assert (H2 : normalize_combo (py " shift+ctrl  a") ≠ []) by (by vm_compute).
  split; [exact H1|]. split; [exact H2|].
  exact (proj1 (proj2 (normalize_combo_canonical_form _ H1 H2))).
Defined.

(** *** Letter case *)

Lemma lstrip_fmap (f : N → N) (s : pystr) :
  Forall (folds f) s → lstrip (f <$> s) = f <$> lstrip s.
Proof.
  induction 1 as [|c s (Hc & _) Hs IH]; [done|].
  cbn [fmap list_fmap lstrip]. rewrite Hc.
  destruct (py_isspace c); [apply IH|done].
Qed.

Lemma strip_fmap (f : N → N) (s : pystr) : Forall (folds f) s → strip (f <$> s) = f <$> strip s.
Proof.
  intros H. unfold strip, rstrip.
  rewrite lstrip_fmap by done. rewrite <- fmap_reverse.
  rewrite lstrip_fmap by by apply Forall_reverse, lstrip_Forall.
  by rewrite fmap_reverse.
Qed.

Lemma re_split_from_fmap (f : N → N) (s : pystr) : ∀ b,
  Forall (folds f) s →
  re_split_from b (f <$> s) = (λ t : pystr, f <$> t) <$> re_split_from b s.
Proof.
  induction s as [|c s IH]; intros b Hs; [done|].
  apply Forall_cons_1 in Hs as [(_ & Hc & _) Hs].
  cbn [fmap list_fmap re_split_from]. rewrite Hc.
  destruct (is_sep c).
  - destruct b; [by apply IH|]. cbn. f_equal. by apply IH.
  - change (list_fmap N N f s) with (f <$> s). rewrite (IH false) by done.
    pose proof (re_split_from_nonempty false s).
    by destruct (re_split_from false s).
Qed.

Lemma filter_nonempty_fmap (f : N → N) (L : list pystr) :
  filter (λ t, t ≠ []) ((λ t : pystr, f <$> t) <$> L) =
  (λ t : pystr, f <$> t) <$> filter (λ t, t ≠ []) L.
Proof.
  induction L as [|t L IH]; [done|]. cbn [fmap list_fmap].
  destruct t as [|c t].
  - rewrite !filter_cons_False by (intros H; by apply H). apply IH.
  - rewrite !filter_cons_True by done. cbn [fmap list_fmap]. by rewrite <- IH.
Qed.

Lemma tokens_fmap (f : N → N) (text : pystr) :
  Forall (folds f) text → tokens (f <$> text) = (λ t : pystr, f <$> t) <$> tokens text.
Proof.
  intros H. unfold tokens, re_split.
  rewrite strip_fmap by done.
  rewrite re_split_from_fmap by by apply strip_Forall.
  apply filter_nonempty_fmap.
Qed.

Lemma lower_fmap (f : N → N) (s : pystr) : Forall (folds f) s → lower (f <$> s) = lower s.
Proof.
  induction 1 as [|c s (_ & _ & Hc & _) Hs IH]; [done|].
  cbn [fmap list_fmap]. rewrite !lower_cons, Hc. by f_equal.
Qed.

Lemma upper_fmap (f : N → N) (s : pystr) : Forall (folds f) s → upper (f <$> s) = upper s.
Proof.
  induction 1 as [|c s (_ & _ & _ & Hc & _) Hs IH]; [done|].
  cbn [fmap list_fmap]. rewrite !upper_cons, Hc. by f_equal.
Qed.

Lemma capitalize_fmap (f : N → N) (s : pystr) :
  Forall (folds f) s → capitalize (f <$> s) = capitalize s.
Proof.
  destruct 1 as [|c s (_ & _ & _ & _ & Hc) Hs]; [done|].
  cbn [fmap list_fmap capitalize]. rewrite Hc. f_equal. by apply lower_fmap.
Qed.

Lemma normalize_token_fmap (f : N → N) (t : pystr) :
  Forall (folds f) t → normalize_token (f <$> t) = normalize_token t.
Proof.
  intros H. unfold normalize_token.
  by rewrite lower_fmap, upper_fmap, capitalize_fmap, length_fmap.
Qed.

Lemma normalize_combo_fmap (f : N → N) (text : pystr) :
  Forall (folds f) text → normalize_combo (f <$> text) = normalize_combo text.
Proof.
  intros H.
  assert (Hn : norm_tokens (f <$> text) = norm_tokens text).
  { unfold norm_tokens. rewrite tokens_fmap by done.
    rewrite <- list_fmap_compose. apply list_fmap_ext.
    intros i t Ht. cbn. apply normalize_token_fmap.
    apply list_elem_of_lookup_2 in Ht. unfold tokens, re_split in Ht.
    apply list_elem_of_filter in Ht as [_ Ht].
    pose proof (re_split_from_Forall _ _ false (strip_Forall _ _ H)) as Hall.
    rewrite Forall_forall in Hall. by apply Hall. }
  by rewrite !normalize_combo_eq, Hn.
Qed.

Lemma ascii_folds c :
  (c < 128)%N →
  lower_cp c = [lower_char c] ∧ upper_cp c = [upper_char c] ∧
  folds lower_char c ∧ folds upper_char c.
Proof.
  intros Hc.
  pose proof (ascii_enumerated ascii_fold_ok ltac:(by vm_compute) c Hc) as H.
  unfold ascii_fold_ok in H.
  rewrite !andb_true_iff, !bool_decide_eq_true in H.
  destruct H as (((((((((((((?&?)&_)&_)&?)&?)&?)&?)&?)&?)&?)&?)&?)&?).
  unfold folds. done.
Qed.

Lemma ascii_lower_is_fmap s :
  is_ascii s →
  lower s = lower_char <$> s ∧ upper s = upper_char <$> s ∧
  Forall (folds lower_char) s ∧ Forall (folds upper_char) s.
Proof.
  induction 1 as [|c s Hc Hs (IH1 & IH2 & IH3 & IH4)].
  { repeat split; constructor. }
  destruct (ascii_folds c Hc) as (Hl & Hu & Hfl & Hfu).
  rewrite lower_cons, upper_cons, Hl, Hu, IH1, IH2.
  repeat split; by constructor.
Qed.

(** X8: on ASCII input [normalize_combo] does not look at letter case:
    lower-casing or upper-casing the text first gives the same result. *)
Theorem normalize_combo_ignores_ascii_case (text : pystr) :
  is_ascii text →
  normalize_combo (lower text) = normalize_combo text ∧
  normalize_combo (upper text) = normalize_combo text.
Proof.
  intros Ha. destruct (ascii_lower_is_fmap text Ha) as (-> & -> & Hl & Hu).
  split; by apply normalize_combo_fmap.
Qed.

Lemma normalize_combo_ignores_ascii_case_witness :
  is_ascii (py "Ctrl+shift+v") ∧
  normalize_combo (lower (py "Ctrl+shift+v")) =
    normalize_combo (py "Ctrl+shift+v").
Proof.
  assert (H : is_ascii (py "Ctrl+shift+v")).
  { vm_compute. repeat constructor. }
  split; [exact H|].
  exact (proj1 (normalize_combo_ignores_ascii_case _ H)).
Defined.

(** X9: whatever the combo, [apply_simulation_effect] leaves the
    clipboard, the texts, the undo stack and everything of the game
    (players, turn, mission, score, stage, feedback) as they were; only
    the window, the tab count, the three desktop flags and the action log
    can change. *)
Theorem effect_touches_only_the_desktop (combo : pystr) (s : session_state) :
  let s' := apply_simulation_effect combo s in
  clipboard_virtual s' = clipboard_virtual s ∧
  source_text s' = source_text s ∧ source_initial s' = source_initial s ∧
  destination_text s' = destination_text s ∧ editor_box s' = editor_box s ∧
  final_box s' = final_box s ∧ undo_stack s' = undo_stack s ∧
  undo_target s' = undo_target s ∧ mission_ctx_idx s' = mission_ctx_idx s ∧
  last_mission_idx s' = last_mission_idx s ∧ stage s' = stage s ∧
  players_count s' = players_count s ∧ players s' = players s ∧
  current_player s' = current_player s ∧ mission_idx s' = mission_idx s ∧
  total_xp s' = total_xp s ∧ feedback s' = feedback s ∧
  finish_reason s' = finish_reason s ∧
  game_started_at s' = game_started_at s ∧
  mission_started_at s' = mission_started_at s ∧
  safe_mode s' = safe_mode s ∧ turma_grupo s' = turma_grupo s ∧
  alunos s' = alunos s.
Proof.
  cbv zeta. unfold apply_simulation_effect.
  repeat case_decide; repeat split; reflexivity.
Qed.

(** X10: no combo brings the tab count below one, unlocks the screen or
    closes the security menu. *)
Theorem effect_keeps_tabs_and_locks (combo : pystr) (s : session_state) :
  (1 ≤ sim_tabs s → 1 ≤ sim_tabs (apply_simulation_effect combo s)) ∧
  (locked_screen s = true →
   locked_screen (apply_simulation_effect combo s) = true) ∧
  (security_menu_open s = true →
   security_menu_open (apply_simulation_effect combo s) = true).
Proof.
  unfold apply_simulation_effect.
  repeat case_decide; cbn [sim_tabs locked_screen security_menu_open
    set_sim_tabs set_action_log set_active_window set_show_desktop
    set_locked_screen set_security_menu_open]; repeat split; try done; lia.
Qed.

Lemma effect_keeps_tabs_and_locks_witness :
  1 ≤ sim_tabs init_state ∧
  1 ≤ sim_tabs (apply_simulation_effect (py "Ctrl+W") init_state).
Proof.
  assert (H : 1 ≤ sim_tabs init_state) by (cbn; lia).
  split; [exact H|].
  exact (proj1 (effect_keeps_tabs_and_locks (py "Ctrl+W") init_state) H).
Defined.

Lemma effect_ctrl_t s :
  apply_simulation_effect (py "Ctrl+T") s =
  set_action_log
    (py "Ctrl+T executado: nova aba virtual aberta (" ++
     py_str_int (sim_tabs s + 1) ++ py ").")
    (set_sim_tabs (sim_tabs s + 1) s).
Proof. unfold apply_simulation_effect. by repeat case_decide. Qed.

Lemma effect_ctrl_w s :
  apply_simulation_effect (py "Ctrl+W") s =
  set_action_log
    (py "Ctrl+W executado: aba virtual fechada (" ++
     py_str_int (1 `max` (sim_tabs s - 1)) ++ py ").")
    (set_sim_tabs (1 `max` (sim_tabs s - 1)) s).
Proof. unfold apply_simulation_effect. by repeat case_decide. Qed.

(** X11: closing a tab undoes opening one, on the tab count; closing the
    only tab leaves one tab. *)
Theorem close_tab_undoes_open_tab (s : session_state) :
  (1 ≤ sim_tabs s →
   sim_tabs (apply_simulation_effect (py "Ctrl+W")
               (apply_simulation_effect (py "Ctrl+T") s)) = sim_tabs s) ∧
  (sim_tabs s ≤ 1 →
   sim_tabs (apply_simulation_effect (py "Ctrl+W") s) = 1) ∧
  (1 < sim_tabs s →
   sim_tabs (apply_simulation_effect (py "Ctrl+W") s) = sim_tabs s - 1).
Proof.
  rewrite !effect_ctrl_w, effect_ctrl_t.
  cbn [sim_tabs set_sim_tabs set_action_log]. lia.
Qed.

Lemma close_tab_undoes_open_tab_witness :
  1 ≤ sim_tabs init_state ∧
  sim_tabs (apply_simulation_effect (py "Ctrl+W")
              (apply_simulation_effect (py "Ctrl+T") init_state)) =
    sim_tabs init_state.
Proof.
  assert (H : 1 ≤ sim_tabs init_state) by (cbn; lia).
  split; [exact H|].
  exact (proj1 (close_tab_undoes_open_tab init_state) H).
Defined.

Lemma effect_alt_tab s :
  apply_simulation_effect (py "Alt+Tab") s =
  let w := if decide (active_window s = py "Editor") then py "Navegador"
           else py "Editor" in
  set_action_log (py "Alt+Tab executado: foco trocado para " ++ w ++ py ".")
    (set_show_desktop false (set_active_window w s)).
Proof. unfold apply_simulation_effect. by repeat case_decide. Qed.

(** X12: Alt+Tab moves the focus to the browser when it is on the editor
    and to the editor from any other window, and hides the desktop; from
    the editor, two presses come back to the editor. *)
Theorem alt_tab_switches_focus (s : session_state) :
  let s' := apply_simulation_effect (py "Alt+Tab") s in
  (active_window s = py "Editor" → active_window s' = py "Navegador") ∧
  (active_window s ≠ py "Editor" → active_window s' = py "Editor") ∧
  show_desktop s' = false ∧
  (active_window s = py "Editor" →
   active_window (apply_simulation_effect (py "Alt+Tab") s') = py "Editor").
Proof.
  cbv zeta. rewrite !effect_alt_tab. cbv zeta.
  cbn [active_window show_desktop set_active_window set_show_desktop
       set_action_log].
  split_and!; intros; repeat case_decide; done.
Qed.

Lemma alt_tab_switches_focus_witness :
  active_window init_state = py "Editor" ∧
  active_window (apply_simulation_effect (py "Alt+Tab") init_state) =
    py "Navegador".
Proof.
  assert (H : active_window init_state = py "Editor") by reflexivity.
  split; [exact H|].
  exact (proj1 (alt_tab_switches_focus init_state) H).
Defined.

Lemma startswith_app p s : startswith p (p ++ s) = true.
Proof. induction p as [|c p IH]; [done|]. cbn. by rewrite N.eqb_refl. Qed.

Lemma effect_in_literal_set combo s :
  combo ∈ logged_only_combos ∨ combo ∈ window_combos ∨
  combo ∈ navigation_combos →
  ∃ suffix, apply_simulation_effect combo s =
            set_action_log (combo ++ suffix) s.
Proof.
  unfold logged_only_combos, window_combos, navigation_combos.
  rewrite !elem_of_union, !elem_of_singleton. intros Hin.
  destruct_or!; subst combo; eexists; by vm_compute.
Qed.

Lemma handled_cases combo :
  combo ∈ handled_combos ↔
  combo ∈ [py "Alt+Tab"; py "Ctrl+T"; py "Ctrl+W"; py "Win+D"; py "Win+L";
           py "Ctrl+Alt+Del"; py "Win+E"; py "Win+I"; py "Ctrl+Shift+Esc";
           py "Alt+F4"; py "Win+Shift+S"; py "Ctrl+Shift+T"] ∨
  combo ∈ logged_only_combos ∨ combo ∈ window_combos ∨
  combo ∈ navigation_combos.
Proof.
  unfold handled_combos.
  rewrite !elem_of_union, !elem_of_singleton, !elem_of_cons, elem_of_nil.
  tauto.
Qed.

(** X13: a combo without a branch leaves the session exactly as it was
    (the action log included); a combo with a branch writes a line that
    begins with the combo into the action log. *)
Theorem effect_logs_exactly_the_handled_combos (combo : pystr)
    (s : session_state) :
  (combo ∉ handled_combos → apply_simulation_effect combo s = s) ∧
  (combo ∈ handled_combos →
   startswith combo (action_log (apply_simulation_effect combo s)) = true).
Proof.
  split.
  - rewrite handled_cases, !elem_of_cons, elem_of_nil. intros Hn.
    unfold apply_simulation_effect.
    repeat (case_decide; [exfalso; apply Hn; tauto|]). done.
  - intros Hin. apply handled_cases in Hin.
    destruct Hin as [Hin|[Hin|[Hin|Hin]]].
    + rewrite !elem_of_cons, elem_of_nil in Hin.
      destruct_or!; try done; subst combo.
      * rewrite effect_alt_tab. cbv zeta. cbn [action_log set_action_log].
        reflexivity.
      * rewrite effect_ctrl_t. cbn [action_log set_action_log]. reflexivity.
      * rewrite effect_ctrl_w. cbn [action_log set_action_log]. reflexivity.
      * by vm_compute.
      * by vm_compute.
      * by vm_compute.
      * by vm_compute.
      * by vm_compute.
      * by vm_compute.
      * by vm_compute.
      * by vm_compute.
      * unfold apply_simulation_effect. repeat case_decide; try done.
    + destruct (effect_in_literal_set combo s) as (suffix & ->); [tauto|].
      cbn [action_log set_action_log]. apply startswith_app.
    + destruct (effect_in_literal_set combo s) as (suffix & ->); [tauto|].
      cbn [action_log set_action_log]. apply startswith_app.
    + destruct (effect_in_literal_set combo s) as (suffix & ->); [tauto|].
      cbn [action_log set_action_log]. apply startswith_app.
Qed.

Lemma effect_logs_exactly_the_handled_combos_witness :
  (py "Ctrl+T" ∈ handled_combos) ∧
  startswith (py "Ctrl+T")
    (action_log (apply_simulation_effect (py "Ctrl+T") init_state)) = true.
Proof.
  assert (H : py "Ctrl+T" ∈ handled_combos).
  { apply (bool_decide_unpack _). by vm_compute. }
  split; [exact H|].
  exact (proj2 (effect_logs_exactly_the_handled_combos (py "Ctrl+T")
                  init_state) H).
Defined.

(** X14: running the injected script again with the same arguments
    changes nothing, and keeps a captured combo; running it with another
    expected combo clears the capture.  After any run the listeners are in
    place and the two parameters are stored. *)
Theorem inject_rearms_only_on_a_new_combo (expectedCombo : pystr)
    (requireCombo : bool) (g : guard) :
  let g' := inject_browser_shortcut_guard expectedCombo requireCombo g in
  inject_browser_shortcut_guard expectedCombo requireCombo g' = g' ∧
  cyber_guard_installed g' = true ∧ cyber_click_guard_bound g' = true ∧
  cyber_expected_combo g' = expectedCombo ∧
  cyber_require_combo g' = requireCombo ∧
  (cyber_guard_installed g = true → cyber_expected_combo g = expectedCombo →
   cyber_combo_ok g' = cyber_combo_ok g) ∧
  (cyber_expected_combo g ≠ expectedCombo → cyber_combo_ok g' = false).
Proof.
  destruct g as [inst ok exp req last bound].
  unfold inject_browser_shortcut_guard.
  cbn [cyber_guard_installed cyber_combo_ok cyber_expected_combo
       cyber_require_combo cyber_last_combo cyber_click_guard_bound
       set_cyber_guard_installed set_cyber_combo_ok set_cyber_expected_combo
       set_cyber_require_combo set_cyber_last_combo
       set_cyber_click_guard_bound].
  destruct inst, bound;
    cbn [cyber_guard_installed cyber_combo_ok cyber_expected_combo
       cyber_require_combo cyber_last_combo cyber_click_guard_bound
       set_cyber_guard_installed set_cyber_combo_ok set_cyber_expected_combo
       set_cyber_require_combo set_cyber_last_combo
       set_cyber_click_guard_bound];
    repeat (case_decide;
    cbn [cyber_guard_installed cyber_combo_ok cyber_expected_combo
       cyber_require_combo cyber_last_combo cyber_click_guard_bound
       set_cyber_guard_installed set_cyber_combo_ok set_cyber_expected_combo
       set_cyber_require_combo set_cyber_last_combo
       set_cyber_click_guard_bound] in * );
    split_and!; try done; try congruence.
Qed.

Lemma inject_rearms_only_on_a_new_combo_witness :
  cyber_expected_combo fresh_window ≠ py "Ctrl+C" ∧
  cyber_combo_ok (inject_browser_shortcut_guard (py "Ctrl+C") true
                    fresh_window) = false.
Proof.
  assert (H : cyber_expected_combo fresh_window ≠ py "Ctrl+C")
    by (by vm_compute).
  split; [exact H|].
  exact (proj2 (proj2 (proj2 (proj2 (proj2 (proj2
    (inject_rearms_only_on_a_new_combo (py "Ctrl+C") true fresh_window))))))
    H).
Defined.

Lemma page_run_snoc evs ev g :
  page_run (evs ++ [ev]) g = page_step ev (page_run evs g).
Proof. unfold page_run. by rewrite foldl_app. Qed.

Lemma capture_traced evs :
  let g := page_run evs fresh_window in
  cyber_combo_ok g = true →
  ∃ e, KeyDown e ∈ evs ∧ normalizeCombo e = cyber_expected_combo g ∧
       cyber_expected_combo g ≠ [].
Proof.
  induction evs as [|ev evs IH] using rev_ind; [done|].
  cbv zeta in *. rewrite page_run_snoc.
  set (g := page_run evs fresh_window) in *. clearbody g.
  assert (Hold : cyber_combo_ok g = true →
            ∃ e, KeyDown e ∈ evs ++ [ev] ∧
                 normalizeCombo e = cyber_expected_combo g ∧
                 cyber_expected_combo g ≠ []).
  { intros Hok. destruct (IH Hok) as (e & Hin & He). exists e.
    split; [|done]. apply elem_of_app. by left. }
  clear IH. destruct g as [inst ok exp req last bound].
  cbn [cyber_combo_ok cyber_expected_combo] in Hold.
  destruct ev as [exp' req'|e|target]; cbn [page_step].
  - unfold inject_browser_shortcut_guard.
    cbn [cyber_guard_installed cyber_combo_ok cyber_expected_combo
       cyber_require_combo cyber_last_combo cyber_click_guard_bound
       set_cyber_guard_installed set_cyber_combo_ok set_cyber_expected_combo
       set_cyber_require_combo set_cyber_last_combo
       set_cyber_click_guard_bound].
    destruct inst, bound;
      cbn [cyber_guard_installed cyber_combo_ok cyber_expected_combo
       cyber_require_combo cyber_last_combo cyber_click_guard_bound
       set_cyber_guard_installed set_cyber_combo_ok set_cyber_expected_combo
       set_cyber_require_combo set_cyber_last_combo
       set_cyber_click_guard_bound];
      repeat (case_decide;
      cbn [cyber_guard_installed cyber_combo_ok cyber_expected_combo
       cyber_require_combo cyber_last_combo cyber_click_guard_bound
       set_cyber_guard_installed set_cyber_combo_ok set_cyber_expected_combo
       set_cyber_require_combo set_cyber_last_combo
       set_cyber_click_guard_bound] in * );
      done.
  - cbn [cyber_guard_installed]. destruct inst; [|done].
    unfold cyber_guard_handler.
    cbn [fst cyber_combo_ok cyber_expected_combo set_cyber_last_combo
         set_cyber_combo_ok].
    destruct (bool_decide (exp ≠ []) && bool_decide (normalizeCombo e = exp))
      eqn:Hc; cbn [cyber_combo_ok cyber_expected_combo set_cyber_combo_ok];
      [|done].
    intros _. apply andb_true_iff in Hc as [H1%bool_decide_eq_true
                                              H2%bool_decide_eq_true].
    exists e. split; [|done]. apply elem_of_app. right. apply list_elem_of_here.
  - cbn [cyber_click_guard_bound]. destruct bound; [|done].
    unfold click_guard. cbn [cyber_require_combo cyber_combo_ok].
    destruct req; cbn [negb fst]; [|done].
    destruct target as [txt|]; [|done].
    destruct (isValidateBtn (js_trim txt)); cbn [negb]; [|done].
    destruct ok; cbn [negb fst cyber_combo_ok cyber_expected_combo
                      set_cyber_combo_ok]; done.
Qed.

(** X15: from a page where the script never ran, whatever happens, a click
    on a validation button gets through a guard that requires the combo
    only if some key event of the history normalizes to the combo now
    expected. *)
Theorem validation_click_needs_a_capture (evs : list page_event)
    (label : pystr) :
  let g := page_run evs fresh_window in
  cyber_require_combo g = true →
  isValidateBtn (js_trim label) = true →
  (click_guard (Some label) g).2 = false →
  ∃ e, KeyDown e ∈ evs ∧ normalizeCombo e = cyber_expected_combo g ∧
       cyber_expected_combo g ≠ [].
Proof.
  intros g Hreq Hl Hpass. apply capture_traced. fold g.
  unfold click_guard in Hpass. rewrite Hreq, Hl in Hpass. cbn [negb] in Hpass.
  by destruct (cyber_combo_ok g).
Qed.

Lemma validation_click_needs_a_capture_witness :
  cyber_require_combo (page_run capture_page fresh_window) = true ∧
  isValidateBtn (js_trim (py " Validar licao ")) = true ∧
  (click_guard (Some (py " Validar licao "))
     (page_run capture_page fresh_window)).2 = false ∧
  ∃ e, KeyDown e ∈ capture_page ∧
       normalizeCombo e =
         cyber_expected_combo (page_run capture_page fresh_window) ∧
       cyber_expected_combo (page_run capture_page fresh_window) ≠ [].
Proof.
  assert (H1 : cyber_require_combo (page_run capture_page fresh_window) = true)
    by (vm_compute; reflexivity).
  assert (H2 : isValidateBtn (js_trim (py " Validar licao ")) = true)
    by (vm_compute; reflexivity).
  assert (H3 : (click_guard (Some (py " Validar licao "))
                  (page_run capture_page fresh_window)).2 = false)
    by (vm_compute; reflexivity).
  split; [exact H1|]. split; [exact H2|]. split; [exact H3|].
  exact (validation_click_needs_a_capture capture_page (py " Validar licao ")
           H1 H2 H3).
Defined.

(** X16: for a key of one ASCII character the combo does not depend on
    the case of the character. *)
Theorem key_letter_case_does_not_matter (e : key_event) (c : N) :
  (c < 128)%N →
  normalizeCombo (with_key [upper_char c] e) = normalizeCombo (with_key [c] e).
Proof.
  intros Hc.
  pose proof (ascii_enumerated letter_case_ok ltac:(by vm_compute) c Hc) as H.
  unfold letter_case_ok in H. rewrite forallb_forall in H.
  destruct e as [b1 b2 b3 b4 k].
  specialize (H (Build_key_event b1 b2 b3 b4 [])).
  apply (bool_decide_eq_true_1 _), H.
  destruct b1, b2, b3, b4; cbn; tauto.
Qed.

Lemma key_letter_case_does_not_matter_witness :
  (118 < 128)%N ∧
  normalizeCombo (with_key [upper_char 118] ctrl_shift_v) =
    normalizeCombo (with_key [118%N] ctrl_shift_v).
Proof.
  assert (H : (118 < 128)%N) by reflexivity.
  split; [exact H|].
  exact (key_letter_case_does_not_matter ctrl_shift_v 118 H).
Defined.

Lemma display_keeps s s1 m pidx :
  render_game_display s = Some (s1, m, pidx) →
  total_xp s1 = total_xp s ∧ desktop s1 = desktop s ∧
  feedback s1 = feedback s ∧ finish_reason s1 = finish_reason s.
Proof.
  unfold render_game_display.
  destruct (current_mission _) as [m'|]; [|done]. cbn [mbind option_bind].
  destruct (py_index _ _) as [n|]; [|done]. cbn [mbind option_bind].
  intros Heq. apply (inj Some) in Heq.
  apply (f_equal (λ x, x.1.1)) in Heq. cbn [fst] in Heq. subst s1.
  unfold render_simulation_panel, prepare_mission_context, desktop.
  repeat case_decide; done.
Qed.

Lemma catalogue_not_confirm m : m ∈ MISSIONS → task_type m ≠ py "confirm".
Proof.
  intros Hm%mission_types. rewrite !elem_of_cons, elem_of_nil in Hm.
  destruct_or!; try done; rewrite Hm; by vm_compute.
Qed.

Lemma buttons_catalogue m pidx t1 t2 s :
  m ∈ MISSIONS →
  render_game_buttons m pidx t1 t2 s =
    register_mission_success pidx m t1 t2 (update_player pidx add_attempt s) ∨
  ∃ hint,
    render_game_buttons m pidx t1 t2 s =
      Some (set_feedback (py "Ainda nao validou. " ++ hint)
              (update_player pidx add_error (update_player pidx add_attempt s))).
Proof.
  intros Hm. pose proof (catalogue_not_confirm m Hm) as Hc.
  unfold render_game_buttons. rewrite decide_False by done.
  destruct (decide (task_type m = py "select_all")); [by left|].
  destruct (decide (task_type m = py "undo")); [by left|].
  destruct (validate_mission_by_result m _ _ _ _) as [[|] hint];
    [by left|right; by exists hint].
Qed.

Lemma register_keeps pidx m t1 t2 s s' :
  register_mission_success pidx m t1 t2 s = Some s' →
  desktop s' = desktop s ∧ source_initial s' = source_initial s ∧
  editor_box s' = editor_box s ∧ final_box s' = final_box s.
Proof.
  intros Hreg.
  destruct (register_needs _ _ _ _ _ _ Hreg) as (p & started & Hp & Hst).
  unfold register_mission_success in Hreg. rewrite Hp, Hst in Hreg.
  cbn [mbind option_bind] in Hreg. apply (inj Some) in Hreg. subst s'.
  unfold desktop, finish_game. repeat case_match; done.
Qed.

Lemma insert_after_alter {A} (f : A → A) (l : list A) (n : nat) (x : A) :
  <[n := x]> (alter f n l) = <[n := x]> l.
Proof.
  revert n. induction l as [|y l IH]; intros [|n]; try done.
  cbn. f_equal. apply IH.
Qed.

Lemma alter_as_insert {A} (f : A → A) (l : list A) (n : nat) (x : A) :
  l !! n = Some x → alter f n l = <[n := f x]> l.
Proof.
  revert n. induction l as [|y l IH]; intros [|n] Hn; try done.
  - by injection Hn as ->.
  - cbn. f_equal. by apply IH.
Qed.

(** One run of [render_game] in a game under way. *)
Lemma render_game_step clicked t1 t2 s s' :
  in_game s → render_game clicked t1 t2 s = Some s' →
  ∃ p, players s !! Z.to_nat (current_player s) = Some p ∧
       game_step s s' (Z.to_nat (current_player s)) p ∧
       players_count s' = players_count s ∧ desktop s' = desktop s.
Proof.
  intros Hin Hrun. pose proof Hin as (Hpc & Hcp & Hmi & Hst).
  destruct (display_total s Hmi Hcp) as (s1 & m & Hd).
  destruct (display_inv _ _ _ _ Hd)
    as ((Hpl & Hpc1 & Hcp1 & Hmi1 & Hstage1 & Hst1) & Hm & _).
  destruct (display_keeps _ _ _ _ Hd) as (Hxp1 & Hdesk1 & _).
  assert (HmIn : m ∈ MISSIONS) by by eapply py_getitem_elem.
  unfold render_game in Hrun. rewrite Hd in Hrun.
  cbn [mbind option_bind] in Hrun.
  set (n := Z.to_nat (current_player s)) in *.
  destruct (lookup_lt_is_Some_2 (players s) n) as [p Hp]; [lia|].
  exists p. split; [done|].
  destruct clicked.
  2:{ apply (inj Some) in Hrun. subst s'. split; [by apply step_idle|done]. }
  destruct (buttons_catalogue m n t1 t2 s1 HmIn) as [Hb|(hint & Hb)];
    rewrite Hb in Hrun.
  - set (s2 := update_player n add_attempt s1) in *.
    assert (Hp2 : players s2 !! n = Some (add_attempt p)).
    { change (players s2) with (alter add_attempt n (players s1)).
      by rewrite list_lookup_alter_eq, Hpl, Hp. }
    destruct Hst as [started Hst].
    assert (Hst2 : mission_started_at s2 = Some started) by by rewrite <- Hst, <- Hst1.
    pose proof (register_players _ _ _ _ _ _ _ Hp2 Hst2 _ Hrun) as Hpl'.
    destruct (register_frame _ _ _ _ _ _ _ Hp2 Hst2 _ Hrun) as (Hpc' & _ & Hxp').
    destruct (register_keeps _ _ _ _ _ _ Hrun) as (Hdesk' & _).
    assert (Hins : players s' = <[n := credit_player m (t1 - started)
                                          (add_attempt p)]> (players s)).
    { rewrite Hpl'. change (players s2) with (alter add_attempt n (players s1)).
      rewrite Hpl. apply insert_after_alter. }
    change (Z.of_nat (length MISSIONS)) with 6 in *.
    assert (Hxp : total_xp s' = total_xp s + xp m).
    { rewrite Hxp'. change (total_xp s2) with (total_xp s1). by rewrite Hxp1. }
    assert (Hpcs : players_count s' = players_count s).
    { rewrite Hpc'. change (players_count s2) with (players_count s1). done. }
    assert (Hdesk : desktop s' = desktop s).
    { rewrite Hdesk'. change (desktop s2) with (desktop s1). done. }
    split; [|split; [done|done]].
    apply (step_success _ _ _ _ m (t1 - started)); [done|done|done|].
    destruct (decide (mission_idx s < 5)) as [Hlt|Hge].
    + destruct (register_advance _ _ _ _ _ _ _ Hp2 Hst2 _ Hrun)
        as (A1 & A2 & A3 & _).
      { change (Z.of_nat (length MISSIONS)) with 6.
        change (mission_idx s2) with (mission_idx s1). lia. }
      left. change (mission_idx s2) with (mission_idx s1) in A1.
      change (current_player s2) with (current_player s1) in A2.
      change (stage s2) with (stage s1) in A3.
      split_and!; [done|congruence..].
    + destruct (decide (current_player s < players_count s - 1)) as [Hn|Hl].
      * destruct (register_rotate _ _ _ _ _ _ _ Hp2 Hst2 _ Hrun)
          as (A1 & A2 & A3 & _ & A5).
        { change (Z.of_nat (length MISSIONS)) with 6.
          change (mission_idx s2) with (mission_idx s1). lia. }
        { change (players_count s2) with (players_count s1). lia. }
        { change (players_count s2) with (players_count s1).
          change (current_player s2) with (current_player s1). lia. }
        right. left.
        change (current_player s2) with (current_player s1) in A1.
        change (stage s2) with (stage s1) in A5.
        split_and!; [lia|done|congruence|done|done|congruence].
      * destruct (register_finish _ _ _ _ _ _ _ Hp2 Hst2 _ Hrun)
          as (A1 & A2 & A3 & _).
        { change (Z.of_nat (length MISSIONS)) with 6.
          change (mission_idx s2) with (mission_idx s1). lia. }
        { change (players_count s2) with (players_count s1).
          change (current_player s2) with (current_player s1). lia. }
        right. right.
        change (current_player s2) with (current_player s1) in A2.
        change (mission_idx s2) with (mission_idx s1) in A3.
        split_and!; [lia|lia|congruence|congruence|done].
  - apply (inj Some) in Hrun. subst s'.
    split; [|split; [done|done]].
    apply step_failure; try done.
    rewrite players_after_failure, list_alter_alter_eq, Hpl.
    by rewrite (alter_as_insert _ _ _ p).
Qed.

(** ** Reachable sessions *)

Section reachable.
Variable I : session_state → Prop.
Hypothesis I_init : I init_state.
Hypothesis I_start : ∀ count turma alunos_txt safe t1 t2 s,
  1 ≤ count ≤ 3 → I (start_mission count turma alunos_txt safe t1 t2 s).
Hypothesis I_editor : ∀ text s, I s → I (set_editor_box text s).
Hypothesis I_final : ∀ text s, I s → I (set_final_box text s).
Hypothesis I_again : ∀ s,
  stage s ≠ py "game" → I s → I (set_stage (py "start") s).
Hypothesis I_game : ∀ clicked t1 t2 s s',
  in_game s → stage s = py "game" → I s →
  render_game clicked t1 t2 s = Some s' → I s'.

Lemma main_reach act t1 t2 s s' :
  action_ok (act, (t1, t2)) → reach_inv I s → main act t1 t2 s = Some s' →
  reach_inv I s'.
Proof using I_start I_editor I_final I_again I_game.
  intros Hok (HI & Hhb & Hg). unfold main.
  destruct (decide (stage s = py "start")) as [Hs|Hs].
  { destruct act; intros [= <-]; try done.
    destruct (start_in_game count turma alunos_txt safe t1 t2 s) as (?&?&_);
      [unfold action_ok in Hok; cbn in Hok; lia|].
    split; [apply I_start; exact Hok|]. split; [done|by right]. }
  destruct Hg as [Hg|Hg]; [done|].
  destruct (decide (stage s = py "game")) as [Hgame|Hgame].
  { assert (Hstep : ∀ clicked s0,
              in_game s0 → stage s0 = py "game" → I s0 →
              Forall hits_bounded (players s0) →
              render_game clicked t1 t2 s0 = Some s' → reach_inv I s').
    { intros clicked s0 Hin0 Hst0 HI0 Hhb0 Hrun.
      split; [by eapply I_game|].
      destruct (render_game_inv clicked t1 t2 s0 Hin0 Hhb0) as (s2 & Hs2 & ? & ?).
      rewrite Hs2 in Hrun. injection Hrun as <-. split; [done|by right]. }
    destruct act; intros Hrun.
    - by apply (Hstep false s).
    - apply (Hstep false (set_editor_box text s)); try done. by apply I_editor.
    - apply (Hstep false (set_final_box text s)); try done. by apply I_final.
    - by apply (Hstep true s).
    - by apply (Hstep false s).
    - by apply (Hstep false s). }
  destruct act; intros [= <-];
    try (split; [exact HI|split; [exact Hhb|by right]]).
  split; [by apply I_again|]. split; [done|by left].
Qed.

Lemma run_reach acts : ∀ s s',
  Forall action_ok acts → reach_inv I s → run acts s = Some s' → reach_inv I s'.
Proof using I_start I_editor I_final I_again I_game.
  induction acts as [|[act [t1 t2]] acts IH]; intros s s' Hok Hinv.
  { by intros [= <-]. }
  apply Forall_cons_1 in Hok as [Hok Hoks]. cbn [run].
  destruct (main act t1 t2 s) as [s1|] eqn:Hs1; [|done].
  cbn [mbind option_bind]. apply IH; [done|].
  by apply (main_reach act t1 t2 s).
Qed.

Lemma reachable_inv acts s' :
  Forall action_ok acts → run acts init_state = Some s' → I s'.
Proof using All.
  intros Hok Hrun.
  assert (reach_inv I init_state) as Hinit.
  { split; [done|]. split; [apply Forall_nil_2|by left]. }
  by destruct (run_reach acts _ _ Hok Hinit Hrun).
Qed.
End reachable.

(** ** Counters of a player *)

Lemma sum_insert_present (m : gmap pystr Z) k v v' :
  m !! k = Some v →
  map_fold (λ _ x acc, x + acc) 0 (<[k := v']> m) =
  map_fold (λ _ x acc, x + acc) 0 m - v + v'.
Proof.
  intros Hk.
  rewrite (map_fold_delete_L _ _ k v m); [|intros; lia|done].
  rewrite <- insert_delete_eq.
  rewrite map_fold_insert_L; [lia|intros; lia|apply lookup_delete_eq].
Qed.

Lemma sum_insert_absent (m : gmap pystr Z) k v :
  m !! k = None →
  map_fold (λ _ x acc, x + acc) 0 (<[k := v]> m) =
  map_fold (λ _ x acc, x + acc) 0 m + v.
Proof.
  intros Hk. rewrite map_fold_insert_L; [lia|intros; lia|done].
Qed.

Lemma credit_player_counters m d p :
  counters_ok p → counters_ok (credit_player m d (add_attempt p)).
Proof.
  intros (H1 & H2 & H3 & H4 & H5). unfold counters_ok, total_phase_hits in *.
  cbn [credit_player add_attempt p_attempts p_hits p_errors p_mission_times
       p_phase_hits].
  rewrite length_app. cbn [length]. split_and!; try lia.
  set (ph := phase_number (phase m)).
  destruct (p_phase_hits p !! ph) as [v|] eqn:E.
  - rewrite E. cbn [default from_option id].
    rewrite (sum_insert_present _ _ v) by done. lia.
  - rewrite lookup_insert_eq. cbn [default from_option id].
    rewrite (sum_insert_present _ _ 0) by apply lookup_insert_eq.
    rewrite sum_insert_absent by done. lia.
Qed.

Lemma add_error_counters p :
  counters_ok p → counters_ok (add_error (add_attempt p)).
Proof.
  intros (H1 & H2 & H3 & H4 & H5). unfold counters_ok, total_phase_hits in *.
  cbn [add_error add_attempt p_attempts p_hits p_errors p_mission_times
       p_phase_hits]. split_and!; try done; lia.
Qed.

Lemma init_players_counters count : Forall counters_ok (init_players count).
Proof.
  unfold init_players. apply Forall_fmap, Forall_forall. intros idx _.
  unfold counters_ok, total_phase_hits. cbn. split_and!; try done.
Qed.

Lemma counters_reachable acts s' :
  Forall action_ok acts → run acts init_state = Some s' →
  Forall counters_ok (players s').
Proof.
  revert acts s'.
  apply (reachable_inv (λ s, Forall counters_ok (players s))).
  - apply Forall_nil_2.
  - intros. apply init_players_counters.
  - done.
  - done.
  - done.
  - intros clicked t1 t2 s s' Hin _ Hall Hrun.
    destruct (render_game_step clicked t1 t2 s s' Hin Hrun)
      as (p & Hp & Hstep & _).
    assert (Hcp : counters_ok p).
    { rewrite Forall_lookup in Hall. by eapply Hall. }
    destruct Hstep as [-> _ _ _ _| -> _ _ _ _|m d _ -> _ _]; [done|..].
    + apply Forall_insert; [done|by apply add_error_counters].
    + apply Forall_insert; [done|by apply credit_player_counters].
Qed.

(** X17: in every state a session can reach, every player has
    [attempts = hits + errors] with no counter negative, one recorded time
    per hit, and as many phase hits in all as hits. *)
Theorem attempts_are_hits_plus_errors (acts : list (action * (Z * Z)))
    (s' : session_state) :
  Forall action_ok acts → run acts init_state = Some s' →
  ∀ p, p ∈ players s' →
    p_attempts p = p_hits p + p_errors p ∧ 0 ≤ p_errors p ∧ 0 ≤ p_hits p ∧
    p_hits p = Z.of_nat (length (p_mission_times p)) ∧
    total_phase_hits p = p_hits p.
Proof.
  intros Hok Hrun p Hp.
  pose proof (counters_reachable acts s' Hok Hrun) as Hall.
  rewrite Forall_forall in Hall. by apply Hall.
Qed.

Lemma attempts_are_hits_plus_errors_witness :
  Forall action_ok solo_game ∧ run solo_game init_state = Some solo_end ∧
  ∀ p, p ∈ players solo_end →
    p_attempts p = p_hits p + p_errors p ∧ 0 ≤ p_errors p ∧ 0 ≤ p_hits p ∧
    p_hits p = Z.of_nat (length (p_mission_times p)) ∧
    total_phase_hits p = p_hits p.
Proof.
  assert (H1 : Forall action_ok solo_game).
  { repeat constructor; unfold action_ok; cbn; lia. }
  assert (H2 : run solo_game init_state = Some solo_end).
  { vm_compute. reflexivity. }
  split; [exact H1|]. split; [exact H2|].
  exact (attempts_are_hits_plus_errors solo_game solo_end H1 H2).
Defined.

(** ** The simulated desktop *)

(** X18: in every state a session can reach, the clipboard, the undo
    stack, the tab count, the active window and the three desktop flags
    have the values [init_state] gives them: no mission of the catalogue
    has the task type whose button calls [apply_simulation_effect]. *)
Theorem desktop_never_changes (acts : list (action * (Z * Z)))
    (s' : session_state) :
  Forall action_ok acts → run acts init_state = Some s' →
  clipboard_virtual s' = [] ∧ undo_stack s' = [] ∧ sim_tabs s' = 1 ∧
  active_window s' = py "Editor" ∧ show_desktop s' = false ∧
  locked_screen s' = false ∧ security_menu_open s' = false.
Proof.
  intros Hok Hrun.
  assert (H : desktop s' = desktop init_state).
  { revert Hok Hrun.
    apply (reachable_inv (λ s, desktop s = desktop init_state)); try done.
    intros clicked t1 t2 s s0 Hin _ HI Hstep.
    destruct (render_game_step clicked t1 t2 s s0 Hin Hstep) as (_ & _ & _ & _ & ->).
    done. }
  unfold desktop in H. cbn [init_state clipboard_virtual undo_stack sim_tabs
    active_window show_desktop locked_screen security_menu_open] in H.
  injection H as -> -> -> -> -> -> ->. done.
Qed.

Lemma desktop_never_changes_witness :
  Forall action_ok solo_game ∧ run solo_game init_state = Some solo_end ∧
  clipboard_virtual solo_end = [] ∧ undo_stack solo_end = [] ∧
  sim_tabs solo_end = 1 ∧ active_window solo_end = py "Editor" ∧
  show_desktop solo_end = false ∧ locked_screen solo_end = false ∧
  security_menu_open solo_end = false.
Proof.
  assert (H1 : Forall action_ok solo_game).
  { repeat constructor; unfold action_ok; cbn; lia. }
  assert (H2 : run solo_game init_state = Some solo_end).
  { vm_compute. reflexivity. }
  split; [exact H1|]. split; [exact H2|].
  exact (desktop_never_changes solo_game solo_end H1 H2).
Defined.

(** ** Score and turn *)

Lemma sumZ_insert (l : list Z) n x y :
  l !! n = Some x → sumZ (<[n := y]> l) = sumZ l - x + y.
Proof.
  revert n. induction l as [|z l IH]; intros [|n] Hn; try done.
  - injection Hn as ->. cbn. lia.
  - change (sumZ (<[S n := y]> (z :: l))) with (z + sumZ (<[n := y]> l)).
    change (sumZ (z :: l)) with (z + sumZ l). rewrite (IH n Hn). lia.
Qed.

Lemma sum_xp_insert (l : list Player) n p q :
  l !! n = Some p →
  sumZ (p_xp <$> <[n := q]> l) = sumZ (p_xp <$> l) - p_xp p + p_xp q.
Proof.
  intros Hn. rewrite list_fmap_insert.
  apply sumZ_insert. by rewrite list_lookup_fmap, Hn.
Qed.

Lemma xp_done_step s m :
  current_mission s = Some m → 0 ≤ mission_idx s < 6 →
  xp_done (mission_idx s + 1) = xp_done (mission_idx s) + xp m.
Proof.
  unfold current_mission, py_getitem. intros Hm Hmi.
  rewrite py_index_in_range in Hm by done. cbn [mbind option_bind] in Hm.
  assert (Hcases : mission_idx s = 0 ∨ mission_idx s = 1 ∨ mission_idx s = 2 ∨
                   mission_idx s = 3 ∨ mission_idx s = 4 ∨ mission_idx s = 5)
    by lia.
  destruct_or!; rewrite Hcases in Hm |- *; cbn in Hm; injection Hm as <-;
    reflexivity.
Qed.

Lemma end_is_not_game : py "end" ≠ py "game".
Proof. by vm_compute. Qed.

Lemma start_is_not_game : py "start" ≠ py "game".
Proof. by vm_compute. Qed.

Lemma score_start count turma alunos_txt safe t1 t2 s :
  1 ≤ count ≤ 3 → score_ok (start_mission count turma alunos_txt safe t1 t2 s).
Proof.
  intros Hc. set (s' := start_mission _ _ _ _ _ _ _).
  assert (Hp : players s' = init_players count) by done.
  split; [|split].
  - intros k p. rewrite Hp. intros Hk.
    split; [by eapply init_players_id|].
    unfold init_players in Hk. rewrite list_lookup_fmap in Hk.
    destruct (seqZ 0 count !! k) as [idx|] eqn:E; [|done].
    injection Hk as <-. cbn [p_xp p_hits]. split; [done|].
    unfold done_at. change (current_player s') with 0.
    change (mission_idx s') with 0. change (stage s') with (py "game").
    repeat case_decide; try done; lia.
  - rewrite Hp. change (total_xp s') with 0. unfold init_players.
    rewrite <- list_fmap_compose.
    induction (seqZ 0 count) as [|z l IH]; [done|].
    rewrite fmap_cons. change (sumZ (?x :: ?r)) with (x + sumZ r).
    rewrite <- IH. done.
  - change (stage s') with (py "game"). done.
Qed.

Lemma score_game clicked t1 t2 s s' :
  in_game s → stage s = py "game" → score_ok s →
  render_game clicked t1 t2 s = Some s' → score_ok s'.
Proof.
  intros Hin Hgame (Hpl & Hxp & _) Hrun. pose proof Hin as (Hpc & Hcp & Hmi & _).
  change (Z.of_nat (length MISSIONS)) with 6 in Hmi.
  destruct (render_game_step clicked t1 t2 s s' Hin Hrun)
    as (p & Hp & Hstep & Hpcs & _).
  set (n := Z.to_nat (current_player s)) in *.
  destruct (Hpl n p Hp) as (Hid & Hpxp & Hhits).
  assert (Hdone : done_at s n = mission_idx s).
  { unfold done_at. repeat case_decide; try done; lia. }
  destruct Hstep as [Hp' Hx Hc Hm Hs|Hp' Hx Hc Hm Hs|m d Hcur Hp' Hx Hmove].
  - split; [|split].
    + intros k q. rewrite Hp'. intros Hk. destruct (Hpl k q Hk) as (?&?&?).
      split_and!; try done. unfold done_at in *. by rewrite Hc, Hm, Hs.
    + by rewrite Hx, Hp'.
    + rewrite Hs. done.
  - split; [|split].
    + intros k q. rewrite Hp'. intros Hk.
      assert (Hd' : done_at s' k = done_at s k)
        by (unfold done_at; by rewrite Hc, Hm, Hs).
      rewrite Hd'.
      destruct (decide (k = n)) as [->|Hne].
      * rewrite list_lookup_insert_eq in Hk by by eapply lookup_lt_Some.
        injection Hk as <-. cbn [add_error add_attempt p_id p_xp p_hits]. done.
      * rewrite list_lookup_insert_ne in Hk by done. by apply Hpl.
    + rewrite Hx, Hp', (sum_xp_insert _ _ p) by done.
      cbn [add_error add_attempt p_xp]. lia.
    + rewrite Hs. done.
  - assert (Hxpm : xp_done (mission_idx s + 1) = xp_done (mission_idx s) + xp m)
      by by apply xp_done_step.
    split; [|split].
    + intros k q. rewrite Hp'. intros Hk.
      destruct (decide (k = n)) as [->|Hne].
      * rewrite list_lookup_insert_eq in Hk by by eapply lookup_lt_Some.
        injection Hk as <-.
        cbn [credit_player add_attempt p_id p_xp p_hits].
        split; [done|]. rewrite Hpxp, Hhits, Hdone. split; [lia|].
        unfold done_at.
        destruct Hmove as [(?&?&Hc&Hs)|[(?&?&Hc&?&?&Hs)|(?&?&Hc&?&Hs)]];
          rewrite ?Hc, ?Hs, ?Hgame; repeat case_decide; try done; try lia.
        all: by destruct end_is_not_game.
      * rewrite list_lookup_insert_ne in Hk by done.
        destruct (Hpl k q Hk) as (?&?&Hq). split_and!; try done.
        rewrite Hq. unfold done_at.
        assert (Z.of_nat k ≠ current_player s) by lia.
        destruct Hmove as [(?&Hm&Hc&Hs)|[(?&?&Hc&Hm&?&Hs)|(?&?&Hc&Hm&Hs)]];
          rewrite ?Hc, ?Hs, ?Hm, ?Hgame; repeat case_decide; try done; try lia.
    + rewrite Hx, Hp', (sum_xp_insert _ _ p) by done.
      cbn [credit_player add_attempt p_xp]. lia.
    + destruct Hmove as [(?&?&?&Hs)|[(?&?&?&?&?&Hs)|(?&?&Hc&?&Hs)]];
        rewrite ?Hs; try done. intros _. lia.
Qed.

Lemma score_reachable acts s' :
  Forall action_ok acts → run acts init_state = Some s' → score_ok s'.
Proof.
  revert acts s'. apply (reachable_inv score_ok).
  - split; [done|]. split; [done|]. intros _. reflexivity.
  - apply score_start.
  - done.
  - done.
  - intros s Hng (Hpl & Hxp & Hend). split; [|split].
    + intros k p Hk. destruct (Hpl k p Hk) as (?&?&Hd). split_and!; try done.
      rewrite Hd. unfold done_at.
      change (current_player (set_stage (py "start") s)) with (current_player s).
      change (stage (set_stage (py "start") s)) with (py "start").
      change (mission_idx (set_stage (py "start") s)) with (mission_idx s).
      repeat case_decide; done.
    + done.
    + intros _. by apply Hend.
  - apply score_game.
Qed.

Lemma shape_reachable acts s' :
  Forall action_ok acts → run acts init_state = Some s' → game_shape s'.
Proof.
  revert acts s'. apply (reachable_inv game_shape).
  - unfold game_shape. cbn. split_and!; try lia; by left.
  - intros count turma alunos_txt safe t1 t2 s Hc.
    destruct (start_in_game count turma alunos_txt safe t1 t2 s)
      as ((Hpc & Hcp & _) & _ & _ & Hcp0 & Hmi0 & Hpc0); [lia|].
    unfold game_shape. rewrite Hmi0, Hcp0, Hpc0 in *.
    split_and!; lia.
  - done.
  - done.
  - intros s Hng (H1 & H2 & H3 & H4). unfold game_shape.
    cbn [mission_idx current_player players_count players stage set_stage].
    split; [done|]. split; [done|]. split; [done|].
    destruct H4 as [[Hnil Hst]|H4]; [left|right]; done.
  - intros clicked t1 t2 s s' Hin Hgame (Hmi & Hcp & Hpc & _) Hrun.
    destruct (render_game_step clicked t1 t2 s s' Hin Hrun)
      as (p & Hp & Hstep & Hpcs & _).
    destruct Hin as (Hlen & Hcpl & _).
    assert (Hl : length (players s') = length (players s)).
    { destruct Hstep as [-> _ _ _ _| -> _ _ _ _|m d _ -> _ _];
        by rewrite ?length_insert. }
    unfold game_shape. rewrite Hpcs, Hl.
    destruct Hstep as [_ _ Hc Hm _|_ _ Hc Hm _|m d _ _ _ Hmove].
    + rewrite Hc, Hm; split_and!; try lia; right; lia.
    + rewrite Hc, Hm; split_and!; try lia; right; lia.
    + destruct Hmove as [(?&Hm&Hc&_)|[(?&?&Hc&Hm&_)|(?&?&Hc&Hm&_)]];
        rewrite Hc, Hm; split_and!; try lia; right; lia.
Qed.

Lemma done_at_bounds s k :
  0 ≤ mission_idx s ≤ 5 → 0 ≤ done_at s k ≤ 6.
Proof. intros. unfold done_at. repeat case_decide; lia. Qed.

(** X19: in every state a session can reach, the hits of a player tell
    where the turn is: six for every player before the current one, none
    for every player after, and the mission index for the current player
    while the game is on; and the player at position [k] has id [k + 1]. *)
Theorem hits_follow_the_turn (acts : list (action * (Z * Z)))
    (s' : session_state) :
  Forall action_ok acts → run acts init_state = Some s' →
  ∀ k p, players s' !! k = Some p →
    p_id p = Z.of_nat k + 1 ∧ 0 ≤ p_hits p ≤ 6 ∧
    (Z.of_nat k < current_player s' → p_hits p = 6) ∧
    (current_player s' < Z.of_nat k → p_hits p = 0) ∧
    (Z.of_nat k = current_player s' → stage s' = py "game" →
     p_hits p = mission_idx s').
Proof.
  intros Hok Hrun k p Hk.
  destruct (score_reachable acts s' Hok Hrun) as (Hpl & _).
  destruct (shape_reachable acts s' Hok Hrun) as (Hmi & _).
  destruct (Hpl k p Hk) as (Hid & _ & Hd).
  pose proof (done_at_bounds s' k Hmi). rewrite Hd.
  split; [done|]. split; [done|]. unfold done_at.
  split_and!; intros; repeat case_decide; try done; lia.
Qed.

Lemma hits_follow_the_turn_witness :
  Forall action_ok solo_game ∧ run solo_game init_state = Some solo_end ∧
  ∀ k p, players solo_end !! k = Some p →
    p_id p = Z.of_nat k + 1 ∧ 0 ≤ p_hits p ≤ 6 ∧
    (Z.of_nat k < current_player solo_end → p_hits p = 6) ∧
    (current_player solo_end < Z.of_nat k → p_hits p = 0) ∧
    (Z.of_nat k = current_player solo_end → stage solo_end = py "game" →
     p_hits p = mission_idx solo_end).
Proof.
  assert (H1 : Forall action_ok solo_game).
  { repeat constructor; unfold action_ok; cbn; lia. }
  assert (H2 : run solo_game init_state = Some solo_end).
  { vm_compute. reflexivity. }
  split; [exact H1|]. split; [exact H2|].
  exact (hits_follow_the_turn solo_game solo_end H1 H2).
Defined.

Lemma hits_at_most_six acts s' :
  Forall action_ok acts → run acts init_state = Some s' →
  ∀ k p, players s' !! k = Some p → 0 ≤ p_hits p ≤ 6.
Proof.
  intros Hok Hrun k p Hk.
  destruct (score_reachable acts s' Hok Hrun) as (Hpl & _).
  destruct (shape_reachable acts s' Hok Hrun) as (Hmi & _).
  destruct (Hpl k p Hk) as (_ & _ & ->). by apply done_at_bounds.
Qed.

(** X20: in every state a session can reach, the XP of a player is the
    XP of the missions completed (10, 20, 32, 44, 56, 70 for one to six
    hits), and [total_xp] is the sum of the players' XP. *)
Theorem xp_is_decided_by_hits (acts : list (action * (Z * Z)))
    (s' : session_state) :
  Forall action_ok acts → run acts init_state = Some s' →
  (∀ p, p ∈ players s' → p_xp p = xp_done (p_hits p)) ∧
  total_xp s' = sumZ (p_xp <$> players s') ∧
  xp_done <$> [0; 1; 2; 3; 4; 5; 6] = [0; 10; 20; 32; 44; 56; 70].
Proof.
  intros Hok Hrun.
  destruct (score_reachable acts s' Hok Hrun) as (Hpl & Hxp & _).
  split; [|split; [done|reflexivity]].
  intros p [k Hk]%list_elem_of_lookup_1. by destruct (Hpl k p Hk) as (_ & ? & _).
Qed.

Lemma xp_is_decided_by_hits_witness :
  Forall action_ok solo_game ∧ run solo_game init_state = Some solo_end ∧
  (∀ p, p ∈ players solo_end → p_xp p = xp_done (p_hits p)) ∧
  total_xp solo_end = sumZ (p_xp <$> players solo_end).
Proof.
  assert (H1 : Forall action_ok solo_game).
  { repeat constructor; unfold action_ok; cbn; lia. }
  assert (H2 : run solo_game init_state = Some solo_end).
  { vm_compute. reflexivity. }
  split; [exact H1|]. split; [exact H2|].
  destruct (xp_is_decided_by_hits solo_game solo_end H1 H2) as (A & B & _).
  split; [exact A|exact B].
Defined.

Lemma sumZ_bounds (l : list Z) b :
  Forall (λ x, 0 ≤ x ≤ b) l → 0 ≤ sumZ l ≤ b * Z.of_nat (length l).
Proof.
  induction 1 as [|x l Hx Hl IH]; [cbn; lia|].
  change (sumZ (x :: l)) with (x + sumZ l). cbn [length]. lia.
Qed.

Lemma sumZ_const (l : list Z) b :
  Forall (λ x, x = b) l → sumZ l = b * Z.of_nat (length l).
Proof.
  induction 1 as [|x l Hx Hl IH]; [cbn; lia|].
  change (sumZ (x :: l)) with (x + sumZ l). cbn [length]. lia.
Qed.

(** X21: in every state a session can reach, the number of exercises done
    is between zero and the target that [render_game] divides it by, so
    the fraction given to the progress bar is between 0 and 1; the same
    holds for the two counts of the report. *)
Theorem progress_never_exceeds_target (acts : list (action * (Z * Z)))
    (s' : session_state) :
  Forall action_ok acts → run acts init_state = Some s' →
  0 ≤ total_done s' ≤ total_target s' ∧
  0 ≤ missions_completed s' ≤ missions_total s'.
Proof.
  intros Hok Hrun.
  destruct (shape_reachable acts s' Hok Hrun) as (Hmi & Hcp & Hpc & Hsh).
  assert (Hhits : Forall (λ x, 0 ≤ x ≤ 6) (p_hits <$> players s')).
  { apply Forall_fmap, Forall_lookup. intros k p Hk.
    by apply (hits_at_most_six acts s' Hok Hrun k p Hk). }
  pose proof (sumZ_bounds _ _ Hhits) as Hsum. rewrite length_fmap in Hsum.
  unfold total_done, total_target, missions_completed, missions_total.
  change (Z.of_nat (length MISSIONS)) with 6. fold (sumZ (p_hits <$> players s')).
  destruct Hsh as [[Hnil _]|[Hlen _]].
  - rewrite Hnil in *. cbn in *. lia.
  - lia.
Qed.

Lemma progress_never_exceeds_target_witness :
  Forall action_ok solo_game ∧ run solo_game init_state = Some solo_end ∧
  0 ≤ total_done solo_end ≤ total_target solo_end ∧
  0 ≤ missions_completed solo_end ≤ missions_total solo_end.
Proof.
  assert (H1 : Forall action_ok solo_game).
  { repeat constructor; unfold action_ok; cbn; lia. }
  assert (H2 : run solo_game init_state = Some solo_end).
  { vm_compute. reflexivity. }
  split; [exact H1|]. split; [exact H2|].
  exact (progress_never_exceeds_target solo_game solo_end H1 H2).
Defined.

(** ** No run of the script raises *)

Lemma main_total act t1 t2 s :
  (stage s = py "start" ∨ in_game s) → Forall hits_bounded (players s) →
  ∃ s', main act t1 t2 s = Some s'.
Proof.
  intros Hg Hhb. unfold main.
  destruct (decide (stage s = py "start")) as [Hs|Hs].
  { destruct act; eauto. }
  destruct Hg as [Hg|Hg]; [done|].
  destruct (decide (stage s = py "game")) as [Hgame|Hgame].
  - destruct act.
    + destruct (render_game_inv false t1 t2 s Hg Hhb) as (s' & ? & _); eauto.
    + destruct (render_game_inv false t1 t2 (set_editor_box text s) Hg Hhb)
        as (s' & ? & _); eauto.
    + destruct (render_game_inv false t1 t2 (set_final_box text s) Hg Hhb)
        as (s' & ? & _); eauto.
    + destruct (render_game_inv true t1 t2 s Hg Hhb) as (s' & ? & _); eauto.
    + destruct (render_game_inv false t1 t2 s Hg Hhb) as (s' & ? & _); eauto.
    + destruct (render_game_inv false t1 t2 s Hg Hhb) as (s' & ? & _); eauto.
  - destruct act; eauto.
Qed.

Lemma run_total acts : ∀ s,
  Forall action_ok acts → reach_inv (λ _, True) s →
  ∃ s', run acts s = Some s'.
Proof.
  induction acts as [|[act [t1 t2]] acts IH]; intros s Hok Hinv.
  { by exists s. }
  apply Forall_cons_1 in Hok as [Hok Hoks]. cbn [run].
  pose proof Hinv as (_ & Hhb & Hg).
  destruct (main_total act t1 t2 s Hg Hhb) as [s1 Hs1]. rewrite Hs1.
  cbn [mbind option_bind]. apply IH; [done|].
  by apply (main_reach (λ _, True)) with act t1 t2 s.
Qed.

(** X22: no session raises: whatever the learner does, in whatever order,
    every run of the script ends, so [MISSIONS[mission_idx]] and
    [players[current_player]] are always in range and [mission_started_at]
    is set whenever [register_mission_success] subtracts it. *)
Theorem session_never_raises (acts : list (action * (Z * Z))) :
  Forall action_ok acts → ∃ s', run acts init_state = Some s'.
Proof.
  intros Hok. apply run_total; [done|].
  split; [done|]. split; [apply Forall_nil_2|by left].
Qed.

Lemma session_never_raises_witness :
  Forall action_ok solo_game ∧ ∃ s', run solo_game init_state = Some s'.
Proof.
  assert (H : Forall action_ok solo_game).
  { repeat constructor; unfold action_ok; cbn; lia. }
  split; [exact H|]. exact (session_never_raises solo_game H).
Defined.

(** ** The end of the game *)

Lemma max_by_xp_first (p : Player) (l : list Player) :
  Forall (λ q, p_xp q ≤ p_xp p) l → max_by_xp p l = p.
Proof.
  induction 1 as [|q l Hq Hl IH]; [done|].
  cbn [max_by_xp]. rewrite decide_False by lia. done.
Qed.

(** X23: when the end page is reached, every player has completed the
    six missions and holds 70 XP, the total is 70 XP per player, the report
    counts as many missions completed as there were to do, and the player
    that [render_end] names as MVP is the first one. *)
Theorem game_end_means_full_score (acts : list (action * (Z * Z)))
    (s' : session_state) :
  Forall action_ok acts → run acts init_state = Some s' →
  stage s' = py "end" →
  Z.of_nat (length (players s')) = players_count s' ∧
  (∀ p, p ∈ players s' → p_hits p = 6 ∧ p_xp p = 70) ∧
  total_xp s' = 70 * players_count s' ∧
  missions_completed s' = missions_total s' ∧
  ∃ p, top_player s' = Some p ∧ p_id p = 1 ∧ p_xp p = 70.
Proof.
  intros Hok Hrun Hend.
  destruct (score_reachable acts s' Hok Hrun) as (Hpl & Hxp & Hlast).
  destruct (shape_reachable acts s' Hok Hrun) as (Hmi & Hcp & Hpc & Hsh).
  assert (Hng : stage s' ≠ py "game").
  { rewrite Hend. apply end_is_not_game. }
  destruct Hsh as [[_ Hst]|[Hlen _]].
  { rewrite Hend in Hst. by vm_compute in Hst. }
  specialize (Hlast Hng).
  assert (Hall : ∀ k p, players s' !! k = Some p → p_hits p = 6 ∧ p_xp p = 70).
  { intros k p Hk. destruct (Hpl k p Hk) as (_ & Hx & Hd).
    pose proof (lookup_lt_Some _ _ _ Hk) as Hlt.
    assert (Hh : p_hits p = 6).
    { rewrite Hd. unfold done_at. repeat case_decide; try done; lia. }
    split; [done|]. rewrite Hx, Hh. reflexivity. }
  assert (Hhits : Forall (λ x, x = 6) (p_hits <$> players s')).
  { apply Forall_fmap, Forall_lookup. intros k p Hk. by destruct (Hall k p Hk). }
  assert (Hxps : Forall (λ x, x = 70) (p_xp <$> players s')).
  { apply Forall_fmap, Forall_lookup. intros k p Hk. by destruct (Hall k p Hk). }
  apply sumZ_const in Hhits, Hxps. rewrite length_fmap in Hhits, Hxps.
  split; [done|]. split.
  { intros p [k Hk]%list_elem_of_lookup_1. by apply (Hall k). }
  split; [lia|]. split.
  { unfold missions_completed, missions_total.
    change (Z.of_nat (length MISSIONS)) with 6.
    fold (sumZ (p_hits <$> players s')). lia. }
  unfold top_player.
  destruct (players s') as [|p l] eqn:Hps; [cbn [length] in Hlen; lia|].
  exists p. destruct (Hall 0%nat p) as [_ Hp70]; [done|].
  destruct (Hpl 0%nat p) as (Hid & _); [done|].
  split; [|done]. f_equal. apply max_by_xp_first, Forall_lookup.
  intros k q Hk. destruct (Hall (S k) q) as [_ Hq]; [done|]. lia.
Qed.

Lemma game_end_means_full_score_witness :
  Forall action_ok solo_game ∧ run solo_game init_state = Some solo_end ∧
  stage solo_end = py "end" ∧
  Z.of_nat (length (players solo_end)) = players_count solo_end ∧
  (∀ p, p ∈ players solo_end → p_hits p = 6 ∧ p_xp p = 70) ∧
  total_xp solo_end = 70 * players_count solo_end ∧
  missions_completed solo_end = missions_total solo_end ∧
  ∃ p, top_player solo_end = Some p ∧ p_id p = 1 ∧ p_xp p = 70.
Proof.
  assert (H1 : Forall action_ok solo_game).
  { repeat constructor; unfold action_ok; cbn; lia. }
  assert (H2 : run solo_game init_state = Some solo_end).
  { vm_compute. reflexivity. }
  assert (H3 : stage solo_end = py "end").
  { vm_compute. reflexivity. }
  split; [exact H1|]. split; [exact H2|]. split; [exact H3|].
  exact (game_end_means_full_score solo_game solo_end H1 H2 H3).
Defined.

(** ** The mission context *)

Lemma sample_for_cases c : sample_for c ∈ samples.
Proof.
  unfold sample_for. change (Z.of_nat (length samples)) with 5.
  assert (Hc : c `mod` 5 = 0 ∨ c `mod` 5 = 1 ∨ c `mod` 5 = 2 ∨
               c `mod` 5 = 3 ∨ c `mod` 5 = 4).
  { pose proof (Z.mod_pos_bound c 5). lia. }
  destruct_or!; rewrite Hc; cbn [py_getitem py_index samples];
    vm_compute; set_solver.
Qed.

Lemma samples_not_blank t : t ∈ samples → strip t ≠ [] ∧ t ≠ fallback_text.
Proof.
  unfold samples. rewrite !elem_of_cons, elem_of_nil.
  intros H. destruct_or!; try done; subst t; split; by vm_compute.
Qed.

Lemma display_context s s1 m pidx :
  render_game_display s = Some (s1, m, pidx) →
  (mission_ctx_idx s = current_player s →
   source_initial s = sample_for (current_player s) ∧
   source_text s = sample_for (current_player s)) →
  mission_ctx_idx s1 = current_player s ∧
  source_initial s1 = sample_for (current_player s) ∧
  source_text s1 = sample_for (current_player s).
Proof.
  intros Hd Hctx.
  destruct (samples_not_blank _ (sample_for_cases (current_player s)))
    as [Hnb _].
  revert Hd. unfold render_game_display.
  destruct (current_mission _) as [m'|]; [|done]. cbn [mbind option_bind].
  destruct (py_index _ _) as [n|]; [|done]. cbn [mbind option_bind].
  intros Heq. apply (inj Some) in Heq.
  apply (f_equal (λ x, x.1.1)) in Heq. cbn [fst] in Heq. subst s1.
  set (s0 := if decide (last_mission_idx s ≠ mission_idx s) then _ else s).
  assert (H0 : mission_ctx_idx s0 = mission_ctx_idx s ∧
               current_player s0 = current_player s ∧
               source_initial s0 = source_initial s ∧
               source_text s0 = source_text s).
  { unfold s0. case_decide; done. }
  destruct H0 as (E1 & E2 & E3 & E4).
  set (s2 := prepare_mission_context m' (mission_idx s0) s0).
  assert (H2 : mission_ctx_idx s2 = current_player s ∧
               source_initial s2 = sample_for (current_player s) ∧
               source_text s2 = sample_for (current_player s)).
  { unfold s2, prepare_mission_context. case_decide as Hc.
    - rewrite E1, E2 in Hc. destruct (Hctx Hc) as [A B].
      rewrite E3, E4. by rewrite <- Hc at 1.
    - cbn [mission_ctx_idx source_initial source_text set_mission_ctx_idx
           set_action_log set_undo_target set_final_box set_editor_box
           set_destination_text set_source_initial set_source_text
           current_player].
      by rewrite E2. }
  destruct H2 as (F1 & F2 & F3).
  unfold render_simulation_panel. rewrite decide_False; [done|].
  by rewrite F2.
Qed.

Lemma register_context pidx m t1 t2 s s' :
  register_mission_success pidx m t1 t2 s = Some s' →
  source_text s' = source_text s ∧ source_initial s' = source_initial s ∧
  ((mission_ctx_idx s' = mission_ctx_idx s ∧
    current_player s' = current_player s) ∨
   (mission_ctx_idx s' = -1 ∧ current_player s' = current_player s + 1)).
Proof.
  intros Hreg.
  destruct (register_needs _ _ _ _ _ _ Hreg) as (p & started & Hp & Hst).
  unfold register_mission_success in Hreg. rewrite Hp, Hst in Hreg.
  cbn [mbind option_bind] in Hreg. apply (inj Some) in Hreg. subst s'.
  unfold finish_game.
  repeat case_match; (split; [done|split; [done|]]); (by left) || (by right).
Qed.

Lemma buttons_context m pidx t1 t2 s s' :
  m ∈ MISSIONS → render_game_buttons m pidx t1 t2 s = Some s' →
  source_text s' = source_text s ∧ source_initial s' = source_initial s ∧
  ((mission_ctx_idx s' = mission_ctx_idx s ∧
    current_player s' = current_player s) ∨
   (mission_ctx_idx s' = -1 ∧ current_player s' = current_player s + 1)).
Proof.
  intros Hm Hb.
  destruct (buttons_catalogue m pidx t1 t2 s Hm) as [Hr|(hint & Hr)];
    rewrite Hr in Hb.
  - apply register_context in Hb. exact Hb.
  - apply (inj Some) in Hb. subst s'. split; [done|]. split; [done|]. by left.
Qed.

Lemma render_game_context clicked t1 t2 s s' :
  context_ok s → render_game clicked t1 t2 s = Some s' → context_ok s'.
Proof.
  intros (Hcp & Hctx & _) Hrun. unfold render_game in Hrun.
  destruct (render_game_display s) as [[[s1 m] pidx]|] eqn:Hd; [|done].
  cbn [mbind option_bind] in Hrun.
  destruct (display_context _ _ _ _ Hd Hctx) as (F1 & F2 & F3).
  destruct (display_inv _ _ _ _ Hd) as ((_ & _ & Hcp1 & _) & Hm & _).
  destruct (samples_not_blank _ (sample_for_cases (current_player s)))
    as [_ Hnf].
  destruct clicked.
  - apply buttons_context in Hrun as (G1 & G2 & G3);
      [|by eapply py_getitem_elem].
    unfold context_ok. rewrite G1, G2, F2, F3.
    destruct G3 as [[G3 G4]|[G3 G4]]; rewrite G3, G4, Hcp1.
    + split; [done|]. split; [done|done].
    + split; [lia|]. split; [lia|done].
  - apply (inj Some) in Hrun. subst s'.
    unfold context_ok. rewrite F1, F2, F3, Hcp1. done.
Qed.

Lemma context_reachable acts s' :
  Forall action_ok acts → run acts init_state = Some s' → context_ok s'.
Proof.
  revert acts s'. apply (reachable_inv context_ok).
  - split; [done|]. split; [done|]. by vm_compute.
  - intros. split; [done|]. split; [done|]. by vm_compute.
  - done.
  - done.
  - done.
  - intros clicked t1 t2 s s' _ _ HI Hrun. by eapply render_game_context.
Qed.

(** X24: in every state a session can reach, the snapshot of the source
    text is never the fallback text of [render_simulation_panel]; and once
    the context of the current player is loaded, the snapshot and the
    source text are both that player's sample, which is not blank. *)
Theorem snapshot_is_the_players_sample (acts : list (action * (Z * Z)))
    (s' : session_state) :
  Forall action_ok acts → run acts init_state = Some s' →
  source_initial s' ≠ fallback_text ∧
  (mission_ctx_idx s' = current_player s' →
   source_initial s' = sample_for (current_player s') ∧
   source_text s' = sample_for (current_player s') ∧
   strip (source_initial s') ≠ []).
Proof.
  intros Hok Hrun.
  destruct (context_reachable acts s' Hok Hrun) as (_ & Hctx & Hnf).
  split; [done|]. intros Hc. destruct (Hctx Hc) as [A B].
  split; [done|]. split; [done|]. rewrite A.
  by destruct (samples_not_blank _ (sample_for_cases (current_player s'))).
Qed.

Lemma snapshot_is_the_players_sample_witness :
  Forall action_ok solo_game ∧ run solo_game init_state = Some solo_end ∧
  source_initial solo_end ≠ fallback_text ∧
  (mission_ctx_idx solo_end = current_player solo_end →
   source_initial solo_end = sample_for (current_player solo_end) ∧
   source_text solo_end = sample_for (current_player solo_end) ∧
   strip (source_initial solo_end) ≠ []).
Proof.
  assert (H1 : Forall action_ok solo_game).
  { repeat constructor; unfold action_ok; cbn; lia. }
  assert (H2 : run solo_game init_state = Some solo_end).
  { vm_compute. reflexivity. }
  split; [exact H1|]. split; [exact H2|].
  exact (snapshot_is_the_players_sample solo_game solo_end H1 H2).
Defined.

(** ** Phase counters *)

Lemma catalogue_phase m : m ∈ MISSIONS → phase_number (phase m) = py "1".
Proof.
  unfold MISSIONS. rewrite !elem_of_cons, elem_of_nil.
  intros H. destruct_or!; try done; subst m; by vm_compute.
Qed.

Lemma credit_player_phase m d p :
  m ∈ MISSIONS → phase_ok p → phase_ok (credit_player m d (add_attempt p)).
Proof.
  intros Hm Hp. unfold phase_ok in *.
  unfold credit_player. rewrite (catalogue_phase m Hm).
  cbn [add_attempt p_phase_hits p_hits]. rewrite Hp.
  rewrite lookup_insert_eq. rewrite lookup_insert_eq.
  cbn [default from_option id]. by rewrite insert_insert_eq.
Qed.

Lemma phase_reachable acts s' :
  Forall action_ok acts → run acts init_state = Some s' →
  Forall phase_ok (players s').
Proof.
  revert acts s'.
  apply (reachable_inv (λ s, Forall phase_ok (players s))).
  - apply Forall_nil_2.
  - intros. unfold init_players. apply Forall_fmap, Forall_forall.
    intros idx _. reflexivity.
  - done.
  - done.
  - done.
  - intros clicked t1 t2 s s' Hin _ Hall Hrun.
    destruct (render_game_step clicked t1 t2 s s' Hin Hrun)
      as (p & Hp & Hstep & _).
    assert (Hcp : phase_ok p).
    { rewrite Forall_lookup in Hall. by eapply Hall. }
    destruct Hstep as [-> _ _ _ _| -> _ _ _ _|m d Hm -> _ _]; [done|..].
    + apply Forall_insert; [done|exact Hcp].
    + apply Forall_insert; [done|].
      apply credit_player_phase; [by eapply py_getitem_elem|done].
Qed.

(** X25: in every state a session can reach, all the hits of a player are
    counted under phase 1 and the counters of phases 2 to 5 are zero: the
    regular expression of [phase_number] finds 1 in the phase of every
    mission of the catalogue, and the branch that adds a missing key is
    never taken. *)
Theorem all_hits_count_for_phase_one (acts : list (action * (Z * Z)))
    (s' : session_state) :
  Forall action_ok acts → run acts init_state = Some s' →
  ∀ p, p ∈ players s' →
    p_phase_hits p =
      list_to_map [(py "1", p_hits p); (py "2", 0); (py "3", 0);
                   (py "4", 0); (py "5", 0)].
Proof.
  intros Hok Hrun p Hp.
  pose proof (phase_reachable acts s' Hok Hrun) as Hall.
  rewrite Forall_forall in Hall. exact (Hall p Hp).
Qed.

Lemma all_hits_count_for_phase_one_witness :
  Forall action_ok solo_game ∧ run solo_game init_state = Some solo_end ∧
  ∀ p, p ∈ players solo_end →
    p_phase_hits p =
      list_to_map [(py "1", p_hits p); (py "2", 0); (py "3", 0);
                   (py "4", 0); (py "5", 0)].
Proof.
  assert (H1 : Forall action_ok solo_game).
  { repeat constructor; unfold action_ok; cbn; lia. }
  assert (H2 : run solo_game init_state = Some solo_end).
  { vm_compute. reflexivity. }
  split; [exact H1|]. split; [exact H2|].
  exact (all_hits_count_for_phase_one solo_game solo_end H1 H2).
Defined.

(** ** Starting a game *)

(** X26: a new game depends on the session before it only through
    [finish_reason] and [last_mission_idx]: "Iniciar Missao" overwrites
    every other key, so two sessions that agree on these two give the same
    state. *)
Theorem start_mission_forgets_the_past (count : Z) (turma alunos_txt : pystr)
    (safe : bool) (t1 t2 : Z) (s1 s2 : session_state) :
  finish_reason s1 = finish_reason s2 →
  last_mission_idx s1 = last_mission_idx s2 →
  start_mission count turma alunos_txt safe t1 t2 s1 =
  start_mission count turma alunos_txt safe t1 t2 s2.
Proof.
  intros Hf Hl. unfold start_mission, init_simulation_env.
  destruct s1, s2. cbn in Hf, Hl. subst. reflexivity.
Qed.

Lemma start_mission_forgets_the_past_witness :
  finish_reason init_state = finish_reason (set_total_xp 70 init_state) ∧
  last_mission_idx init_state = last_mission_idx (set_total_xp 70 init_state) ∧
  start_mission 2 [] [] true 0 0 init_state =
  start_mission 2 [] [] true 0 0 (set_total_xp 70 init_state).
Proof.
  assert (H1 : finish_reason init_state =
               finish_reason (set_total_xp 70 init_state)) by reflexivity.
  assert (H2 : last_mission_idx init_state =
               last_mission_idx (set_total_xp 70 init_state)) by reflexivity.
  split; [exact H1|]. split; [exact H2|].
  exact (start_mission_forgets_the_past 2 [] [] true 0 0 _ _ H1 H2).
Defined.

(** ** advance_player_turn *)

Lemma set_current_player_same s : set_current_player (current_player s) s = s.
Proof. by destruct s. Qed.

Lemma advance_iter (k : nat) s :
  1 < players_count s → 0 ≤ current_player s < players_count s →
  Nat.iter k advance_player_turn s =
  set_current_player ((current_player s + Z.of_nat k) `mod` players_count s) s.
Proof.
  intros Hpc Hcp. induction k as [|k IH].
  - change (Nat.iter 0 advance_player_turn s) with s.
    rewrite Z.add_0_r, Z.mod_small by done.
    by rewrite set_current_player_same.
  - change (Nat.iter (S k) advance_player_turn s)
      with (advance_player_turn (Nat.iter k advance_player_turn s)).
    rewrite IH. unfold advance_player_turn.
    rewrite decide_False by (cbn [players_count set_current_player]; lia).
    cbn [players_count current_player set_current_player].
    rewrite Z.add_mod_idemp_l by lia.
    replace (current_player s + Z.of_nat k + 1)
      with (current_player s + Z.of_nat (S k)) by lia.
    reflexivity.
Qed.

(** X27: [advance_player_turn] keeps the current player in range, moves
    the turn when there is more than one player, and comes back to the
    same session after as many calls as there are players. *)
Theorem advance_player_turn_cycles (s : session_state) :
  0 ≤ current_player s < players_count s →
  0 ≤ current_player (advance_player_turn s) < players_count s ∧
  players_count (advance_player_turn s) = players_count s ∧
  (1 < players_count s →
   current_player (advance_player_turn s) ≠ current_player s) ∧
  Nat.iter (Z.to_nat (players_count s)) advance_player_turn s = s.
Proof.
  intros Hcp. unfold advance_player_turn at 1 2 3 4.
  destruct (decide (players_count s ≤ 1)) as [Hle|Hgt].
  - split; [done|]. split; [done|]. split; [lia|].
    assert (Hone : players_count s = 1) by lia. rewrite Hone.
    change (Nat.iter (Z.to_nat 1) advance_player_turn s)
      with (advance_player_turn s).
    unfold advance_player_turn. by rewrite decide_True.
  - cbn [current_player players_count set_current_player].
    pose proof (Z.mod_pos_bound (current_player s + 1) (players_count s)) as Hb.
    split; [lia|]. split; [done|]. split.
    + intros _ Heq.
      destruct (decide (current_player s + 1 = players_count s)) as [He|Hne].
      * rewrite He, Z.mod_same in Heq by lia. lia.
      * rewrite Z.mod_small in Heq by lia. lia.
    + rewrite advance_iter by lia. rewrite Z2Nat.id by lia.
      replace (current_player s + players_count s)
        with (current_player s + 1 * players_count s) by lia.
      rewrite Z.mod_add, Z.mod_small by lia.
      apply set_current_player_same.
Qed.

Lemma advance_player_turn_cycles_witness :
  0 ≤ current_player trio_second < players_count trio_second ∧
  0 ≤ current_player (advance_player_turn trio_second)
    < players_count trio_second ∧
  players_count (advance_player_turn trio_second) = players_count trio_second ∧
  (1 < players_count trio_second →
   current_player (advance_player_turn trio_second) ≠
   current_player trio_second) ∧
  Nat.iter (Z.to_nat (players_count trio_second)) advance_player_turn
    trio_second = trio_second.
Proof.
  assert (H : 0 ≤ current_player trio_second < players_count trio_second).
  { cbn. lia. }
  split; [exact H|]. exact (advance_player_turn_cycles trio_second H).
Defined.

(** ** What changes the score *)

Lemma display_only_keeps t1 t2 s s' :
  render_game false t1 t2 s = Some s' →
  same_game s s' ∧ total_xp s' = total_xp s.
Proof.
  unfold render_game.
  destruct (render_game_display s) as [[[s1 m] pidx]|] eqn:Hd; [|done].
  cbn [mbind option_bind]. intros Heq. apply (inj Some) in Heq. subst s'.
  destruct (display_inv _ _ _ _ Hd) as (Hsame & _).
  by destruct (display_keeps _ _ _ _ Hd) as (Hxp & _).
Qed.

(** X28: only two buttons change the score or the turn: whatever the
    stage, a run of the script after anything but a click on the
    validation button or on "Iniciar Missao" leaves the players, their
    number, the turn, the mission index and the total XP as they were. *)
Theorem only_validation_changes_the_score (act : action) (t1 t2 : Z)
    (s s' : session_state) :
  act ≠ Validate →
  (∀ count turma alunos_txt safe,
     act ≠ StartMission count turma alunos_txt safe) →
  main act t1 t2 s = Some s' →
  players s' = players s ∧ players_count s' = players_count s ∧
  current_player s' = current_player s ∧ mission_idx s' = mission_idx s ∧
  total_xp s' = total_xp s.
Proof.
  intros Hv Hs. unfold main.
  assert (Hd : ∀ s0, players s0 = players s →
            players_count s0 = players_count s →
            current_player s0 = current_player s →
            mission_idx s0 = mission_idx s → total_xp s0 = total_xp s →
            render_game false t1 t2 s0 = Some s' →
            players s' = players s ∧ players_count s' = players_count s ∧
            current_player s' = current_player s ∧
            mission_idx s' = mission_idx s ∧ total_xp s' = total_xp s).
  { intros s0 E1 E2 E3 E4 E5 Hrun.
    destruct (display_only_keeps _ _ _ _ Hrun)
      as ((A1 & A2 & A3 & A4 & _) & A5).
    repeat split; congruence. }
  destruct (decide (stage s = py "start")).
  { destruct act; intros Heq; apply (inj Some) in Heq; subst s'; try done.
    by destruct (Hs count turma alunos_txt safe). }
  destruct (decide (stage s = py "game")).
  { destruct act; try done; by apply Hd. }
  destruct act; intros Heq; apply (inj Some) in Heq; subst s'; done.
Qed.

Lemma only_validation_changes_the_score_witness :
  Refresh ≠ Validate ∧
  (∀ count turma alunos_txt safe,
     Refresh ≠ StartMission count turma alunos_txt safe) ∧
  main Refresh 1 1 trio_second =
    Some (default init_state (main Refresh 1 1 trio_second)) ∧
  players (default init_state (main Refresh 1 1 trio_second)) = players trio_second.
Proof.
  assert (H1 : Refresh ≠ Validate) by discriminate.
  assert (H2 : ∀ count turma alunos_txt safe,
            Refresh ≠ StartMission count turma alunos_txt safe)
    by discriminate.
  assert (H3 : main Refresh 1 1 trio_second =
               Some (default init_state (main Refresh 1 1 trio_second))).
  { vm_compute. reflexivity. }
  split; [exact H1|]. split; [exact H2|]. split; [exact H3|].
  exact (proj1 (only_validation_changes_the_score Refresh 1 1 trio_second _
                  H1 H2 H3)).
Defined.

(** ** The browser's combo and the Python normaliser *)

Lemma normalizeCombo_parts e :
  normalizeCombo e =
  join (py "+")
    (pressed_modifiers e ++
     (if decide (default (key e) (keyMap !! key e) ∈ modifier_names) then []
      else [pressed_key e])).
Proof.
  unfold normalizeCombo, pressed_modifiers, pressed_key.
  destruct e as [[] [] [] [] k]; cbn [ctrlKey altKey shiftKey metaKey key];
    case_decide; reflexivity.
Qed.

Lemma pressed_modifiers_names e :
  Forall (λ m, m ∈ modifier_names) (pressed_modifiers e) ∧
  filter (λ m, m ∈ pressed_modifiers e) modifier_names = pressed_modifiers e.
Proof.
  unfold pressed_modifiers.
  destruct e as [[] [] [] [] k]; cbn [ctrlKey altKey shiftKey metaKey];
    (split; [repeat constructor; by vm_compute|by vm_compute]).
Qed.

Lemma normal_parts (mods rest : list pystr) :
  Forall (λ m, m ∈ modifier_names) mods →
  filter (λ m, m ∈ mods) modifier_names = mods →
  Forall (λ t, token_ok t ∧ normalize_token t = t ∧ t ∉ modifier_names) rest →
  normalize_combo (join (py "+") (mods ++ rest)) = join (py "+") (mods ++ rest).
Proof.
  intros Hmods Hfilter Hrest.
  assert (Hfixed : Forall (λ k, normalize_token k = k ∧ token_ok k)
                     (mods ++ rest)).
  { apply Forall_app. split.
    - eapply Forall_impl; [exact Hmods|]. intros m Hm.
      by apply modifiers_fixed.
    - eapply Forall_impl; [exact Hrest|]. intros t (? & ? & _). done. }
  rewrite normalize_combo_eq. unfold norm_tokens.
  rewrite tokens_join by (eapply Forall_impl; [exact Hfixed|]; by intros ? [_ ?]).
  rewrite fmap_fixed by (eapply Forall_impl; [exact Hfixed|]; by intros ? [? _]).
  f_equal. f_equal.
  - etrans; [|exact Hfilter]. apply filter_ext_in. intros m Hm.
    rewrite elem_of_app. split; [|by left].
    intros [?|Hin]; [done|]. rewrite Forall_forall in Hrest.
    by destruct (Hrest m Hin) as (_ & _ & ?).
  - rewrite filter_app. rewrite (filter_all _ rest).
    + rewrite filter_none; [done|].
      eapply Forall_impl; [exact Hmods|]. intros m Hm Hn. done.
    + eapply Forall_impl; [exact Hrest|]. by intros t (_ & _ & ?).
Qed.

Lemma mapping_keys_long k v : mapping !! k = Some v → (2 ≤ length k)%nat.
Proof.
  intros Hk. apply elem_of_list_to_map_2 in Hk.
  assert (Hall : Forall (λ kv : pystr * pystr, (2 ≤ length kv.1)%nat)
                   mapping_items).
  { unfold mapping_items. repeat constructor; cbn; lia. }
  rewrite Forall_forall in Hall. exact (Hall _ Hk).
Qed.

Lemma keyMap_single c v : keyMap !! [c] = Some v → c = 32%N.
Proof.
  intros Hk. apply elem_of_list_to_map_2 in Hk.
  rewrite !elem_of_cons, elem_of_nil in Hk.
  destruct_or!; try done; vm_compute in Hk; try discriminate.
  by injection Hk as -> _.
Qed.

(** X29: the combo that the browser script computes for a key event is
    already in the form of [normalize_combo], whenever the name of the key
    is a token that [normalize_token] leaves alone (or the key is itself a
    modifier); this is the case for every key of one ASCII character other
    than [+] and white space. *)
Theorem browser_combo_is_normal (e : key_event) :
  (default (key e) (keyMap !! key e) ∈ modifier_names ∨
   (token_ok (pressed_key e) ∧ normalize_token (pressed_key e) = pressed_key e ∧
    pressed_key e ∉ modifier_names) →
   normalize_combo (normalizeCombo e) = normalizeCombo e) ∧
  (∀ c, (c < 128)%N → is_sep c = false → key e = [c] →
     normalize_combo (normalizeCombo e) = normalizeCombo e).
Proof.
  assert (Hgen :
    default (key e) (keyMap !! key e) ∈ modifier_names ∨
    (token_ok (pressed_key e) ∧ normalize_token (pressed_key e) = pressed_key e ∧
     pressed_key e ∉ modifier_names) →
    normalize_combo (normalizeCombo e) = normalizeCombo e).
  { intros H. rewrite normalizeCombo_parts.
    destruct (pressed_modifiers_names e) as [Hm Hf].
    apply normal_parts; [done|done|].
    case_decide as Hk; [apply Forall_nil_2|].
    destruct H as [?|H]; [done|]. by apply Forall_singleton. }
  split; [exact Hgen|].
  intros c Hc Hsep Hkey. apply Hgen. right.
  assert (Hmap : keyMap !! [c] = None).
  { destruct (keyMap !! [c]) as [v|] eqn:E; [|done].
    apply keyMap_single in E. subst c. by vm_compute in Hsep. }
  destruct (ascii_case c Hc)
    as (l & u & Hl & Hu & _ & _ & Hu128 & _ & Hlu & Huu & _ & _ & Hsu).
  assert (Hp : pressed_key e = [u]).
  { unfold pressed_key. rewrite Hkey, Hmap. cbn [default from_option id].
    rewrite decide_True by done. unfold upper. cbn [mbind list_bind].
    by rewrite Hu, app_nil_r. }
  rewrite Hp. split; [|split].
  - split; [done|]. apply Forall_singleton. unfold not_sep. congruence.
  - unfold normalize_token.
    assert (Hlow : lower [u] = [l]).
    { unfold lower. cbn [mbind list_bind]. by rewrite Hlu, app_nil_r. }
    rewrite Hlow.
    destruct (mapping !! [l]) as [v|] eqn:E.
    { apply mapping_keys_long in E. cbn in E. lia. }
    cbn [default from_option id]. rewrite decide_True by done.
    unfold upper. cbn [mbind list_bind]. by rewrite Huu, app_nil_r.
  - unfold modifier_names. rewrite !elem_of_cons, elem_of_nil.
    intros H. destruct_or!; try done; by vm_compute in H.
Qed.

Lemma browser_combo_is_normal_witness :
  (ctrl_shift_v.(key) = [118%N]) ∧
  normalize_combo (normalizeCombo ctrl_shift_v) = normalizeCombo ctrl_shift_v.
Proof.
  assert (H : key ctrl_shift_v = [118%N]) by reflexivity.
  split; [exact H|].
  exact (proj2 (browser_combo_is_normal ctrl_shift_v) 118%N
           ltac:(reflexivity) ltac:(reflexivity) H).
Defined.

(** ** The name of the report *)

Lemma group_char_fmap (g : pystr) :
  Forall (λ c, group_char c = true)
    ((λ c, if group_char c then c else 45%N) <$> g).
Proof.
  apply Forall_fmap, Forall_forall. intros c _. cbn.
  by destruct (group_char c) eqn:E.
Qed.

(** X30: the part of the report's file name taken from the class name is
    never empty and holds only ASCII letters, digits, [_] and [-]: every
    other character of the class name became [-], one for one, and a name
    already in that alphabet is kept; so with a time stamp without [/] the
    upload path has exactly one [/], the one after the folder. *)
Theorem report_name_is_safe (ts : pystr) (s : session_state) :
  safe_group s ≠ [] ∧
  Forall (λ c, group_char c = true) (safe_group s) ∧
  (turma_grupo s ≠ [] →
   length (safe_group s) = length (turma_grupo s) ∧
   ∀ i c, turma_grupo s !! i = Some c →
     safe_group s !! i = Some (if group_char c then c else 45%N)) ∧
  (47%N ∉ ts →
   py_split 47 (upload_path (report_filename ts s)) =
     [py "relatorios-cybercommand"; report_filename ts s]).
Proof.
  assert (Hok : Forall (λ c, group_char c = true) (safe_group s))
    by apply group_char_fmap.
  split; [|split; [done|split]].
  - unfold safe_group. case_decide as Hg.
    + by vm_compute.
    + intros Hnil%fmap_nil_inv. done.
  - intros Hne. unfold safe_group. rewrite decide_False by done.
    split; [by rewrite length_fmap|].
    intros i c Hi. by rewrite list_lookup_fmap, Hi.
  - intros Hts. unfold upload_path.
    change (py "relatorios-cybercommand/")
      with (py "relatorios-cybercommand" ++ [47%N]).
    rewrite <- app_assoc. cbn [app].
    rewrite py_split_app by (apply (bool_decide_unpack _); by vm_compute).
    rewrite py_split_free; [done|].
    unfold report_filename. rewrite !not_elem_of_app.
    split; [apply (bool_decide_unpack _); by vm_compute|]. split.
    { intros Hin. rewrite Forall_forall in Hok. by apply Hok in Hin. }
    split; [apply (bool_decide_unpack _); by vm_compute|].
    split; [done|apply (bool_decide_unpack _); by vm_compute].
Qed.

Lemma report_name_is_safe_witness :
  turma_grupo dotted_group ≠ [] ∧ (47%N ∉ py "20260101-120000") ∧
  safe_group dotted_group = py "---9-A" ∧
  py_split 47 (upload_path (report_filename (py "20260101-120000") dotted_group))
    = [py "relatorios-cybercommand";
       report_filename (py "20260101-120000") dotted_group].
Proof.
  assert (H1 : turma_grupo dotted_group ≠ []) by (by vm_compute).
  assert (H2 : 47%N ∉ py "20260101-120000").
  { apply (bool_decide_unpack _). by vm_compute. }
  split; [exact H1|]. split; [exact H2|]. split; [by vm_compute|].
  exact (proj2 (proj2 (proj2
    (report_name_is_safe (py "20260101-120000") dotted_group))) H2).
Defined.


(** * The copy validation *)

(** C1: on a copy mission [validate_mission_by_result] succeeds exactly
    when the source buffer it is given, trimmed, is the (trimmed) snapshot
    [source_initial]; in particular it fails for every source buffer that
    was changed away from the snapshot.  The snapshot is the one
    [prepare_mission_context] takes when it loads the context: the player's
    sample, written to the source buffer as well, and already trimmed.  And
    in every state a session can reach with the context loaded, the
    snapshot that [render_game] passes to the validation is the source
    buffer itself. *)
Theorem C1_copy_compares_argument_with_snapshot (mission : Mission)
    (source_value editor_value final_value : pystr) (s : session_state) :
  task_type mission = py "copy" →
  ((validate_mission_by_result mission source_value editor_value final_value s).1
     = true ↔ strip source_value = strip (source_initial s)) ∧
  (strip source_value ≠ strip (source_initial s) →
   (validate_mission_by_result mission source_value editor_value final_value s).1
     = false) ∧
  (∀ m i s0, mission_ctx_idx s0 ≠ current_player s0 →
     source_initial (prepare_mission_context m i s0) =
       sample_for (current_player s0) ∧
     source_text (prepare_mission_context m i s0) =
       source_initial (prepare_mission_context m i s0) ∧
     strip (source_initial (prepare_mission_context m i s0)) =
       source_initial (prepare_mission_context m i s0)) ∧
  (∀ acts s1, Forall action_ok acts → run acts init_state = Some s1 →
     mission_ctx_idx s1 = current_player s1 →
     source_initial s1 = source_text s1 ∧
     validate_mission_by_result mission (source_initial s1) (editor_box s1)
       (final_box s1) s1 =
     validate_mission_by_result mission (source_text s1) (editor_box s1)
       (final_box s1) s1).
Proof.
  intros Ht. split; [|split; [|split]].
  - rewrite validate_copy by done. cbn [fst]. apply bool_decide_eq_true.
  - intros Hne. rewrite validate_copy by done. cbn [fst].
    by apply bool_decide_eq_false.
  - intros m i s0 Hne. destruct (prepare_fresh m i s0 Hne) as (E1 & E2 & _).
    rewrite E1, E2. split; [done|]. split; [done|]. apply strip_sample.
  - intros acts s1 Hok Hrun Hctx.
    destruct (context_reachable acts s1 Hok Hrun) as (_ & Hload & _).
    destruct (Hload Hctx) as [E1 E2].
    assert (E : source_initial s1 = source_text s1) by by rewrite E1, E2.
    split; [exact E|]. by rewrite E.
Qed.

Lemma C1_witness :
  task_type first_mission = py "copy" ∧
  strip (py "  texto alterado ") ≠ strip (source_initial loaded_game) ∧
  (validate_mission_by_result first_mission (py "  texto alterado ") [] []
     loaded_game).1 = false.
Proof.
  assert (H : task_type first_mission = py "copy") by reflexivity.
  assert (Hne : strip (py "  texto alterado ") ≠
                strip (source_initial loaded_game)) by (by vm_compute).
  split; [exact H|]. split; [exact Hne|].
  exact (proj1 (proj2 (C1_copy_compares_argument_with_snapshot first_mission
                         (py "  texto alterado ") [] [] loaded_game H)) Hne).
Defined.
